(** * go-tpm2: context management, startup and object creation

    A shallow embedding of the host-side code of go-tpm2 that saves and
    restores TPM contexts ([wrapContextBlob], [ContextSave], [ContextLoad]),
    evicts handle contexts on [Startup], and guards the arguments of
    [Create], together with the properties the specification states about
    them.

    Go pointers to handle contexts are addresses in an explicit heap, so
    that in-place updates and pointer comparisons read as in the source.
    The marshalling service, the digest functions and the TPM device are
    collaborators: the code is stated over their interfaces, and a concrete
    wire format with a scripted device instantiates them. *)

From Stdlib Require Import ZArith Lia String.
From Stdlib.Strings Require Import Byte.
From stdpp Require Import base option list gmap fin_maps.

Local Open Scope string_scope.
Local Open Scope Z_scope.
Local Open Scope list_scope.

(** ** Bytes and outcomes *)

Abbreviation bytes := (list byte).

#[global] Instance byte_eq_decision : EqDecision byte := Byte.byte_eq_dec.

(** The argument of a format string: the value printed by its verb. *)
Inductive fmt_arg :=
| ArgNone
| ArgValue (v : Z)
| ArgError.

(** Command codes of the commands driven here. *)
Inductive CommandCode :=
| CommandStartup
| CommandContextSave
| CommandContextLoad
| CommandCreate.

(** The errors the functions return.  [DeviceError] is an error of
    [RunCommand], by its code. *)
Inductive error :=
| InvalidParamError (param msg : string)
| ErrorString (msg : string)
| Errorf (format : string) (arg : fmt_arg)
| InvalidResponseError (cmd : CommandCode) (format : string) (arg : fmt_arg)
| DeviceError (code : Z).

(** A Go call either returns a value, returns an error, or panics. *)
Inductive outcome (A : Type) :=
| Ok (a : A)
| Err (e : error)
| Panic (msg : string).
Arguments Ok {A} a.
Arguments Err {A} e.
Arguments Panic {A} msg.

#[global] Instance outcome_ret : MRet outcome := fun A a => Ok a.

#[global] Instance outcome_bind : MBind outcome := fun A B f x =>
  match x with
  | Ok a => f a
  | Err e => Err e
  | Panic m => Panic m
  end.

(** [if cond { return err }] *)
Definition failIf (cond : bool) (e : error) : outcome unit :=
  if cond then Err e else Ok tt.

(** ** Handles and TPM constants

    Modelled from the spec: the handle types, session types and algorithm
    identifiers the code names are declared outside the files embedded
    here.  The spec lists the handle types (transient object, session,
    persistent object, NV index, PCR, permanent); the numeric values are
    those of the TPM 2.0 structures specification, and the properties below
    use only that they are distinct. *)

Definition Handle := Z.
Definition HandleType := Z.

(** Modelled from the spec: "Type is derived from the high byte" of the
    32-bit handle. *)
Definition Handle_Type (h : Handle) : HandleType := (Z.shiftr h 24) mod 256.
#[global] Arguments Handle_Type : simpl never.

Definition HandleTypePCR : HandleType := 0x00.
Definition HandleTypeNVIndex : HandleType := 0x01.
Definition HandleTypeHMACSession : HandleType := 0x02.
Definition HandleTypePolicySession : HandleType := 0x03.
Definition HandleTypePermanent : HandleType := 0x40.
Definition HandleTypeTransient : HandleType := 0x80.
Definition HandleTypePersistent : HandleType := 0x81.

Definition HandleOwner : Handle := 0x40000001.
Definition HandleNull : Handle := 0x40000007.

Definition HashAlgorithmId := Z.
Definition HashAlgorithmSHA256 : HashAlgorithmId := 0x000B.

Definition SessionType := Z.
Definition SessionTypeHMAC : SessionType := 0x00.
Definition SessionTypePolicy : SessionType := 0x01.
Definition SessionTypeTrial : SessionType := 0x03.

Definition policyHMACType := Z.
Definition policyHMACTypeMax : policyHMACType := 2.

Definition SymAlgorithmId := Z.
Definition SymAlgorithmAES : SymAlgorithmId := 0x0006.
Definition SymAlgorithmXOR : SymAlgorithmId := 0x000A.
Definition SymAlgorithmNull : SymAlgorithmId := 0x0010.
Definition SymAlgorithmSM4 : SymAlgorithmId := 0x0013.
Definition SymAlgorithmCamellia : SymAlgorithmId := 0x0026.

Definition SymModeId := Z.
Definition SymModeCFB : SymModeId := 0x0043.

Abbreviation Name := bytes (only parsing).
Abbreviation Digest := bytes (only parsing).
Abbreviation Nonce := bytes (only parsing).
Abbreviation ContextData := bytes (only parsing).

(** Modelled from the spec: the symmetric definition of a session
    ("symmetric algorithm/mode for parameter encryption"), declared outside
    the files embedded here.  [Mode] is read through the accessor [Sym()]. *)
Record SymDef := {
  Algorithm : SymAlgorithmId;
  KeyBits : Z;
  Mode : SymModeId
}.

Definition SymModeU_Sym (m : SymModeId) : SymModeId := m.

(** Modelled from the spec: the public area of an object ("algorithm,
    attributes, scheme parameters -- opaque to this core beyond needing to
    be marshalled"), with the fields the callers in cmds_ea_test.go set;
    [Params] is kept in its packed form. *)
Record Public := {
  Type_ : Z;
  NameAlg : HashAlgorithmId;
  Attrs : Z;
  AuthPolicy : Digest;
  Params : bytes
}.

(** The saved context exchanged with the TPM, with the four fields
    [ContextLoad] copies. *)
Record Context := {
  Sequence : Z;
  SavedHandle : Handle;
  Hierarchy : Handle;
  Blob : ContextData
}.

(** ** Wrapped context data *)

Record objectContextData := {
  ocd_Public : Public;
  ocd_Name : Name
}.

Record sessionContextData := {
  IsAudit : bool;
  IsExclusive : bool;
  HashAlg : HashAlgorithmId;
  SessionType_ : SessionType;
  PolicyHMACType : policyHMACType;
  IsBound : bool;
  BoundEntity : Name;
  SessionKey : Digest;
  NonceCaller : Nonce;
  NonceTPM : Nonce;
  Symmetric : SymDef
}.

(** [resourceContextDataU]: the [interface{}] is nil, or points to one of
    the two payloads. *)
Inductive resourceContextDataU :=
| DataNil
| DataObject (dd : objectContextData)
| DataSession (dd : sessionContextData).

Definition contextTypeObject : Z := 0.
Definition contextTypeSession : Z := 1.

(** The payload types [Select] chooses between. *)
Inductive payloadType :=
| objectContextDataT
| sessionContextDataT.

(** [resourceContextDataU.Select]: [None] is [invalidSelectorError]. *)
Definition Select (selector : Z) : option payloadType :=
  if selector =? contextTypeObject then Some objectContextDataT
  else if selector =? contextTypeSession then Some sessionContextDataT
  else None.

Definition payloadTypeOf (u : resourceContextDataU) : option payloadType :=
  match u with
  | DataNil => None
  | DataObject _ => Some objectContextDataT
  | DataSession _ => Some sessionContextDataT
  end.

Record resourceContextData := {
  ContextType : Z;
  Data : resourceContextDataU;
  TPMBlob : ContextData
}.

(** ** Handle contexts *)

Record objectContext := {
  o_handle : Handle;
  o_public : Public;
  o_name : Name
}.

Record sessionContext := {
  s_handle : Handle;
  s_usable : bool;
  s_isAudit : bool;
  s_isExclusive : bool;
  s_hashAlg : HashAlgorithmId;
  s_sessionType : SessionType;
  s_policyHMACType : policyHMACType;
  s_isBound : bool;
  s_boundEntity : Name;
  s_sessionKey : Digest;
  s_nonceCaller : Nonce;
  s_nonceTPM : Nonce;
  s_symmetric : SymDef
}.

(** What a [HandleContext] interface value points to.  [OtherContext]
    stands for the implementations that are not objects or sessions
    (permanent, PCR and NV index contexts). *)
Inductive HandleContext :=
| ObjectContext (c : objectContext)
| SessionContext (c : sessionContext)
| OtherContext (h : Handle).

Definition HandleContext_Handle (rc : HandleContext) : Handle :=
  match rc with
  | ObjectContext c => o_handle c
  | SessionContext c => s_handle c
  | OtherContext h => h
  end.

(** Addresses of handle contexts. *)
Abbreviation loc := positive (only parsing).

(** ** Collaborators *)

(** The marshalling collaborator, for the two shapes packed here:
    [MarshalToBytes(d)] of a [resourceContextData], and
    [MarshalToBytes(alg, checksum, data)].  [None] is a marshalling error. *)
Class Marshalling := {
  MarshalData : resourceContextData -> option bytes;
  UnmarshalData : bytes -> option resourceContextData;
  MarshalChecksummed : HashAlgorithmId -> bytes -> bytes -> option bytes;
  UnmarshalChecksummed : bytes -> option (HashAlgorithmId * bytes * bytes)
}.

(** Digests: Go's [crypto.SHA256] hash, the methods of [HashAlgorithmId],
    and [Public.compareName]. *)
Class Digests := {
  sha256 : bytes -> bytes;
  Supported : HashAlgorithmId -> bool;
  Size : HashAlgorithmId -> nat;
  hashSum : HashAlgorithmId -> bytes -> bytes;
  compareName : Public -> Name -> bool
}.

(** The TPM behind [RunCommand], the key function of the resource map,
    and the order in which Go ranges over the map. *)
Class Device := {
  Dev : Type;
  execStartup : Dev -> Z -> Dev * option Z;
  execContextSave : Dev -> Handle -> Dev * (Z + Context);
  execContextLoad : Dev -> Context -> Dev * (Z + Handle);
  normalizeHandleForMap : Handle -> Handle;
  mapRange : gmap Handle loc -> list (Handle * loc)
}.

(** What the code relies on from its collaborators. *)
Class MarshallingLaws `{Marshalling} : Prop := {
  unmarshal_marshal_data d bs :
    MarshalData d = Some bs -> UnmarshalData bs = Some d;
  unmarshal_data_select bs d :
    UnmarshalData bs = Some d ->
    exists ty, Select (ContextType d) = Some ty /\
               payloadTypeOf (Data d) = Some ty;
  unmarshal_marshal_checksummed alg integrity data bs :
    MarshalChecksummed alg integrity data = Some bs ->
    UnmarshalChecksummed bs = Some (alg, integrity, data)
}.

Class DigestLaws `{Digests} : Prop := {
  Supported_SHA256 : Supported HashAlgorithmSHA256 = true;
  NewHash_SHA256 data : hashSum HashAlgorithmSHA256 data = sha256 data
}.

Class DeviceLaws `{Device} : Prop := {
  mapRange_perm m : mapRange m ≡ₚ map_to_list m
}.

(** ** The TPM context *)

(** A command as [RunCommand] sends it. *)
Inductive Command :=
| CmdStartup (startupType : Z)
| CmdContextSave (saveHandle : Handle)
| CmdContextLoad (context : Context).

Section TPMContext.
Context `{Marshalling, Digests, Device}.

(** [TPMContext]: the device, the handle contexts it points to, the
    resource map and the exclusive session.  [issued] records the commands
    run so far, newest first, and [invalidated] the contexts that were
    evicted. *)
Record TPMContext := {
  device : Dev;
  issued : list Command;
  heap : gmap loc HandleContext;
  invalidated : gset loc;
  resources : gmap Handle loc;
  exclusiveSession : option loc
}.

Definition set_device (t : TPMContext) (d : Dev) (c : Command) : TPMContext :=
  {| device := d; issued := c :: issued t; heap := heap t;
     invalidated := invalidated t; resources := resources t;
     exclusiveSession := exclusiveSession t |}.

Definition set_heap (t : TPMContext) (h : gmap loc HandleContext) : TPMContext :=
  {| device := device t; issued := issued t; heap := h;
     invalidated := invalidated t; resources := resources t;
     exclusiveSession := exclusiveSession t |}.

Definition set_resources (t : TPMContext) (r : gmap Handle loc) : TPMContext :=
  {| device := device t; issued := issued t; heap := heap t;
     invalidated := invalidated t; resources := r;
     exclusiveSession := exclusiveSession t |}.

Definition set_invalidated (t : TPMContext) (s : gset loc) : TPMContext :=
  {| device := device t; issued := issued t; heap := heap t;
     invalidated := s; resources := resources t;
     exclusiveSession := exclusiveSession t |}.

Definition deviceResult {A} (r : Z + A) : error + A :=
  match r with
  | inl code => inl (DeviceError code)
  | inr a => inr a
  end.

(** Modelled from the spec: the command dispatch collaborator runs one
    command on the device; the resource map is not touched ("mutated only
    at well-defined command-completion points"). *)
Definition RunCommandStartup (t : TPMContext) (startupType : Z)
  : TPMContext * option error :=
  let '(d, r) := execStartup (device t) startupType in
  (set_device t d (CmdStartup startupType), DeviceError <$> r).

Definition RunCommandContextSave (t : TPMContext) (saveHandle : Handle)
  : TPMContext * (error + Context) :=
  let '(d, r) := execContextSave (device t) saveHandle in
  (set_device t d (CmdContextSave saveHandle), deviceResult r).

Definition RunCommandContextLoad (t : TPMContext) (context : Context)
  : TPMContext * (error + Handle) :=
  let '(d, r) := execContextLoad (device t) context in
  (set_device t d (CmdContextLoad context), deviceResult r).

(** Modelled from the spec: [addHandleContext] "inserts, keyed by handle,
    overwriting any stale saved-session entry for the same handle". *)
Definition addHandleContext (t : TPMContext) (l : loc) (rc : HandleContext)
  : TPMContext :=
  set_resources t
    (<[normalizeHandleForMap (HandleContext_Handle rc) := l]> (resources t)).

(** Modelled from the spec: [evictHandleContext] "removes and marks any
    external reference as invalidated"; evicting an absent handle changes
    nothing in the map. *)
Definition evictHandleContext (t : TPMContext) (l : loc) (rc : HandleContext)
  : TPMContext :=
  set_invalidated
    (set_resources t
       (delete (normalizeHandleForMap (HandleContext_Handle rc)) (resources t)))
    ({[l]} ∪ invalidated t).

(** The address of a newly allocated context: none that the TPM context
    holds. *)
Definition newLoc (t : TPMContext) : loc :=
  fresh (dom (heap t) ∪ map_img (resources t)
         ∪ from_option singleton ∅ (exclusiveSession t)).
#[global] Arguments newLoc : simpl never.

(** ** wrapContextBlob *)

Definition contextData (tpmBlob : ContextData) (context : HandleContext)
  : resourceContextData :=
  match context with
  | ObjectContext c =>
      {| ContextType := contextTypeObject;
         Data := DataObject {| ocd_Public := o_public c; ocd_Name := o_name c |};
         TPMBlob := tpmBlob |}
  | SessionContext c =>
      {| ContextType := contextTypeSession;
         Data := DataSession
           {| IsAudit := s_isAudit c;
              IsExclusive := s_isExclusive c;
              HashAlg := s_hashAlg c;
              SessionType_ := s_sessionType c;
              PolicyHMACType := s_policyHMACType c;
              IsBound := s_isBound c;
              BoundEntity := s_boundEntity c;
              SessionKey := s_sessionKey c;
              NonceCaller := s_nonceCaller c;
              NonceTPM := s_nonceTPM c;
              Symmetric := s_symmetric c |};
         TPMBlob := tpmBlob |}
  | OtherContext _ =>
      {| ContextType := 0; Data := DataNil; TPMBlob := tpmBlob |}
  end.

Definition wrapContextBlob (tpmBlob : ContextData) (context : HandleContext)
  : outcome ContextData :=
  let d := contextData tpmBlob context in
  match MarshalData d with
  | None => Panic "cannot marshal wrapped resource context data"
  | Some data =>
      match MarshalChecksummed HashAlgorithmSHA256 (sha256 data) data with
      | None =>
          Panic "cannot marshal wrapped resource context data and checksum"
      | Some data' => Ok data'
      end
  end.

(** ** ContextSave *)

Definition isUnusableSession (rc : HandleContext) : bool :=
  match rc with
  | SessionContext sc => negb (s_usable sc)
  | _ => false
  end.

Definition set_usable (sc : sessionContext) (u : bool) : sessionContext :=
  {| s_handle := s_handle sc; s_usable := u; s_isAudit := s_isAudit sc;
     s_isExclusive := s_isExclusive sc; s_hashAlg := s_hashAlg sc;
     s_sessionType := s_sessionType sc;
     s_policyHMACType := s_policyHMACType sc; s_isBound := s_isBound sc;
     s_boundEntity := s_boundEntity sc; s_sessionKey := s_sessionKey sc;
     s_nonceCaller := s_nonceCaller sc; s_nonceTPM := s_nonceTPM sc;
     s_symmetric := s_symmetric sc |}.

Definition set_Blob (c : Context) (b : ContextData) : Context :=
  {| Sequence := Sequence c; SavedHandle := SavedHandle c;
     Hierarchy := Hierarchy c; Blob := b |}.

Definition ContextSave (t : TPMContext) (saveContext : loc)
  : TPMContext * outcome Context :=
  match heap t !! saveContext with
  | None => (t, Panic "nil HandleContext")
  | Some rc =>
      if isUnusableSession rc then
        (t, Err (InvalidParamError "saveContext" "unusable session HandleContext"))
      else
        let '(t1, r) := RunCommandContextSave t (HandleContext_Handle rc) in
        match r with
        | inl err => (t1, Err err)
        | inr context =>
            match wrapContextBlob (Blob context) rc with
            | Ok blob =>
                let t2 :=
                  match rc with
                  | SessionContext sc =>
                      set_heap t1
                        (<[saveContext := SessionContext (set_usable sc false)]>
                           (heap t1))
                  | _ => t1
                  end in
                (t2, Ok (set_Blob context blob))
            | Err e => (t1, Err e)
            | Panic m => (t1, Panic m)
            end
        end
  end.

(** ** ContextLoad *)

(** The checks on a restored object payload. *)
Definition checkObjectContextData (savedHandle : Handle)
  (u : resourceContextDataU) : outcome unit :=
  failIf (negb (Handle_Type savedHandle =? HandleTypeTransient))
    (ErrorString "cannot load context: inconsistent handle type");;
  match u with
  | DataObject dd =>
      failIf (negb (compareName (ocd_Public dd) (ocd_Name dd)))
        (ErrorString
           "cannot load context for object: public area and name don't match")
  | _ => Panic "interface conversion: not *objectContextData"
  end.

Definition isSessionHandleType (ty : HandleType) : bool :=
  (ty =? HandleTypeHMACSession) || (ty =? HandleTypePolicySession).

Definition isSessionType (ty : SessionType) : bool :=
  (ty =? SessionTypeHMAC) || (ty =? SessionTypePolicy) || (ty =? SessionTypeTrial).

Definition isKnownSymAlgorithm (a : SymAlgorithmId) : bool :=
  (a =? SymAlgorithmAES) || (a =? SymAlgorithmXOR) || (a =? SymAlgorithmNull)
  || (a =? SymAlgorithmSM4) || (a =? SymAlgorithmCamellia).

Definition isBlockCipher (a : SymAlgorithmId) : bool :=
  (a =? SymAlgorithmAES) || (a =? SymAlgorithmSM4) || (a =? SymAlgorithmCamellia).

(** The checks on a restored session payload, in the order of the source. *)
Definition checkSessionContextData (savedHandle : Handle)
  (u : resourceContextDataU) : outcome unit :=
  failIf (negb (isSessionHandleType (Handle_Type savedHandle)))
    (ErrorString "cannot load context: inconsistent handle type");;
  match u with
  | DataSession dd =>
      failIf (negb (IsAudit dd) && IsExclusive dd)
        (Errorf "cannot load context for session: inconsistent audit attributes"
           ArgNone);;
      failIf (negb (Supported (HashAlg dd)))
        (Errorf "cannot load context for session: invalid hash algorithm %v"
           (ArgValue (HashAlg dd)));;
      failIf (negb (isSessionType (SessionType_ dd)))
        (Errorf "cannot load context for session: invalid type %v"
           (ArgValue (SessionType_ dd)));;
      failIf (policyHMACTypeMax <? PolicyHMACType dd)
        (ErrorString "cannot load context for session: invalid value");;
      failIf ((IsBound dd && (length (BoundEntity dd) =? 0)%nat)
              || (negb (IsBound dd) && (0 <? length (BoundEntity dd))%nat))
        (ErrorString "cannot load context for session: inconsistent properties");;
      let digestSize := Size (HashAlg dd) in
      failIf (negb (length (SessionKey dd) =? digestSize)%nat
              && negb (length (SessionKey dd) =? 0)%nat)
        (ErrorString "cannot load context for session: unexpected session key size");;
      failIf (negb (length (NonceCaller dd) =? digestSize)%nat
              || negb (length (NonceTPM dd) =? digestSize)%nat)
        (ErrorString "cannot load context for session: unexpected nonce size");;
      failIf (negb (isKnownSymAlgorithm (Algorithm (Symmetric dd))))
        (Errorf "cannot load context for session: invalid symmetric algorithm %v"
           (ArgValue (Algorithm (Symmetric dd))));;
      failIf (isBlockCipher (Algorithm (Symmetric dd))
              && negb (SymModeU_Sym (Mode (Symmetric dd)) =? SymModeCFB))
        (Errorf "cannot load context for session: invalid symmetric mode %v"
           (ArgValue (SymModeU_Sym (Mode (Symmetric dd)))))
  | _ => Panic "interface conversion: not *sessionContextData"
  end.

(** The first [switch d.ContextType] of [ContextLoad]. *)
Definition checkContextData (savedHandle : Handle) (d : resourceContextData)
  : outcome unit :=
  if ContextType d =? contextTypeObject then
    checkObjectContextData savedHandle (Data d)
  else if ContextType d =? contextTypeSession then
    checkSessionContextData savedHandle (Data d)
  else Err (ErrorString "cannot load context: inconsistent attributes").

(** [ContextLoad] up to the point where the TPM command is run: unpack the
    checksummed blob, verify the checksum, unpack and check the data. *)
Definition unwrapContextBlob (context : Context) : outcome resourceContextData :=
  match UnmarshalChecksummed (Blob context) with
  | None =>
      Err (Errorf
             "cannot load context: cannot unpack checksum and data blob: %v"
             ArgError)
  | Some (integrityAlg, integrity, data) =>
      failIf (negb (Supported integrityAlg))
        (ErrorString "cannot load context: invalid checksum algorithm");;
      failIf (negb (bool_decide (hashSum integrityAlg data = integrity)))
        (ErrorString "cannot load context: invalid checksum");;
      match UnmarshalData data with
      | None =>
          Err (Errorf "cannot load context: cannot unmarshal data blob: %v"
                 ArgError)
      | Some d => checkContextData (SavedHandle context) d;; Ok d
      end
  end.

(** The session context [ContextLoad] leaves at address [l]: every field
    of the context is assigned. *)
Definition restoredSession (t : TPMContext) (l : loc) (loadedHandle : Handle)
  (dd : sessionContextData) : sessionContext :=
  {| s_handle := loadedHandle;
     s_usable := true;
     s_isAudit := IsAudit dd;
     s_isExclusive := IsExclusive dd && bool_decide (exclusiveSession t = Some l);
     s_hashAlg := HashAlg dd;
     s_sessionType := SessionType_ dd;
     s_policyHMACType := PolicyHMACType dd;
     s_isBound := IsBound dd;
     s_boundEntity := BoundEntity dd;
     s_sessionKey := SessionKey dd;
     s_nonceCaller := NonceCaller dd;
     s_nonceTPM := NonceTPM dd;
     s_symmetric := Symmetric dd |}.

(** The second [switch d.ContextType]: build or update the handle context
    for the handle the TPM returned.  The result is the address of the
    context and the context itself. *)
Definition restoreContext (t : TPMContext) (context : Context)
  (d : resourceContextData) (loadedHandle : Handle)
  : outcome (TPMContext * loc * HandleContext) :=
  if ContextType d =? contextTypeObject then
    failIf (negb (Handle_Type loadedHandle =? HandleTypeTransient))
      (InvalidResponseError CommandContextLoad
         "handle 0x%08x returned from TPM is the wrong type"
         (ArgValue loadedHandle));;
    match Data d with
    | DataObject dd =>
        let l := newLoc t in
        let rc := ObjectContext {| o_handle := loadedHandle;
                                   o_public := ocd_Public dd;
                                   o_name := ocd_Name dd |} in
        Ok (set_heap t (<[l := rc]> (heap t)), l, rc)
    | _ => Panic "interface conversion: not *objectContextData"
    end
  else if ContextType d =? contextTypeSession then
    failIf (negb (loadedHandle =? SavedHandle context))
      (InvalidResponseError CommandContextLoad
         "handle 0x%08x returned from TPM is incorrect"
         (ArgValue loadedHandle));;
    l ← match resources t !! normalizeHandleForMap loadedHandle with
        | Some l =>
            match heap t !! l with
            | Some (SessionContext _) => Ok l
            | _ => Panic "interface conversion: not *sessionContext"
            end
        | None => Ok (newLoc t)
        end;
    match Data d with
    | DataSession dd =>
        let rc := SessionContext (restoredSession t l loadedHandle dd) in
        Ok (set_heap t (<[l := rc]> (heap t)), l, rc)
    | _ => Panic "interface conversion: not *sessionContextData"
    end
  else Panic "nil HandleContext".

(** The context handed to the TPM: the caller's, with the TPM's own blob
    in place of the wrapped one. *)
Definition tpmContextFor (context : Context) (d : resourceContextData)
  : Context :=
  {| Sequence := Sequence context;
     SavedHandle := SavedHandle context;
     Hierarchy := Hierarchy context;
     Blob := TPMBlob d |}.

Definition ContextLoad (t : TPMContext) (context : option Context)
  : TPMContext * outcome loc :=
  match context with
  | None => (t, Err (InvalidParamError "context" "nil value"))
  | Some context =>
      match unwrapContextBlob context with
      | Err e => (t, Err e)
      | Panic m => (t, Panic m)
      | Ok d =>
          let tpmContext := tpmContextFor context d in
          let '(t1, r) := RunCommandContextLoad t tpmContext in
          match r with
          | inl err => (t1, Err err)
          | inr loadedHandle =>
              match restoreContext t1 context d loadedHandle with
              | Err e => (t1, Err e)
              | Panic m => (t1, Panic m)
              | Ok (t2, l, rc) => (addHandleContext t2 l rc, Ok l)
              end
          end
      end
  end.

(** ** Startup *)

Definition survivesStartup (ty : HandleType) : bool :=
  (ty =? HandleTypePCR) || (ty =? HandleTypeNVIndex)
  || (ty =? HandleTypePermanent) || (ty =? HandleTypePersistent).

(** The [range] loop over [t.resources].  [entries] is the order in which
    Go visits the map; an entry removed before it is reached is not
    produced. *)
Fixpoint evictLoop (entries : list (Handle * loc)) (t : TPMContext)
  : outcome TPMContext :=
  match entries with
  | [] => Ok t
  | (k, l) :: rest =>
      if bool_decide (resources t !! k = Some l) then
        match heap t !! l with
        | None => Panic "nil HandleContext"
        | Some rc =>
            if survivesStartup (Handle_Type (HandleContext_Handle rc)) then
              evictLoop rest t
            else evictLoop rest (evictHandleContext t l rc)
        end
      else evictLoop rest t
  end.

Definition Startup (t : TPMContext) (startupType : Z)
  : TPMContext * outcome unit :=
  let '(t1, r) := RunCommandStartup t startupType in
  match r with
  | Some err => (t1, Err err)
  | None =>
      match evictLoop (mapRange (resources t1)) t1 with
      | Ok t2 => (t2, Ok tt)
      | Err e => (t1, Err e)
      | Panic m => (t1, Panic m)
      end
  end.

End TPMContext.

(** ** Create (tpmImpl) *)

Module Impl.

Inductive error :=
| InvalidParamError (msg : string)
| OtherError (code : Z).

Record SensitiveCreate := {
  UserAuth : bytes;
  Data : bytes
}.

(** [&SensitiveCreate{}] *)
Definition emptySensitiveCreate : SensitiveCreate :=
  {| UserAuth := []; Data := [] |}.

(** The types [Create] only passes through, the check of a resource
    context against the TPM context, and the device behind [RunCommand]. *)
Class Collaborators := {
  ResourceContext : Type;
  ResourceContext_Handle : ResourceContext -> Handle;
  PCRSelectionList : Type;
  CreationData : Type;
  TkCreation : Type;
  Session : Type;
  State : Type;
  checkResourceContextParam : State -> ResourceContext -> option error;
  CreateResponse :=
    (bytes * Public * CreationData * bytes * TkCreation)%type;
  execCreate :
    State -> Handle -> SensitiveCreate -> Public -> bytes -> PCRSelectionList ->
    Session -> State * (error + CreateResponse)
}.

Section Create.
Context `{Collaborators}.

(** The [CommandCreate] command with its parameters. *)
Record CreateCommand := {
  cc_parent : Handle;
  cc_inSensitive : SensitiveCreate;
  cc_inPublic : Public;
  cc_outsideInfo : bytes;
  cc_creationPCR : PCRSelectionList;
  cc_session : Session
}.

(** [tpmImpl], with the commands it has run, newest first. *)
Record tpmImpl := {
  state : State;
  issued : list CreateCommand
}.

Definition RunCommandCreate (t : tpmImpl) (c : CreateCommand)
  : tpmImpl * (error + CreateResponse) :=
  let '(s, r) :=
    execCreate (state t) (cc_parent c) (cc_inSensitive c) (cc_inPublic c)
      (cc_outsideInfo c) (cc_creationPCR c) (cc_session c) in
  ({| state := s; issued := c :: issued t |}, r).

(** [Create].  A nil pointer or interface argument is [None]. *)
Definition Create (t : tpmImpl) (parentHandle : option ResourceContext)
  (inSensitive : option SensitiveCreate) (inPublic : option Public)
  (outsideInfo : bytes) (creationPCR : PCRSelectionList) (session : Session)
  : tpmImpl * (error + CreateResponse) :=
  match parentHandle with
  | None => (t, inl (InvalidParamError "nil parentHandle"))
  | Some parentHandle =>
      let inSensitive :=
        match inSensitive with
        | None => emptySensitiveCreate
        | Some s => s
        end in
      match inPublic with
      | None => (t, inl (InvalidParamError "nil inPublic"))
      | Some inPublic =>
          match checkResourceContextParam (state t) parentHandle with
          | Some err => (t, inl err)
          | None =>
              RunCommandCreate t
                {| cc_parent := ResourceContext_Handle parentHandle;
                   cc_inSensitive := inSensitive;
                   cc_inPublic := inPublic;
                   cc_outsideInfo := outsideInfo;
                   cc_creationPCR := creationPCR;
                   cc_session := session |}
          end
      end
  end.

End Create.
End Impl.

(** ** A wire format

    An instance of the marshalling collaborator in the style of the TPM
    wire format: big-endian unsigned integers, one byte per boolean,
    buffers and sized structures behind a 16-bit length, and a union
    selected by the field before it.  Marshalling fails on a value that
    does not fit its field. *)

Module Wire.

Definition byteOfZ (v : Z) : byte :=
  default x00 (Byte.of_N (Z.to_N (v mod 256))).

Definition ZOfByte (b : byte) : Z := Z.of_N (Byte.to_N b).

(** The [n] low bytes of [v], most significant first. *)
Fixpoint putUint (n : nat) (v : Z) : bytes :=
  match n with
  | O => []
  | S n' => byteOfZ (v / 256 ^ Z.of_nat n') :: putUint n' (v mod 256 ^ Z.of_nat n')
  end.

Fixpoint getUintFrom (n : nat) (acc : Z) (bs : bytes) : option (Z * bytes) :=
  match n with
  | O => Some (acc, bs)
  | S n' =>
      match bs with
      | [] => None
      | b :: bs' => getUintFrom n' (acc * 256 + ZOfByte b) bs'
      end
  end.

Definition encUint (n : nat) (v : Z) : option bytes :=
  if (0 <=? v) && (v <? 256 ^ Z.of_nat n) then Some (putUint n v) else None.

Definition decUint (n : nat) (bs : bytes) : option (Z * bytes) :=
  getUintFrom n 0 bs.

Definition encBool (b : bool) : option bytes :=
  Some [if b then x01 else x00].

Definition decBool (bs : bytes) : option (bool * bytes) :=
  match bs with
  | x00 :: bs' => Some (false, bs')
  | x01 :: bs' => Some (true, bs')
  | _ => None
  end.

(** A buffer behind its 16-bit length. *)
Definition encSized (b : bytes) : option bytes :=
  hdr ← encUint 2 (Z.of_nat (length b)); Some (hdr ++ b).

Definition decSized (bs : bytes) : option (bytes * bytes) :=
  '(n, bs1) ← decUint 2 bs;
  if decide (Z.to_nat n <= length bs1)%nat
  then Some (take (Z.to_nat n) bs1, drop (Z.to_nat n) bs1)
  else None.

Definition encSymDef (s : SymDef) : option bytes :=
  a ← encUint 2 (Algorithm s);
  k ← encUint 2 (KeyBits s);
  m ← encUint 2 (Mode s);
  Some (a ++ k ++ m).

Definition decSymDef (bs : bytes) : option (SymDef * bytes) :=
  '(a, bs1) ← decUint 2 bs;
  '(k, bs2) ← decUint 2 bs1;
  '(m, bs3) ← decUint 2 bs2;
  Some ({| Algorithm := a; KeyBits := k; Mode := m |}, bs3).

(** A public area: its fixed fields, then the packed parameters up to the
    end of the enclosing sized structure. *)
Definition encPublicBody (p : Public) : option bytes :=
  t ← encUint 2 (Type_ p);
  n ← encUint 2 (NameAlg p);
  a ← encUint 4 (Attrs p);
  ap ← encSized (AuthPolicy p);
  Some (t ++ n ++ a ++ ap ++ Params p).

Definition decPublicBody (bs : bytes) : option Public :=
  '(t, bs1) ← decUint 2 bs;
  '(n, bs2) ← decUint 2 bs1;
  '(a, bs3) ← decUint 4 bs2;
  '(ap, bs4) ← decSized bs3;
  Some {| Type_ := t; NameAlg := n; Attrs := a; AuthPolicy := ap; Params := bs4 |}.

Definition encObjectData (dd : objectContextData) : option bytes :=
  body ← encPublicBody (ocd_Public dd);
  pub ← encSized body;
  name ← encSized (ocd_Name dd);
  Some (pub ++ name).

Definition decObjectData (bs : bytes) : option (objectContextData * bytes) :=
  '(body, bs1) ← decSized bs;
  pub ← decPublicBody body;
  '(name, bs2) ← decSized bs1;
  Some ({| ocd_Public := pub; ocd_Name := name |}, bs2).

Definition encSessionData (dd : sessionContextData) : option bytes :=
  f1 ← encBool (IsAudit dd);
  f2 ← encBool (IsExclusive dd);
  f3 ← encUint 2 (HashAlg dd);
  f4 ← encUint 1 (SessionType_ dd);
  f5 ← encUint 1 (PolicyHMACType dd);
  f6 ← encBool (IsBound dd);
  f7 ← encSized (BoundEntity dd);
  f8 ← encSized (SessionKey dd);
  f9 ← encSized (NonceCaller dd);
  f10 ← encSized (NonceTPM dd);
  f11 ← encSymDef (Symmetric dd);
  Some (f1 ++ f2 ++ f3 ++ f4 ++ f5 ++ f6 ++ f7 ++ f8 ++ f9 ++ f10 ++ f11).

Definition decSessionData (bs : bytes) : option (sessionContextData * bytes) :=
  '(f1, bs1) ← decBool bs;
  '(f2, bs2) ← decBool bs1;
  '(f3, bs3) ← decUint 2 bs2;
  '(f4, bs4) ← decUint 1 bs3;
  '(f5, bs5) ← decUint 1 bs4;
  '(f6, bs6) ← decBool bs5;
  '(f7, bs7) ← decSized bs6;
  '(f8, bs8) ← decSized bs7;
  '(f9, bs9) ← decSized bs8;
  '(f10, bs10) ← decSized bs9;
  '(f11, bs11) ← decSymDef bs10;
  Some ({| IsAudit := f1; IsExclusive := f2; HashAlg := f3; SessionType_ := f4;
           PolicyHMACType := f5; IsBound := f6; BoundEntity := f7;
           SessionKey := f8; NonceCaller := f9; NonceTPM := f10;
           Symmetric := f11 |}, bs11).

(** The union: the payload must be of the type [Select] gives for the
    selector. *)
Definition encUnion (selector : Z) (u : resourceContextDataU) : option bytes :=
  match Select selector, u with
  | Some objectContextDataT, DataObject dd => encObjectData dd
  | Some sessionContextDataT, DataSession dd => encSessionData dd
  | _, _ => None
  end.

Definition decUnion (selector : Z) (bs : bytes)
  : option (resourceContextDataU * bytes) :=
  match Select selector with
  | Some objectContextDataT => '(dd, bs1) ← decObjectData bs; Some (DataObject dd, bs1)
  | Some sessionContextDataT => '(dd, bs1) ← decSessionData bs; Some (DataSession dd, bs1)
  | None => None
  end.

Definition encData (d : resourceContextData) : option bytes :=
  ct ← encUint 1 (ContextType d);
  u ← encUnion (ContextType d) (Data d);
  blob ← encSized (TPMBlob d);
  Some (ct ++ u ++ blob).

Definition decData (bs : bytes) : option resourceContextData :=
  '(ct, bs1) ← decUint 1 bs;
  '(u, bs2) ← decUnion ct bs1;
  '(blob, _) ← decSized bs2;
  Some {| ContextType := ct; Data := u; TPMBlob := blob |}.

Definition encChecksummed (alg : HashAlgorithmId) (integrity data : bytes)
  : option bytes :=
  a ← encUint 2 alg;
  i ← encSized integrity;
  d ← encSized data;
  Some (a ++ i ++ d).

Definition decChecksummed (bs : bytes)
  : option (HashAlgorithmId * bytes * bytes) :=
  '(a, bs1) ← decUint 2 bs;
  '(i, bs2) ← decSized bs1;
  '(d, _) ← decSized bs2;
  Some (a, i, d).

#[global] Instance marshalling : Marshalling := {|
  MarshalData := encData;
  UnmarshalData := decData;
  MarshalChecksummed := encChecksummed;
  UnmarshalChecksummed := decChecksummed
|}.

End Wire.

(** ** A device to run the code on

    Digests by a small mixing function, and a device that answers
    [ContextLoad] from a script; they instantiate the collaborators so that
    the functions above can be evaluated. *)

Module Sample.

Definition HashAlgorithmSHA1 : HashAlgorithmId := 0x0004.
Definition HashAlgorithmSHA384 : HashAlgorithmId := 0x000C.
Definition HashAlgorithmSHA512 : HashAlgorithmId := 0x000D.

Definition supported (a : HashAlgorithmId) : bool :=
  (a =? HashAlgorithmSHA1) || (a =? HashAlgorithmSHA256)
  || (a =? HashAlgorithmSHA384) || (a =? HashAlgorithmSHA512).

Definition size (a : HashAlgorithmId) : nat :=
  if a =? HashAlgorithmSHA1 then 20
  else if a =? HashAlgorithmSHA256 then 32
  else if a =? HashAlgorithmSHA384 then 48
  else if a =? HashAlgorithmSHA512 then 64
  else 0.

Definition mix (data : bytes) : Z :=
  fold_left (fun acc b => (acc * 33 + Wire.ZOfByte b) mod 2 ^ 64) data 5381.

Definition digest (a : HashAlgorithmId) (data : bytes) : bytes :=
  Wire.putUint (size a) (mix data + a).

(** A name is the name algorithm followed by the digest of the public
    area. *)
Definition nameOf (p : Public) : option bytes :=
  body ← Wire.encPublicBody p;
  Some (Wire.putUint 2 (NameAlg p) ++ digest (NameAlg p) body).

Definition sameName (p : Public) (n : bytes) : bool :=
  bool_decide (nameOf p = Some n).

#[global] Instance sample_digests : Digests := {|
  sha256 := digest HashAlgorithmSHA256;
  Supported := supported;
  Size := size;
  hashSum := digest;
  compareName := sameName
|}.

Definition opaqueBlob : bytes := [x54; x50; x4d; x00; x2a].

Definition saveContext (d : list (Z + Handle)) (h : Handle)
  : list (Z + Handle) * (Z + Context) :=
  (d, inr {| Sequence := 1;
             SavedHandle :=
               if Handle_Type h =? HandleTypeTransient then 0x80000000 else h;
             Hierarchy := HandleOwner;
             Blob := opaqueBlob |}).

(** The next scripted answer, or the saved handle once the script is
    exhausted. *)
Definition loadContext (d : list (Z + Handle)) (c : Context)
  : list (Z + Handle) * (Z + Handle) :=
  match d with
  | r :: d' => (d', r)
  | [] => ([], inr (SavedHandle c))
  end.

(** HMAC and policy sessions share one handle space. *)
Definition normalize (h : Handle) : Handle :=
  if Handle_Type h =? HandleTypePolicySession
  then Z.lor (Z.land h 0xffffff) (Z.shiftl HandleTypeHMACSession 24)
  else h.

#[global] Instance sample_device : Device := {|
  Dev := list (Z + Handle);
  execStartup := fun d _ => (d, None);
  execContextSave := saveContext;
  execContextLoad := loadContext;
  normalizeHandleForMap := normalize;
  mapRange := map_to_list
|}.

Definition symNull : SymDef :=
  {| Algorithm := SymAlgorithmNull; KeyBits := 0; Mode := 0 |}.

Definition zeros (n : nat) : bytes := replicate n x00.

(** An audit session that is exclusive, as [StartAuthSession] and a
    command run with the audit attributes leave it. *)
Definition session1 : sessionContext :=
  {| s_handle := 0x02000000; s_usable := true; s_isAudit := true;
     s_isExclusive := true; s_hashAlg := HashAlgorithmSHA256;
     s_sessionType := SessionTypeHMAC; s_policyHMACType := 0;
     s_isBound := false; s_boundEntity := []; s_sessionKey := [];
     s_nonceCaller := zeros 32; s_nonceTPM := replicate 32 x01;
     s_symmetric := symNull |}.

Definition public1 : Public :=
  {| Type_ := 0x0008; NameAlg := HashAlgorithmSHA256; Attrs := 0x12;
     AuthPolicy := []; Params := [x00; x10] |}.

Definition object1 : objectContext :=
  {| o_handle := 0x80000001; o_public := public1;
     o_name := default [] (nameOf public1) |}.

(** A TPM context holding [session1] at address 1, as the exclusive
    session, [object1] at address 2, and the owner hierarchy at
    address 3. *)
Definition tpm1 : TPMContext :=
  {| device := [];
     issued := [];
     heap := {[ 1%positive := SessionContext session1;
                2%positive := ObjectContext object1;
                3%positive := OtherContext HandleOwner ]};
     invalidated := ∅;
     resources := {[ 0x02000000 := 1%positive;
                     0x80000001 := 2%positive;
                     HandleOwner := 3%positive ]};
     exclusiveSession := Some 1%positive |}.

(** [tpm1] after saving [session1], and the saved context. *)
Definition tpm1saved : TPMContext :=
  Eval vm_compute in fst (ContextSave tpm1 1%positive).

Definition saved1 : Context :=
  Eval vm_compute in
    match snd (ContextSave tpm1 1%positive) with
    | Ok c => c
    | _ => {| Sequence := 0; SavedHandle := 0; Hierarchy := 0; Blob := [] |}
    end.

(** The inner data of [saved1]. *)
Definition inner1 : bytes :=
  Eval vm_compute in
    default [] (Wire.encData (contextData opaqueBlob (SessionContext session1))).

(** [saved1] with one byte of its stored checksum replaced. *)
Definition flipped1 : Context :=
  Eval vm_compute in set_Blob saved1 (<[10%nat := xff]> (Blob saved1)).

(** [session1] with a session key that is not of the digest size. *)
Definition session1bad : sessionContext :=
  {| s_handle := 0x02000000; s_usable := true; s_isAudit := true;
     s_isExclusive := true; s_hashAlg := HashAlgorithmSHA256;
     s_sessionType := SessionTypeHMAC; s_policyHMACType := 0;
     s_isBound := false; s_boundEntity := []; s_sessionKey := [x01];
     s_nonceCaller := zeros 32; s_nonceTPM := replicate 32 x01;
     s_symmetric := symNull |}.

(** The context of [session1bad], saved. *)
Definition wrappedBad : bytes :=
  Eval vm_compute in
    match wrapContextBlob opaqueBlob (SessionContext session1bad) with
    | Ok b => b
    | _ => []
    end.

Definition savedBad : Context :=
  {| Sequence := 1; SavedHandle := 0x02000000; Hierarchy := HandleOwner;
     Blob := wrappedBad |}.

(** The TPM context of another process: no handle context, no exclusive
    session. *)
Definition tpm0 : TPMContext :=
  {| device := []; issued := []; heap := ∅; invalidated := ∅;
     resources := ∅; exclusiveSession := None |}.

(** [tpm1saved] with a device that answers the next [ContextLoad] with
    another session handle. *)
Definition tpm1other : TPMContext :=
  {| device := [inr 0x02000005]; issued := issued tpm1saved;
     heap := heap tpm1saved; invalidated := invalidated tpm1saved;
     resources := resources tpm1saved;
     exclusiveSession := exclusiveSession tpm1saved |}.

End Sample.

(** ** The policy assertion tests *)

Module PolicyTests.

Definition TagAuthSigned : Z := 0x8022.
Definition TagAuthSecret : Z := 0x8023.

Record TkAuth := {
  Tag : Z;
  Hierarchy : Handle;
  Digest : bytes
}.

(** The checks [TestPolicySigned] and [TestPolicySecret] make on the
    timeout and the ticket returned for [expiration]; the result is the
    list of failures the test reports. *)
Definition checkResult (tag : Z) (expiration : Z) (timeout : bytes)
  (policyTicket : option TkAuth) : list string :=
  match policyTicket with
  | None => ["Expected a policyTicket"]
  | Some policyTicket =>
      (if Tag policyTicket =? tag then [] else ["Unexpected tag"]) ++
      (if 0 <=? expiration then
         (if (length timeout =? 0)%nat then [] else ["Expected an empty timeout"])
         ++ (if Hierarchy policyTicket =? HandleNull then []
             else ["Unexpected hierarchy"])
       else
         (if (length timeout =? 0)%nat then ["Expected a non zero-length timeout"]
          else [])
         ++ (if Hierarchy policyTicket =? HandleOwner then []
             else ["Unexpected hierarchy"]))
  end.

(** Modelled from the spec: the timeout and ticket of a successful
    [PolicySecret] or [PolicySigned], which are not among the files
    modelled here.  "A non-negative expiration means [...] no persistent
    ticket issued, hierarchy reported as null; a negative expiration
    requests a reusable ticket valid until |expiration| time units from
    now, tied to the owner hierarchy."  The timeout is the 64-bit time at
    which the ticket expires. *)
Definition policyAssertionResult (tag : Z) (now : Z) (expiration : Z)
  (digest : bytes) : bytes * TkAuth :=
  if 0 <=? expiration then
    ([], {| Tag := tag; Hierarchy := HandleNull; Digest := [] |})
  else
    (Wire.putUint 8 (now + Z.abs expiration),
     {| Tag := tag; Hierarchy := HandleOwner; Digest := digest |}).

End PolicyTests.

(** * Properties *)

(** ** The wire format round-trips *)

Module WireFacts.
Import Wire.

Lemma ZOfByte_byteOfZ v : 0 <= v < 256 -> ZOfByte (byteOfZ v) = v.
Proof.
  intros Hv. unfold ZOfByte, byteOfZ. rewrite Z.mod_small by lia.
  destruct (Byte.of_N (Z.to_N v)) as [b|] eqn:E; simpl.
  - apply Byte.to_of_N in E. rewrite E. lia.
  - apply Byte.of_N_None_iff in E. lia.
Qed.

Lemma length_putUint n v : length (putUint n v) = n.
Proof. revert v. induction n as [|n IH]; intros v; simpl; [done|]. by rewrite IH. Qed.

Lemma getUintFrom_putUint n v acc rest :
  0 <= v < 256 ^ Z.of_nat n ->
  getUintFrom n acc (putUint n v ++ rest)
  = Some (acc * 256 ^ Z.of_nat n + v, rest).
Proof.
  revert v acc. induction n as [|n IH]; intros v acc Hv.
  - simpl in *. do 2 f_equal. lia.
  - assert (Hp : 0 < 256 ^ Z.of_nat n) by (apply Z.pow_pos_nonneg; lia).
    assert (Hs : 256 ^ Z.of_nat (S n) = 256 * 256 ^ Z.of_nat n).
    { rewrite Nat2Z.inj_succ, Z.pow_succ_r by lia. done. }
    cbn [putUint app getUintFrom].
    rewrite ZOfByte_byteOfZ.
    + rewrite IH by (apply Z.mod_pos_bound; lia).
      do 2 f_equal. rewrite Hs.
      pose proof (Z.div_mod v (256 ^ Z.of_nat n) ltac:(lia)). lia.
    + split; [apply Z.div_pos; lia|].
      apply Z.div_lt_upper_bound; lia.
Qed.

Lemma decUint_encUint n v bs rest :
  encUint n v = Some bs -> decUint n (bs ++ rest) = Some (v, rest).
Proof.
  unfold encUint, decUint. intros Henc.
  destruct ((0 <=? v) && (v <? 256 ^ Z.of_nat n)) eqn:Hr; [|done].
  injection Henc as <-. rewrite getUintFrom_putUint by lia. do 2 f_equal.
Qed.

Lemma decBool_encBool b bs rest :
  encBool b = Some bs -> decBool (bs ++ rest) = Some (b, rest).
Proof. intros [= <-]. by destruct b. Qed.

Lemma decSized_encSized b bs rest :
  encSized b = Some bs -> decSized (bs ++ rest) = Some (b, rest).
Proof.
  unfold encSized, decSized. intros Henc.
  destruct (encUint 2 (Z.of_nat (length b))) as [hdr|] eqn:Eh; [|done].
  simpl in Henc. injection Henc as <-.
  rewrite <- app_assoc, (decUint_encUint _ _ _ _ Eh). simpl.
  rewrite Nat2Z.id, length_app.
  rewrite decide_True by lia.
  by rewrite take_app_length, drop_app_length.
Qed.

(** Name the fields an encoder produced, then replay the decoder over
    them. *)
Ltac fields H :=
  repeat match type of H with
    | (?e ≫= _) = Some _ =>
        let E := fresh "E" in
        destruct e eqn:E; [cbn [mbind option_bind] in H|done]
    end;
  injection H as <-; rewrite <- ?app_assoc.

Ltac replay :=
  repeat (first
    [ erewrite decUint_encUint by eassumption
    | erewrite decBool_encBool by eassumption
    | erewrite decSized_encSized by eassumption ];
    cbn [mbind option_bind]).

Lemma decSymDef_encSymDef s bs rest :
  encSymDef s = Some bs -> decSymDef (bs ++ rest) = Some (s, rest).
Proof.
  unfold encSymDef, decSymDef. intros Henc. fields Henc. replay.
  by destruct s.
Qed.

Lemma decPublicBody_encPublicBody p bs :
  encPublicBody p = Some bs -> decPublicBody bs = Some p.
Proof.
  unfold encPublicBody, decPublicBody. intros Henc. fields Henc. replay.
  by destruct p.
Qed.

Lemma decObjectData_encObjectData dd bs rest :
  encObjectData dd = Some bs -> decObjectData (bs ++ rest) = Some (dd, rest).
Proof.
  unfold encObjectData, decObjectData. intros Henc. fields Henc. replay.
  erewrite decPublicBody_encPublicBody by eassumption. simpl. replay.
  by destruct dd.
Qed.

Lemma decSessionData_encSessionData dd bs rest :
  encSessionData dd = Some bs -> decSessionData (bs ++ rest) = Some (dd, rest).
Proof.
  unfold encSessionData, decSessionData. intros Henc. fields Henc. replay.
  erewrite decSymDef_encSymDef by eassumption. simpl.
  by destruct dd.
Qed.

Lemma encUnion_select selector u bs :
  encUnion selector u = Some bs ->
  exists ty, Select selector = Some ty /\ payloadTypeOf u = Some ty.
Proof.
  unfold encUnion. intros Henc.
  destruct (Select selector) as [[]|], u; try done; eauto.
Qed.

Lemma decUnion_encUnion selector u bs rest :
  encUnion selector u = Some bs ->
  decUnion selector (bs ++ rest) = Some (u, rest).
Proof.
  unfold encUnion, decUnion. intros Henc.
  destruct (Select selector) as [[]|], u; try done.
  - by erewrite decObjectData_encObjectData by eassumption.
  - by erewrite decSessionData_encSessionData by eassumption.
Qed.

Lemma decUnion_select selector bs u rest :
  decUnion selector bs = Some (u, rest) ->
  exists ty, Select selector = Some ty /\ payloadTypeOf u = Some ty.
Proof.
  unfold decUnion. intros Hdec.
  destruct (Select selector) as [[]|]; [| |done].
  - destruct (decObjectData bs) as [[dd bs1]|]; [|done].
    injection Hdec as <- <-. eauto.
  - destruct (decSessionData bs) as [[dd bs1]|]; [|done].
    injection Hdec as <- <-. eauto.
Qed.

Lemma decData_encData d bs :
  encData d = Some bs -> decData bs = Some d.
Proof.
  unfold encData, decData. intros Henc. fields Henc. replay.
  erewrite decUnion_encUnion by eassumption. simpl.
  rewrite <- (app_nil_r l1). replay. by destruct d.
Qed.

Lemma decData_select bs d :
  decData bs = Some d ->
  exists ty, Select (ContextType d) = Some ty /\
             payloadTypeOf (Data d) = Some ty.
Proof.
  unfold decData. intros Hdec.
  destruct (decUint 1 bs) as [[ct bs1]|]; [simpl in Hdec|done].
  destruct (decUnion ct bs1) as [[u bs2]|] eqn:Eu; [simpl in Hdec|done].
  destruct (decSized bs2) as [[blob bs3]|]; [simpl in Hdec|done].
  injection Hdec as <-. simpl. by eapply decUnion_select.
Qed.

Lemma decChecksummed_encChecksummed alg integrity data bs :
  encChecksummed alg integrity data = Some bs ->
  decChecksummed bs = Some (alg, integrity, data).
Proof.
  unfold encChecksummed, decChecksummed. intros Henc. fields Henc. replay.
  rewrite <- (app_nil_r l1). by replay.
Qed.

Lemma length_encUint n v bs : encUint n v = Some bs -> length bs = n.
Proof.
  unfold encUint. destruct (_ && _); [|done]. intros [= <-].
  apply length_putUint.
Qed.

(** The stored checksum starts at offset 4 of the blob: replacing a byte
    of the checksum replaces the byte at that offset. *)
Lemma encChecksummed_flip alg integrity data bs i b' :
  encChecksummed alg integrity data = Some bs ->
  (i < length integrity)%nat ->
  encChecksummed alg (<[i := b']> integrity) data
  = Some (<[(4 + i)%nat := b']> bs).
Proof.
  unfold encChecksummed, encSized. intros Henc Hi.
  rewrite length_insert.
  destruct (encUint 2 alg) as [a|] eqn:Ea; [|done].
  destruct (encUint 2 (Z.of_nat (length integrity))) as [h1|] eqn:E1; [|done].
  destruct (encUint 2 (Z.of_nat (length data))) as [h2|] eqn:E2; [|done].
  cbn [mbind option_bind] in *. injection Henc as <-. f_equal.
  apply length_encUint in Ea, E1.
  rewrite (insert_app_r_alt a) by lia. f_equal.
  rewrite <- !app_assoc.
  rewrite (insert_app_r_alt h1) by lia. f_equal.
  rewrite insert_app_l by lia. f_equal. f_equal. lia.
Qed.

Lemma encChecksummed_lookup alg integrity data bs i :
  encChecksummed alg integrity data = Some bs ->
  (i < length integrity)%nat ->
  bs !! (4 + i)%nat = integrity !! i.
Proof.
  unfold encChecksummed, encSized. intros Henc Hi.
  destruct (encUint 2 alg) as [a|] eqn:Ea; [|done].
  destruct (encUint 2 (Z.of_nat (length integrity))) as [h1|] eqn:E1; [|done].
  destruct (encUint 2 (Z.of_nat (length data))) as [h2|] eqn:E2; [|done].
  cbn [mbind option_bind] in *. injection Henc as <-.
  apply length_encUint in Ea, E1.
  rewrite lookup_app_r by lia. rewrite <- !app_assoc.
  rewrite lookup_app_r by lia. rewrite lookup_app_l by lia.
  f_equal. lia.
Qed.

#[global] Instance marshalling_laws : MarshallingLaws.
Proof.
  split.
  - apply decData_encData.
  - apply decData_select.
  - apply decChecksummed_encChecksummed.
Qed.

End WireFacts.

(** ** The sample collaborators satisfy the laws *)

Module SampleFacts.

#[global] Instance digest_laws : DigestLaws.
Proof. split; [reflexivity | intros; reflexivity]. Qed.

#[global] Instance device_laws : DeviceLaws.
Proof. split. intros m. reflexivity. Qed.

End SampleFacts.

(** ** Context management *)

(** The cross-validation rules of the specification, by variant. *)
Definition objectRules `{Digests} (savedHandle : Handle)
  (dd : objectContextData) : Prop :=
  Handle_Type savedHandle = HandleTypeTransient
  /\ compareName (ocd_Public dd) (ocd_Name dd) = true.

(** The policy-HMAC sub-type is unsigned: its range is bounded by
    [policyHMACTypeMax] alone. *)
Definition sessionRules `{Digests} (savedHandle : Handle)
  (dd : sessionContextData) : Prop :=
  (Handle_Type savedHandle = HandleTypeHMACSession
   \/ Handle_Type savedHandle = HandleTypePolicySession)
  /\ (IsExclusive dd = true -> IsAudit dd = true)
  /\ Supported (HashAlg dd) = true
  /\ (SessionType_ dd = SessionTypeHMAC \/ SessionType_ dd = SessionTypePolicy
      \/ SessionType_ dd = SessionTypeTrial)
  /\ PolicyHMACType dd <= policyHMACTypeMax
  /\ (IsBound dd = true <-> BoundEntity dd <> [])
  /\ (length (SessionKey dd) = 0%nat
      \/ length (SessionKey dd) = Size (HashAlg dd))
  /\ length (NonceCaller dd) = Size (HashAlg dd)
  /\ length (NonceTPM dd) = Size (HashAlg dd)
  /\ (Algorithm (Symmetric dd) = SymAlgorithmAES
      \/ Algorithm (Symmetric dd) = SymAlgorithmXOR
      \/ Algorithm (Symmetric dd) = SymAlgorithmNull
      \/ Algorithm (Symmetric dd) = SymAlgorithmSM4
      \/ Algorithm (Symmetric dd) = SymAlgorithmCamellia)
  /\ (Algorithm (Symmetric dd) = SymAlgorithmAES
      \/ Algorithm (Symmetric dd) = SymAlgorithmSM4
      \/ Algorithm (Symmetric dd) = SymAlgorithmCamellia ->
      Mode (Symmetric dd) = SymModeCFB).

Definition crossValidates `{Digests} (savedHandle : Handle)
  (d : resourceContextData) : Prop :=
  match Data d with
  | DataNil => False
  | DataObject dd => objectRules savedHandle dd
  | DataSession dd => sessionRules savedHandle dd
  end.

(** The integrity errors of [ContextLoad]: a checksum mismatch or a
    violated cross-validation rule. *)
Definition integrityMessages : list string :=
  [ "cannot load context: invalid checksum";
    "cannot load context: inconsistent handle type";
    "cannot load context for object: public area and name don't match";
    "cannot load context for session: inconsistent audit attributes";
    "cannot load context for session: invalid hash algorithm %v";
    "cannot load context for session: invalid type %v";
    "cannot load context for session: invalid value";
    "cannot load context for session: inconsistent properties";
    "cannot load context for session: unexpected session key size";
    "cannot load context for session: unexpected nonce size";
    "cannot load context for session: invalid symmetric algorithm %v";
    "cannot load context for session: invalid symmetric mode %v";
    "cannot load context: inconsistent attributes" ].

Definition isIntegrityError (e : error) : bool :=
  match e with
  | ErrorString m | Errorf m _ => bool_decide (m ∈ integrityMessages)
  | _ => false
  end.

(** The context a reload of [rc] is expected to leave at address [l]. *)
Definition reloaded `{Marshalling, Digests, Device} (t : TPMContext) (l : loc)
  (loadedHandle : Handle) (rc : HandleContext) : HandleContext :=
  match rc with
  | ObjectContext c =>
      ObjectContext {| o_handle := loadedHandle; o_public := o_public c;
                       o_name := o_name c |}
  | SessionContext c =>
      SessionContext
        {| s_handle := loadedHandle;
           s_usable := true;
           s_isAudit := s_isAudit c;
           s_isExclusive :=
             s_isExclusive c && bool_decide (exclusiveSession t = Some l);
           s_hashAlg := s_hashAlg c;
           s_sessionType := s_sessionType c;
           s_policyHMACType := s_policyHMACType c;
           s_isBound := s_isBound c;
           s_boundEntity := s_boundEntity c;
           s_sessionKey := s_sessionKey c;
           s_nonceCaller := s_nonceCaller c;
           s_nonceTPM := s_nonceTPM c;
           s_symmetric := s_symmetric c |}
  | OtherContext h => OtherContext h
  end.

(** The wrapped blob as the specification lays it out: the context type
    and the metadata of each variant. *)
Definition contextTypeOf (rc : HandleContext) : Z :=
  match rc with
  | SessionContext _ => contextTypeSession
  | _ => contextTypeObject
  end.

Definition metadataOf (rc : HandleContext) : resourceContextDataU :=
  match rc with
  | ObjectContext c =>
      DataObject {| ocd_Public := o_public c; ocd_Name := o_name c |}
  | SessionContext c =>
      DataSession
        {| IsAudit := s_isAudit c; IsExclusive := s_isExclusive c;
           HashAlg := s_hashAlg c; SessionType_ := s_sessionType c;
           PolicyHMACType := s_policyHMACType c; IsBound := s_isBound c;
           BoundEntity := s_boundEntity c; SessionKey := s_sessionKey c;
           NonceCaller := s_nonceCaller c; NonceTPM := s_nonceTPM c;
           Symmetric := s_symmetric c |}
  | OtherContext _ => DataNil
  end.

Definition innerDataOf (tpmOpaqueBlob : bytes) (rc : HandleContext)
  : resourceContextData :=
  {| ContextType := contextTypeOf rc; Data := metadataOf rc;
     TPMBlob := tpmOpaqueBlob |}.

Section ContextFacts.
Context `{Marshalling, Digests, Device}.

Lemma failIf_Ok c e : failIf c e = Ok tt <-> c = false.
Proof. unfold failIf. destruct c; split; congruence. Qed.

Lemma failIf_bind_Ok {A} c e (k : outcome A) a :
  (failIf c e;; k) = Ok a <-> c = false /\ k = Ok a.
Proof. destruct c; simpl; split; try tauto; try done. by intros []. Qed.

Lemma failIf_bind_Err {A} c e (k : outcome A) e' :
  (failIf c e;; k) = Err e' <-> (c = true /\ e' = e) \/ (c = false /\ k = Err e').
Proof.
  destruct c; simpl; split.
  - intros [= <-]. by left.
  - intros [[_ ->]|[? _]]; done.
  - intros ?. by right.
  - intros [[? _]|[_ ?]]; done.
Qed.

Lemma failIf_bind_Panic {A} c e (k : outcome A) m :
  (failIf c e;; k) = Panic m <-> c = false /\ k = Panic m.
Proof. destruct c; simpl; split; try tauto; try done. by intros []. Qed.

Lemma failIf_Err c e e' : failIf c e = Err e' <-> c = true /\ e' = e.
Proof.
  unfold failIf. destruct c; split; try done.
  - intros [= <-]. done.
  - intros [_ ->]. done.
  - intros []. done.
Qed.

(** Each check of the source against the rule of the specification. *)

Lemma sessionHandleType_rule ty :
  negb (isSessionHandleType ty) = false
  <-> ty = HandleTypeHMACSession \/ ty = HandleTypePolicySession.
Proof.
  unfold isSessionHandleType.
  rewrite negb_false_iff, orb_true_iff, !Z.eqb_eq. done.
Qed.

Lemma audit_rule a x : negb a && x = false <-> (x = true -> a = true).
Proof. destruct a, x; simpl; split; auto; try done. intros Hx. by discriminate Hx. Qed.

Lemma sessionType_rule ty :
  negb (isSessionType ty) = false
  <-> ty = SessionTypeHMAC \/ ty = SessionTypePolicy \/ ty = SessionTypeTrial.
Proof.
  unfold isSessionType.
  rewrite negb_false_iff, !orb_true_iff, !Z.eqb_eq. tauto.
Qed.

Lemma bound_rule (b : bool) (name : bytes) :
  (b && (length name =? 0)%nat) || (negb b && (0 <? length name)%nat) = false
  <-> (b = true <-> name <> []).
Proof.
  destruct b, name; simpl; split; try done; intros Hr.
  - destruct Hr as [Hr _]. by destruct Hr.
  - destruct Hr as [_ Hr]. by discriminate Hr.
Qed.

Lemma sessionKey_rule (key : bytes) (digestSize : nat) :
  negb (length key =? digestSize)%nat && negb (length key =? 0)%nat = false
  <-> length key = 0%nat \/ length key = digestSize.
Proof.
  rewrite andb_false_iff, !negb_false_iff, !Nat.eqb_eq. tauto.
Qed.

Lemma nonce_rule (nonceCaller nonceTPM : bytes) (digestSize : nat) :
  negb (length nonceCaller =? digestSize)%nat
  || negb (length nonceTPM =? digestSize)%nat = false
  <-> length nonceCaller = digestSize /\ length nonceTPM = digestSize.
Proof. rewrite orb_false_iff, !negb_false_iff, !Nat.eqb_eq. done. Qed.

Lemma symAlgorithm_rule a :
  negb (isKnownSymAlgorithm a) = false
  <-> a = SymAlgorithmAES \/ a = SymAlgorithmXOR \/ a = SymAlgorithmNull
      \/ a = SymAlgorithmSM4 \/ a = SymAlgorithmCamellia.
Proof.
  unfold isKnownSymAlgorithm.
  rewrite negb_false_iff, !orb_true_iff, !Z.eqb_eq. tauto.
Qed.

Lemma symMode_rule a m :
  isBlockCipher a && negb (SymModeU_Sym m =? SymModeCFB) = false
  <-> (a = SymAlgorithmAES \/ a = SymAlgorithmSM4 \/ a = SymAlgorithmCamellia ->
       m = SymModeCFB).
Proof.
  unfold isBlockCipher, SymModeU_Sym.
  rewrite andb_false_iff, negb_false_iff, Z.eqb_eq.
  rewrite <- not_true_iff_false, !orb_true_iff, !Z.eqb_eq. 
  destruct (decide (m = SymModeCFB)); tauto.
Qed.

Lemma checkObjectContextData_Ok savedHandle dd :
  checkObjectContextData savedHandle (DataObject dd) = Ok tt
  <-> objectRules savedHandle dd.
Proof.
  unfold checkObjectContextData, objectRules.
  rewrite failIf_bind_Ok, failIf_Ok, !negb_false_iff, Z.eqb_eq. done.
Qed.

Lemma checkSessionContextData_Ok savedHandle dd :
  checkSessionContextData savedHandle (DataSession dd) = Ok tt
  <-> sessionRules savedHandle dd.
Proof.
  unfold checkSessionContextData, sessionRules.
  rewrite !failIf_bind_Ok, failIf_Ok.
  rewrite sessionHandleType_rule, audit_rule, negb_false_iff, sessionType_rule,
    Z.ltb_ge, bound_rule, sessionKey_rule, nonce_rule, symAlgorithm_rule,
    symMode_rule.
  by rewrite !Logic.and_assoc.
Qed.

(** Data as the unmarshaller returns it: the payload is of the type the
    selector chooses. *)
Definition selected (d : resourceContextData) : Prop :=
  exists ty, Select (ContextType d) = Some ty /\ payloadTypeOf (Data d) = Some ty.

Lemma selected_cases d :
  selected d ->
  (ContextType d = contextTypeObject /\ exists dd, Data d = DataObject dd)
  \/ (ContextType d = contextTypeSession /\ exists dd, Data d = DataSession dd).
Proof.
  intros (ty & Hs & Hp). unfold Select in Hs.
  destruct (Z.eqb_spec (ContextType d) contextTypeObject) as [->|_].
  - injection Hs as <-. destruct (Data d); try done. left. eauto.
  - destruct (Z.eqb_spec (ContextType d) contextTypeSession) as [->|_]; [|done].
    injection Hs as <-. destruct (Data d); try done. right. eauto.
Qed.

Lemma checkContextData_Ok savedHandle d :
  selected d ->
  checkContextData savedHandle d = Ok tt <-> crossValidates savedHandle d.
Proof.
  intros [[Hty [dd Hdd]]|[Hty [dd Hdd]]]%selected_cases;
    unfold checkContextData, crossValidates; rewrite Hty, Hdd; simpl.
  - apply checkObjectContextData_Ok.
  - apply checkSessionContextData_Ok.
Qed.

Lemma checkContextData_Err savedHandle d e :
  checkContextData savedHandle d = Err e -> isIntegrityError e = true.
Proof.
  unfold checkContextData.
  destruct (ContextType d =? contextTypeObject).
  { unfold checkObjectContextData. intros Hc.
    apply failIf_bind_Err in Hc as [[_ ->]|[_ Hc]]; [done|].
    destruct (Data d); try done.
    by apply failIf_Err in Hc as [_ ->]. }
  destruct (ContextType d =? contextTypeSession); [|by intros [= <-]].
  unfold checkSessionContextData. intros Hc.
  apply failIf_bind_Err in Hc as [[_ ->]|[_ Hc]]; [done|].
  destruct (Data d); try done.
  repeat (apply failIf_bind_Err in Hc as [[_ ->]|[_ Hc]]; [done|]).
  by apply failIf_Err in Hc as [_ ->].
Qed.

Lemma checkContextData_no_panic savedHandle d m :
  selected d -> checkContextData savedHandle d <> Panic m.
Proof.
  intros [[Hty [dd Hdd]]|[Hty [dd Hdd]]]%selected_cases;
    unfold checkContextData; rewrite Hty, Hdd; simpl; intros Hc.
  - unfold checkObjectContextData in Hc.
    apply failIf_bind_Panic in Hc as [_ Hc]. by destruct (negb _).
  - unfold checkSessionContextData in Hc.
    repeat (apply failIf_bind_Panic in Hc as [_ Hc]). by destruct (_ && _).
Qed.

Lemma checkContextData_violation savedHandle d :
  selected d ->
  ~ crossValidates savedHandle d ->
  exists e, checkContextData savedHandle d = Err e /\ isIntegrityError e = true.
Proof.
  intros Hsel Hno.
  destruct (checkContextData savedHandle d) as [[]|e|m] eqn:Hc.
  - by apply checkContextData_Ok in Hc.
  - exists e. split; [done|]. by eapply checkContextData_Err.
  - by apply checkContextData_no_panic in Hc.
Qed.

(** [unwrapContextBlob] once the checksummed blob has been unpacked. *)
Lemma unwrapContextBlob_unpacked context alg integrity data :
  UnmarshalChecksummed (Blob context) = Some (alg, integrity, data) ->
  unwrapContextBlob context =
    (failIf (negb (Supported alg))
       (ErrorString "cannot load context: invalid checksum algorithm");;
     failIf (negb (bool_decide (hashSum alg data = integrity)))
       (ErrorString "cannot load context: invalid checksum");;
     match UnmarshalData data with
     | None =>
         Err (Errorf "cannot load context: cannot unmarshal data blob: %v"
                ArgError)
     | Some d => checkContextData (SavedHandle context) d;; Ok d
     end).
Proof. unfold unwrapContextBlob. by intros ->. Qed.

Lemma unwrapContextBlob_verified context alg data d :
  UnmarshalChecksummed (Blob context) = Some (alg, hashSum alg data, data) ->
  Supported alg = true ->
  UnmarshalData data = Some d ->
  unwrapContextBlob context = (checkContextData (SavedHandle context) d;; Ok d).
Proof.
  intros Hu Hs Hd. rewrite (unwrapContextBlob_unpacked _ _ _ _ Hu), Hs, Hd.
  simpl. by rewrite bool_decide_true.
Qed.

Lemma ContextLoad_unwrap_Err t context e :
  unwrapContextBlob context = Err e ->
  ContextLoad t (Some context) = (t, Err e).
Proof. unfold ContextLoad. by intros ->. Qed.

(** [ContextLoad] after a successful unwrap: the TPM command is run, and
    the handle context restored. *)
Lemma ContextLoad_unwrapped t context d :
  unwrapContextBlob context = Ok d ->
  ContextLoad t (Some context) =
    let '(t1, r) := RunCommandContextLoad t (tpmContextFor context d) in
    match r with
    | inl err => (t1, Err err)
    | inr loadedHandle =>
        match restoreContext t1 context d loadedHandle with
        | Err e => (t1, Err e)
        | Panic m => (t1, Panic m)
        | Ok (t2, l, rc) => (addHandleContext t2 l rc, Ok l)
        end
    end.
Proof. unfold ContextLoad. by intros ->. Qed.

Lemma contextData_innerDataOf tpmBlob rc :
  contextData tpmBlob rc = innerDataOf tpmBlob rc.
Proof. by destruct rc. Qed.

Lemma wrapContextBlob_Ok tpmBlob rc blob :
  wrapContextBlob tpmBlob rc = Ok blob <->
  exists innerData,
    MarshalData (innerDataOf tpmBlob rc) = Some innerData
    /\ MarshalChecksummed HashAlgorithmSHA256 (sha256 innerData) innerData
       = Some blob.
Proof.
  unfold wrapContextBlob. rewrite contextData_innerDataOf. split.
  - destruct (MarshalData _) as [innerData|]; [|done].
    destruct (MarshalChecksummed _ _ _) as [out|] eqn:Hout; [|done].
    intros [= <-]. eauto.
  - intros (innerData & -> & ->). done.
Qed.

(** A context that marshals is an object or a session. *)
Lemma marshalled_variant `{!MarshallingLaws} tpmBlob rc innerData :
  MarshalData (innerDataOf tpmBlob rc) = Some innerData ->
  (exists c, rc = ObjectContext c) \/ (exists c, rc = SessionContext c).
Proof.
  intros Hm. apply unmarshal_marshal_data, unmarshal_data_select in Hm.
  destruct Hm as (ty & _ & Hp). destruct rc; simpl in Hp; [eauto..|done].
Qed.

(** C3: for an object or session handle context, [wrapContextBlob] returns
    exactly pack(SHA-256, checksum, innerData), where innerData is
    pack(contextType, metadata of the variant, tpmOpaqueBlob) and checksum is
    the SHA-256 digest of innerData; unpacking the blob gives back the
    SHA-256 identifier, that checksum and innerData, and unpacking
    innerData gives back the context type, the metadata and the TPM blob. *)
Theorem wrapContextBlob_layout `{!MarshallingLaws} tpmBlob rc blob :
  (wrapContextBlob tpmBlob rc = Ok blob <->
   exists innerData,
     MarshalData (innerDataOf tpmBlob rc) = Some innerData
     /\ MarshalChecksummed HashAlgorithmSHA256 (sha256 innerData) innerData
        = Some blob)
  /\ (wrapContextBlob tpmBlob rc = Ok blob ->
      exists innerData,
        UnmarshalChecksummed blob
        = Some (HashAlgorithmSHA256, sha256 innerData, innerData)
        /\ UnmarshalData innerData = Some (innerDataOf tpmBlob rc)
        /\ ((exists c, rc = ObjectContext c
                      /\ ContextType (innerDataOf tpmBlob rc) = contextTypeObject)
            \/ (exists c, rc = SessionContext c
                   /\ ContextType (innerDataOf tpmBlob rc) = contextTypeSession))).
Proof.
  split; [apply wrapContextBlob_Ok|].
  intros (innerData & Hin & Hout)%wrapContextBlob_Ok.
  exists innerData. split_and!.
  - by apply unmarshal_marshal_checksummed.
  - by apply unmarshal_marshal_data.
  - destruct (marshalled_variant _ _ _ Hin) as [[c ->]|[c ->]]; eauto.
Qed.

(** A checksum that does not match stops [ContextLoad] before anything
    else happens. *)
Lemma ContextLoad_mismatch t context alg integrity data :
  UnmarshalChecksummed (Blob context) = Some (alg, integrity, data) ->
  hashSum alg data <> integrity ->
  exists e,
    ContextLoad t (Some context) = (t, Err e)
    /\ (Supported alg = true ->
        e = ErrorString "cannot load context: invalid checksum").
Proof.
  intros Hu Hne.
  pose proof (unwrapContextBlob_unpacked _ _ _ _ Hu) as Hw.
  rewrite (bool_decide_false _ Hne) in Hw.
  destruct (Supported alg); simpl in Hw.
  - eexists. split; [by apply ContextLoad_unwrap_Err|done].
  - eexists. split; [by apply ContextLoad_unwrap_Err|done].
Qed.

Lemma insert_changes (l : bytes) i b b' :
  l !! i = Some b -> b' <> b -> <[i := b']> l <> l.
Proof.
  intros Hi Hb Heq.
  assert (Hi' : <[i := b']> l !! i = Some b').
  { apply list_lookup_insert_eq. by eapply lookup_lt_Some. }
  rewrite Heq, Hi in Hi'. congruence.
Qed.

(** C2: whenever the checksum recomputed over the inner data with the
    algorithm named in the envelope differs from the stored checksum,
    [ContextLoad] fails and leaves the TPM context as it was: no command is
    run; with a supported algorithm the error is the checksum error.  In
    particular, replacing any one byte of the checksum stored in a wrapped
    blob by a different byte makes [ContextLoad] fail with that error. *)
Theorem ContextLoad_checksum `{!MarshallingLaws, !DigestLaws} t :
  (forall context alg integrity data,
     UnmarshalChecksummed (Blob context) = Some (alg, integrity, data) ->
     hashSum alg data <> integrity ->
     exists e,
       ContextLoad t (Some context) = (t, Err e)
       /\ (Supported alg = true ->
           e = ErrorString "cannot load context: invalid checksum"))
  /\ (forall tpmBlob rc blob,
        wrapContextBlob tpmBlob rc = Ok blob ->
        exists checksum innerData,
          UnmarshalChecksummed blob
          = Some (HashAlgorithmSHA256, checksum, innerData)
          /\ forall context' i b b',
               checksum !! i = Some b ->
               b' <> b ->
               UnmarshalChecksummed (Blob context')
               = Some (HashAlgorithmSHA256, <[i := b']> checksum, innerData) ->
               ContextLoad t (Some context')
               = (t, Err (ErrorString "cannot load context: invalid checksum"))).
Proof.
  split; [apply ContextLoad_mismatch|].
  intros tpmBlob rc blob (innerData & Hin & Hout)%wrapContextBlob_Ok.
  exists (sha256 innerData), innerData.
  split; [by apply unmarshal_marshal_checksummed|].
  intros context' i b b' Hi Hb Hu.
  destruct (ContextLoad_mismatch t _ _ _ _ Hu) as (e & Hload & He).
  - rewrite NewHash_SHA256. intros Heq. by eapply insert_changes.
  - rewrite Hload, He; [done|apply Supported_SHA256].
Qed.

(** What a successful [restoreContext] did. *)
Lemma restoreContext_Ok t context d loadedHandle t2 l rc :
  restoreContext t context d loadedHandle = Ok (t2, l, rc) ->
  t2 = set_heap t (<[l := rc]> (heap t))
  /\ ((ContextType d = contextTypeObject
       /\ Handle_Type loadedHandle = HandleTypeTransient
       /\ l = newLoc t
       /\ exists dd, Data d = DataObject dd
            /\ rc = ObjectContext {| o_handle := loadedHandle;
                                     o_public := ocd_Public dd;
                                     o_name := ocd_Name dd |})
      \/ (ContextType d = contextTypeSession
          /\ loadedHandle = SavedHandle context
          /\ ((exists sc, resources t !! normalizeHandleForMap loadedHandle = Some l
                          /\ heap t !! l = Some (SessionContext sc))
              \/ (resources t !! normalizeHandleForMap loadedHandle = None
                  /\ l = newLoc t))
          /\ exists dd, Data d = DataSession dd
               /\ rc = SessionContext (restoredSession t l loadedHandle dd))).
Proof.
  unfold restoreContext.
  destruct (Z.eqb_spec (ContextType d) contextTypeObject) as [Hty|_].
  { intros [Hh Hr]%failIf_bind_Ok.
    apply negb_false_iff, Z.eqb_eq in Hh.
    destruct (Data d) as [|dd|]; [done| |done].
    injection Hr as <- <- <-. split; [done|]. left. eauto 10. }
  destruct (Z.eqb_spec (ContextType d) contextTypeSession) as [Hty|_]; [|done].
  intros [Hh Hr]%failIf_bind_Ok.
  apply negb_false_iff, Z.eqb_eq in Hh.
  destruct (resources t !! normalizeHandleForMap loadedHandle) as [l0|] eqn:Hres.
  - destruct (heap t !! l0) as [[c|sc|h]|] eqn:Hheap; try done.
    simpl in Hr. destruct (Data d) as [| |dd]; try done.
    injection Hr as <- <- <-. split; [done|]. right. split_and!; eauto 10.
  - simpl in Hr. destruct (Data d) as [| |dd]; try done.
    injection Hr as <- <- <-. split; [done|]. right. split_and!; eauto 10.
Qed.

(** The only error of [restoreContext] is an invalid response. *)
Lemma restoreContext_Err t context d loadedHandle e :
  restoreContext t context d loadedHandle = Err e ->
  exists format,
    e = InvalidResponseError CommandContextLoad format (ArgValue loadedHandle).
Proof.
  unfold restoreContext.
  destruct (ContextType d =? contextTypeObject).
  { intros [[_ ->]|[_ Hr]]%failIf_bind_Err; [eauto|].
    by destruct (Data d). }
  destruct (ContextType d =? contextTypeSession); [|done].
  intros [[_ ->]|[_ Hr]]%failIf_bind_Err; [eauto|].
  destruct (resources t !! normalizeHandleForMap loadedHandle) as [l0|].
  - destruct (heap t !! l0) as [[c|sc|h]|]; try done.
    simpl in Hr. by destruct (Data d).
  - simpl in Hr. by destruct (Data d).
Qed.

(** C4: once the checksum has passed and the inner data is unpacked,
    [ContextLoad] returns an integrity error exactly when a
    cross-validation rule of the variant is violated; it then leaves the
    TPM context as it was.  When the rules hold the TPM command is run,
    with the TPM's own blob. *)
Theorem ContextLoad_cross_validation `{!MarshallingLaws} t context alg data d :
  UnmarshalChecksummed (Blob context) = Some (alg, hashSum alg data, data) ->
  Supported alg = true ->
  UnmarshalData data = Some d ->
  ((exists e, snd (ContextLoad t (Some context)) = Err e
              /\ isIntegrityError e = true)
   <-> ~ crossValidates (SavedHandle context) d)
  /\ (~ crossValidates (SavedHandle context) d ->
      fst (ContextLoad t (Some context)) = t)
  /\ (crossValidates (SavedHandle context) d ->
      issued (fst (ContextLoad t (Some context)))
      = CmdContextLoad (tpmContextFor context d) :: issued t).
Proof.
  intros Hu Hs Hd.
  pose proof (unwrapContextBlob_verified _ _ _ _ Hu Hs Hd) as Hw.
  assert (Hsel : selected d) by by eapply unmarshal_data_select.
  assert (Hrun : crossValidates (SavedHandle context) d ->
    issued (fst (ContextLoad t (Some context)))
    = CmdContextLoad (tpmContextFor context d) :: issued t
    /\ forall e, snd (ContextLoad t (Some context)) = Err e ->
                 isIntegrityError e = false).
  { intros Hok%checkContextData_Ok; [|done]. rewrite Hok in Hw. simpl in Hw.
    rewrite (ContextLoad_unwrapped _ _ _ Hw). unfold RunCommandContextLoad.
    destruct (execContextLoad _ _) as [dev' [code|loadedHandle]]; simpl.
    { split; [done|]. by intros e [= <-]. }
    destruct (restoreContext _ _ _ _) as [[[t2 l] rc]|e|m] eqn:Hr; simpl.
    - split; [|done]. by apply restoreContext_Ok in Hr as [-> _].
    - split; [done|]. intros e' [= <-].
      by apply restoreContext_Err in Hr as [format ->].
    - done. }
  split_and!.
  - split.
    + intros (e & He & Hint) Hok. destruct (Hrun Hok) as [_ Hno].
      rewrite (Hno _ He) in Hint. done.
    + intros Hno.
      destruct (checkContextData_violation _ _ Hsel Hno) as (e & Hc & Hint).
      rewrite Hc in Hw. simpl in Hw.
      rewrite (ContextLoad_unwrap_Err _ _ _ Hw). eauto.
  - intros Hno.
    destruct (checkContextData_violation _ _ Hsel Hno) as (e & Hc & Hint).
    rewrite Hc in Hw. simpl in Hw.
    by rewrite (ContextLoad_unwrap_Err _ _ _ Hw).
  - intros Hok. by destruct (Hrun Hok).
Qed.

(** What a successful [ContextLoad] did. *)
Lemma ContextLoad_Ok t context t' l :
  ContextLoad t (Some context) = (t', Ok l) ->
  exists d dev' loadedHandle rc,
    unwrapContextBlob context = Ok d
    /\ execContextLoad (device t) (tpmContextFor context d)
       = (dev', inr loadedHandle)
    /\ restoreContext
         (set_device t dev' (CmdContextLoad (tpmContextFor context d)))
         context d loadedHandle
       = Ok (set_heap
               (set_device t dev' (CmdContextLoad (tpmContextFor context d)))
               (<[l := rc]> (heap t)), l, rc)
    /\ heap t' = <[l := rc]> (heap t)
    /\ resources t'
       = <[normalizeHandleForMap (HandleContext_Handle rc) := l]> (resources t)
    /\ exclusiveSession t' = exclusiveSession t
    /\ issued t' = CmdContextLoad (tpmContextFor context d) :: issued t.
Proof.
  intros Hload.
  destruct (unwrapContextBlob context) as [d|e|m] eqn:Hw;
    [|by rewrite (ContextLoad_unwrap_Err _ _ _ Hw) in Hload
     |by unfold ContextLoad in Hload; rewrite Hw in Hload].
  rewrite (ContextLoad_unwrapped _ _ _ Hw) in Hload.
  unfold RunCommandContextLoad in Hload.
  destruct (execContextLoad _ _) as [dev' [code|loadedHandle]] eqn:Hexec;
    [done|]. simpl in Hload.
  destruct (restoreContext _ _ _ _) as [[[t2 l2] rc]|e|m] eqn:Hr; [|done..].
  injection Hload as <- <-.
  pose proof (restoreContext_Ok _ _ _ _ _ _ _ Hr) as [-> _].
  exists d, dev', loadedHandle, rc. done.
Qed.

(** Unwrapping a wrapped blob: the checksum passes and the inner data
    read back is the data that was wrapped. *)
Lemma unwrap_wrap `{!MarshallingLaws, !DigestLaws} context tpmBlob rc :
  wrapContextBlob tpmBlob rc = Ok (Blob context) ->
  selected (innerDataOf tpmBlob rc)
  /\ unwrapContextBlob context
     = (checkContextData (SavedHandle context) (innerDataOf tpmBlob rc);;
        Ok (innerDataOf tpmBlob rc)).
Proof.
  intros (innerData & Hin & Hout)%wrapContextBlob_Ok.
  apply unmarshal_marshal_data in Hin.
  apply unmarshal_marshal_checksummed in Hout.
  split; [by eapply unmarshal_data_select|].
  rewrite <- NewHash_SHA256 in Hout.
  by rewrite (unwrapContextBlob_verified _ _ _ _ Hout Supported_SHA256 Hin).
Qed.

Lemma newLoc_fresh t :
  heap t !! newLoc t = None
  /\ exclusiveSession t <> Some (newLoc t)
  /\ forall k, resources t !! k <> Some (newLoc t).
Proof.
  pose proof (is_fresh (dom (heap t) ∪ map_img (resources t)
     ∪ from_option singleton ∅ (exclusiveSession t))) as Hf.
  fold (newLoc t) in Hf. split_and!.
  - apply not_elem_of_dom. set_solver.
  - intros He. rewrite He in Hf. simpl in Hf. set_solver.
  - intros k Hk. apply Hf.
    assert (newLoc t ∈ (map_img (resources t) : gset loc))
      by (apply elem_of_map_img; eauto).
    set_solver.
Qed.

(** [restoreContext] on an object payload and a transient handle. *)
Lemma restoreContext_object t context d dd loadedHandle :
  ContextType d = contextTypeObject ->
  Data d = DataObject dd ->
  Handle_Type loadedHandle = HandleTypeTransient ->
  restoreContext t context d loadedHandle =
    let rc := ObjectContext {| o_handle := loadedHandle;
                               o_public := ocd_Public dd;
                               o_name := ocd_Name dd |} in
    Ok (set_heap t (<[newLoc t := rc]> (heap t)), newLoc t, rc).
Proof.
  intros Hty Hdd Hh. unfold restoreContext.
  rewrite Hty, Hdd, Hh, !Z.eqb_refl. reflexivity.
Qed.

(** [restoreContext] on a session payload and the saved handle. *)
Lemma restoreContext_session t context d dd l :
  ContextType d = contextTypeSession ->
  Data d = DataSession dd ->
  (exists sc, resources t !! normalizeHandleForMap (SavedHandle context) = Some l
              /\ heap t !! l = Some (SessionContext sc))
  \/ (resources t !! normalizeHandleForMap (SavedHandle context) = None
      /\ l = newLoc t) ->
  restoreContext t context d (SavedHandle context) =
    let rc := SessionContext (restoredSession t l (SavedHandle context) dd) in
    Ok (set_heap t (<[l := rc]> (heap t)), l, rc).
Proof.
  intros Hty Hdd Hl. unfold restoreContext.
  rewrite Hty, Hdd, !Z.eqb_refl.
  change (contextTypeSession =? contextTypeObject) with false. cbv iota.
  destruct Hl as [(sc & -> & ->)|[-> ->]]; reflexivity.
Qed.

(** C1 (amended): loading a blob produced by [wrapContextBlob], when the
    wrapped context satisfies the cross-validation rules and the TPM returns
    a handle of the right kind, passes the TPM its original opaque blob and
    leaves a handle context with the Name and public area (object) or every
    session field (session) of the original, except that the session is
    usable and that its exclusive flag is kept only if the context is the
    tracked exclusive session. *)
Theorem ContextLoad_wrapContextBlob `{!MarshallingLaws, !DigestLaws}
    t context tpmBlob rc dev' loadedHandle :
  wrapContextBlob tpmBlob rc = Ok (Blob context) ->
  crossValidates (SavedHandle context) (innerDataOf tpmBlob rc) ->
  execContextLoad (device t) (set_Blob context tpmBlob)
  = (dev', inr loadedHandle) ->
  match rc with
  | ObjectContext _ => Handle_Type loadedHandle = HandleTypeTransient
  | SessionContext _ =>
      loadedHandle = SavedHandle context
      /\ forall l0, resources t !! normalizeHandleForMap loadedHandle = Some l0 ->
                    exists sc0, heap t !! l0 = Some (SessionContext sc0)
  | OtherContext _ => True
  end ->
  unwrapContextBlob context = Ok (innerDataOf tpmBlob rc)
  /\ exists t' l,
       ContextLoad t (Some context) = (t', Ok l)
       /\ heap t' !! l = Some (reloaded t l loadedHandle rc)
       /\ resources t' !! normalizeHandleForMap loadedHandle = Some l
       /\ issued t' = CmdContextLoad (set_Blob context tpmBlob) :: issued t
       /\ exclusiveSession t' = exclusiveSession t.
Proof.
  intros Hwrap Hrules Hexec Hhandle.
  destruct (unwrap_wrap _ _ _ Hwrap) as [Hsel Hw].
  rewrite (proj2 (checkContextData_Ok _ _ Hsel) Hrules) in Hw.
  change (unwrapContextBlob context = Ok (innerDataOf tpmBlob rc)) in Hw.
  split; [done|].
  rewrite (ContextLoad_unwrapped _ _ _ Hw). unfold RunCommandContextLoad.
  change (tpmContextFor context (innerDataOf tpmBlob rc))
    with (set_Blob context tpmBlob).
  rewrite Hexec. cbv beta iota zeta delta [deviceResult].
  set (t1 := set_device t dev' (CmdContextLoad (set_Blob context tpmBlob))).
  destruct rc as [c|c|h]; [| |by destruct Hsel as (? & _ & ?)].
  - rewrite (restoreContext_object t1 context
               (innerDataOf tpmBlob (ObjectContext c)) _ _ eq_refl eq_refl Hhandle).
    eexists _, _. split; [reflexivity|].
    split_and!; [apply lookup_insert_eq|apply lookup_insert_eq|done..].
  - destruct Hhandle as [-> Hentry].
    destruct (resources t !! normalizeHandleForMap (SavedHandle context))
      as [l0|] eqn:Hres.
    + destruct (Hentry _ eq_refl) as [sc0 Hsc0].
      rewrite (restoreContext_session t1 context
                 (innerDataOf tpmBlob (SessionContext c)) _ l0 eq_refl eq_refl);
        [|left; eauto].
      eexists _, _. split; [reflexivity|].
      split_and!; [apply lookup_insert_eq|apply lookup_insert_eq|done..].
    + rewrite (restoreContext_session t1 context
                 (innerDataOf tpmBlob (SessionContext c)) _ (newLoc t1)
                 eq_refl eq_refl); [|right; eauto].
      eexists _, _. split; [reflexivity|].
      split_and!; [apply lookup_insert_eq|apply lookup_insert_eq|done..].
Qed.

(** What a successful [ContextSave] did. *)
Lemma ContextSave_Ok t l t1 ctx :
  ContextSave t l = (t1, Ok ctx) ->
  exists rc dev' c0,
    heap t !! l = Some rc
    /\ isUnusableSession rc = false
    /\ execContextSave (device t) (HandleContext_Handle rc) = (dev', inr c0)
    /\ wrapContextBlob (Blob c0) rc = Ok (Blob ctx)
    /\ SavedHandle ctx = SavedHandle c0
    /\ heap t1 = match rc with
                 | SessionContext sc =>
                     <[l := SessionContext (set_usable sc false)]> (heap t)
                 | _ => heap t
                 end
    /\ resources t1 = resources t
    /\ exclusiveSession t1 = exclusiveSession t
    /\ issued t1 = CmdContextSave (HandleContext_Handle rc) :: issued t.
Proof.
  unfold ContextSave, RunCommandContextSave.
  destruct (heap t !! l) as [rc|] eqn:Hheap; [|done].
  destruct (isUnusableSession rc) eqn:Hus; [done|].
  destruct (execContextSave _ _) as [dev' [code|c0]] eqn:Hexec; [done|].
  cbv beta iota zeta delta [deviceResult].
  destruct (wrapContextBlob (Blob c0) rc) as [blob|e|m] eqn:Hwrap; [|done..].
  intros [= <- <-]. exists rc, dev', c0.
  split_and!; try done; by destruct rc.
Qed.

Lemma ContextSave_unusable t l sc :
  heap t !! l = Some (SessionContext sc) ->
  s_usable sc = false ->
  ContextSave t l
  = (t, Err (InvalidParamError "saveContext" "unusable session HandleContext")).
Proof.
  intros Hheap Hus. unfold ContextSave. rewrite Hheap.
  unfold isUnusableSession. by rewrite Hus.
Qed.

(** C5: a session whose usable flag is true is saved by [ContextSave] when
    the TPM command succeeds and the blob can be wrapped, and its usable
    flag is then false; [ContextSave] of a session whose usable flag is
    false fails with an invalid-parameter error and runs no command (the
    TPM context is returned as it was), in particular after the save; and
    [ContextLoad] of the saved context, when the TPM accepts it and answers
    with the saved handle, succeeds and leaves the session it returns
    usable: in the handle context the resource map holds for the saved
    handle, or in a new one when the map holds none. *)
Theorem session_usable_flag `{!MarshallingLaws, !DigestLaws}
    t l sc dev' c0 blob dev2 tu lu scu :
  heap t !! l = Some (SessionContext sc) ->
  s_usable sc = true ->
  execContextSave (device t) (s_handle sc) = (dev', inr c0) ->
  wrapContextBlob (Blob c0) (SessionContext sc) = Ok blob ->
  crossValidates (SavedHandle c0) (innerDataOf (Blob c0) (SessionContext sc)) ->
  execContextLoad dev' c0 = (dev2, inr (SavedHandle c0)) ->
  (forall l0, resources t !! normalizeHandleForMap (SavedHandle c0) = Some l0 ->
              exists sc0, heap t !! l0 = Some (SessionContext sc0)) ->
  heap tu !! lu = Some (SessionContext scu) ->
  s_usable scu = false ->
  ContextSave tu lu
  = (tu, Err (InvalidParamError "saveContext" "unusable session HandleContext"))
  /\ exists t1 t2 l2 sc2,
       ContextSave t l = (t1, Ok (set_Blob c0 blob))
       /\ heap t1 !! l = Some (SessionContext (set_usable sc false))
       /\ s_usable (set_usable sc false) = false
       /\ ContextSave t1 l
          = (t1, Err (InvalidParamError "saveContext"
                        "unusable session HandleContext"))
       /\ ContextLoad t1 (Some (set_Blob c0 blob)) = (t2, Ok l2)
       /\ heap t2 !! l2 = Some (SessionContext sc2)
       /\ s_usable sc2 = true
       /\ (resources t !! normalizeHandleForMap (SavedHandle c0) = Some l2
           \/ (resources t !! normalizeHandleForMap (SavedHandle c0) = None
               /\ heap t !! l2 = None)).
Proof.
  intros Hheap Husable Hsave Hwrap Hrules Hload Hentry Hheapu Hunusable.
  split; [by apply (ContextSave_unusable tu lu scu)|].
  set (t1 := set_heap (set_device t dev' (CmdContextSave (s_handle sc)))
               (<[l := SessionContext (set_usable sc false)]> (heap t))).
  assert (Hsaved : ContextSave t l = (t1, Ok (set_Blob c0 blob))).
  { unfold ContextSave, RunCommandContextSave. rewrite Hheap.
    unfold isUnusableSession. rewrite Husable.
    cbn [negb HandleContext_Handle]. rewrite Hsave.
    cbv beta iota zeta delta [deviceResult]. by rewrite Hwrap. }
  assert (Hl1 : heap t1 !! l = Some (SessionContext (set_usable sc false)))
    by apply lookup_insert_eq.
  assert (Hw : unwrapContextBlob (set_Blob c0 blob)
               = Ok (innerDataOf (Blob c0) (SessionContext sc))).
  { destruct (unwrap_wrap (set_Blob c0 blob) _ _ Hwrap) as [Hsel Hw].
    change (SavedHandle (set_Blob c0 blob)) with (SavedHandle c0) in Hw.
    by rewrite (proj2 (checkContextData_Ok _ _ Hsel) Hrules) in Hw. }
  assert (Hsent : tpmContextFor (set_Blob c0 blob)
                    (innerDataOf (Blob c0) (SessionContext sc)) = c0)
    by by destruct c0.
  assert (Hrun : ContextLoad t1 (Some (set_Blob c0 blob))
                 = (let t1' := set_device t1 dev2 (CmdContextLoad c0) in
                    match restoreContext t1' (set_Blob c0 blob)
                            (innerDataOf (Blob c0) (SessionContext sc))
                            (SavedHandle (set_Blob c0 blob)) with
                    | Ok (t2, l2, rc) => (addHandleContext t2 l2 rc, Ok l2)
                    | Err e => (t1', Err e)
                    | Panic m => (t1', Panic m)
                    end)).
  { rewrite (ContextLoad_unwrapped _ _ _ Hw). unfold RunCommandContextLoad.
    rewrite Hsent. change (device t1) with dev'. rewrite Hload.
    reflexivity. }
  cbv zeta in Hrun.
  set (t1' := set_device t1 dev2 (CmdContextLoad c0)) in Hrun.
  assert (Hl : exists l2,
             ((exists sc0,
                 resources t1' !! normalizeHandleForMap
                                    (SavedHandle (set_Blob c0 blob)) = Some l2
                 /\ heap t1' !! l2 = Some (SessionContext sc0))
              \/ (resources t1' !! normalizeHandleForMap
                                     (SavedHandle (set_Blob c0 blob)) = None
                  /\ l2 = newLoc t1'))
             /\ (resources t !! normalizeHandleForMap (SavedHandle c0) = Some l2
                 \/ (resources t !! normalizeHandleForMap (SavedHandle c0) = None
                     /\ heap t !! l2 = None))).
  { change (resources t1') with (resources t).
    change (SavedHandle (set_Blob c0 blob)) with (SavedHandle c0).
    destruct (resources t !! normalizeHandleForMap (SavedHandle c0))
      as [l0|] eqn:Hres.
    - exists l0. split; [|by left]. left.
      destruct (Hentry _ eq_refl) as [sc0 Hsc0].
      change (heap t1') with (<[l := SessionContext (set_usable sc false)]> (heap t)).
      destruct (decide (l0 = l)) as [->|Hne].
      + eexists. split; [done|apply lookup_insert_eq].
      + exists sc0. split; [done|]. by rewrite lookup_insert_ne.
    - exists (newLoc t1'). split; [by right|]. right. split; [done|].
      destruct (newLoc_fresh t1') as [Hfresh _].
      change (heap t1') with (<[l := SessionContext (set_usable sc false)]> (heap t))
        in Hfresh.
      by apply lookup_insert_None in Hfresh as [? _]. }
  destruct Hl as (l2 & Hl2 & Hsame).
  rewrite (restoreContext_session t1' (set_Blob c0 blob)
             (innerDataOf (Blob c0) (SessionContext sc)) _ l2 eq_refl eq_refl Hl2)
    in Hrun.
  cbv zeta in Hrun.
  eexists t1, _, l2, _. split_and!;
    [exact Hsaved|exact Hl1|reflexivity
    |by apply (ContextSave_unusable t1 l (set_usable sc false))
    |exact Hrun|apply lookup_insert_eq|reflexivity|exact Hsame].
Qed.

(** C6: after a successful [ContextLoad] of a session blob, the exclusive
    flag of the restored session is the flag of the blob and-ed with "this
    context is the tracked exclusive session": it is true only for the
    tracked exclusive session, and no other handle context is changed. *)
Theorem ContextLoad_exclusive t context t' l d :
  ContextLoad t (Some context) = (t', Ok l) ->
  unwrapContextBlob context = Ok d ->
  ContextType d = contextTypeSession ->
  exists dd sc,
    Data d = DataSession dd
    /\ heap t' !! l = Some (SessionContext sc)
    /\ s_isExclusive sc
       = IsExclusive dd && bool_decide (exclusiveSession t' = Some l)
    /\ (s_isExclusive sc = true -> exclusiveSession t' = Some l)
    /\ (forall l', l' <> l -> heap t' !! l' = heap t !! l').
Proof.
  intros Hload Hw Hty.
  destruct (ContextLoad_Ok _ _ _ _ Hload)
    as (d' & dev' & loadedHandle & rc & Hw' & _ & Hr & Hheap & _ & Hex & _).
  rewrite Hw in Hw'. injection Hw' as <-.
  apply restoreContext_Ok in Hr as [_ [[Hty' _]|(_ & -> & _ & dd & Hdd & ->)]];
    [by rewrite Hty in Hty'|].
  eexists dd, _. split_and!; [done|by rewrite Hheap, lookup_insert_eq|..].
  - by rewrite Hex.
  - simpl. rewrite Hex. intros [_ He%bool_decide_eq_true]%andb_true_iff. done.
  - intros l' Hl'. by rewrite Hheap, lookup_insert_ne.
Qed.

(** A session that [ContextLoad] restores in a new handle context is never
    exclusive: the new context is not the tracked one. *)
Lemma ContextLoad_new_session_not_exclusive t context t' l d :
  ContextLoad t (Some context) = (t', Ok l) ->
  unwrapContextBlob context = Ok d ->
  ContextType d = contextTypeSession ->
  resources t !! normalizeHandleForMap (SavedHandle context) = None ->
  exists sc, heap t' !! l = Some (SessionContext sc) /\ s_isExclusive sc = false.
Proof.
  intros Hload Hw Hty Hnone.
  destruct (ContextLoad_Ok _ _ _ _ Hload)
    as (d' & dev' & loadedHandle & rc & Hw' & _ & Hr & Hheap & _).
  rewrite Hw in Hw'. injection Hw' as <-.
  apply restoreContext_Ok in Hr as [_ [[Hty' _]|(_ & -> & Hl & dd & _ & ->)]];
    [by rewrite Hty in Hty'|].
  eexists. split; [by rewrite Hheap, lookup_insert_eq|].
  destruct Hl as [(sc0 & Hres & _)|[_ ->]].
  { unfold set_device in Hres. cbn [resources] in Hres. congruence. }
  cbn [restoredSession s_isExclusive].
  rewrite bool_decide_false; [by destruct (IsExclusive dd)|].
  apply newLoc_fresh.
Qed.

(** C9: when the TPM returns a handle that does not fit the blob, a handle
    other than the saved one for a session or a handle that is not transient
    for an object, [ContextLoad] returns an [InvalidResponseError] and
    leaves the resource map and the handle contexts as they were. *)
Theorem ContextLoad_invalid_response t context d dev' loadedHandle :
  unwrapContextBlob context = Ok d ->
  execContextLoad (device t) (tpmContextFor context d)
  = (dev', inr loadedHandle) ->
  (ContextType d = contextTypeSession ->
   loadedHandle <> SavedHandle context ->
   exists t',
     ContextLoad t (Some context)
     = (t', Err (InvalidResponseError CommandContextLoad
                   "handle 0x%08x returned from TPM is incorrect"
                   (ArgValue loadedHandle)))
     /\ resources t' = resources t /\ heap t' = heap t)
  /\ (ContextType d = contextTypeObject ->
      Handle_Type loadedHandle <> HandleTypeTransient ->
      exists t',
        ContextLoad t (Some context)
        = (t', Err (InvalidResponseError CommandContextLoad
                      "handle 0x%08x returned from TPM is the wrong type"
                      (ArgValue loadedHandle)))
        /\ resources t' = resources t /\ heap t' = heap t).
Proof.
  intros Hw Hexec.
  rewrite (ContextLoad_unwrapped _ _ _ Hw). unfold RunCommandContextLoad.
  rewrite Hexec. cbv beta iota zeta delta [deviceResult].
  unfold restoreContext. split; intros Hty Hne; rewrite Hty.
  - change (contextTypeSession =? contextTypeObject) with false.
    rewrite Z.eqb_refl. apply Z.eqb_neq in Hne. rewrite Hne.
    eexists. split; [reflexivity|done].
  - rewrite Z.eqb_refl. apply Z.eqb_neq in Hne. rewrite Hne.
    eexists. split; [reflexivity|done].
Qed.

End ContextFacts.

(** ** Wrapped blobs in the wire format *)

Section WireBlobs.
Context `{Digests, Device, !DigestLaws}.

(** In the wire format the checksum of a wrapped blob is stored from
    offset 4 on; replacing any byte of it by another makes [ContextLoad]
    fail on the checksum, whatever the digest functions are. *)
Lemma ContextLoad_flipped_byte t context tpmBlob rc innerData i b b' :
  wrapContextBlob tpmBlob rc = Ok (Blob context) ->
  MarshalData (innerDataOf tpmBlob rc) = Some innerData ->
  (i < length (sha256 innerData))%nat ->
  Blob context !! (4 + i)%nat = Some b ->
  b' <> b ->
  ContextLoad t (Some (set_Blob context (<[(4 + i)%nat := b']> (Blob context))))
  = (t, Err (ErrorString "cannot load context: invalid checksum")).
Proof.
  intros (innerData' & Hin & Hout)%wrapContextBlob_Ok Hin' Hi Hb Hne.
  rewrite Hin in Hin'. injection Hin' as ->.
  cbn [MarshalChecksummed Wire.marshalling] in Hout.
  pose proof (WireFacts.encChecksummed_lookup _ _ _ _ _ Hout Hi) as Hlook.
  rewrite Hb in Hlook.
  pose proof (WireFacts.encChecksummed_flip _ _ _ _ _ b' Hout Hi) as Hflip.
  apply WireFacts.decChecksummed_encChecksummed in Hflip.
  pose proof (ContextLoad_mismatch t
                (set_Blob context (<[(4 + i)%nat := b']> (Blob context)))
                HashAlgorithmSHA256 (<[i := b']> (sha256 innerData)) innerData)
    as Hmismatch.
  destruct (Hmismatch Hflip) as (e & -> & He).
  - rewrite NewHash_SHA256. intros Heq. symmetry in Heq, Hlook.
    by eapply insert_changes.
  - by rewrite He; [|apply Supported_SHA256].
Qed.

End WireBlobs.

(** ** Startup *)

(** Every entry of the resource map holds a handle context, under the key
    of its handle. *)
Definition registryKeyed `{Marshalling, Digests, Device} (t : TPMContext)
  : Prop :=
  forall k l, resources t !! k = Some l ->
    exists rc, heap t !! l = Some rc
               /\ normalizeHandleForMap (HandleContext_Handle rc) = k.

(** The handle context at [l] is of a type that [Startup] evicts. *)
Definition evictedByStartup `{Marshalling, Digests, Device} (t : TPMContext)
  (l : loc) : bool :=
  match heap t !! l with
  | Some rc => negb (survivesStartup (Handle_Type (HandleContext_Handle rc)))
  | None => false
  end.

Section StartupFacts.
Context `{Marshalling, Digests, Device}.

(** The [switch] of [Startup] keeps going exactly for the four handle
    types PCR, NV index, permanent and persistent. *)
Lemma survivesStartup_types ty :
  survivesStartup ty = true
  <-> ty = HandleTypePCR \/ ty = HandleTypeNVIndex
      \/ ty = HandleTypePermanent \/ ty = HandleTypePersistent.
Proof.
  unfold survivesStartup. rewrite !orb_true_iff, !Z.eqb_eq. tauto.
Qed.

Lemma registryKeyed_evict t l rc :
  registryKeyed t -> registryKeyed (evictHandleContext t l rc).
Proof.
  intros Hk k l0 Hl0. unfold evictHandleContext in Hl0. cbn in Hl0.
  apply lookup_delete_Some in Hl0 as [_ Hl0]. by apply Hk.
Qed.

(** Membership in the entries still to visit, from or to membership in
    the entries with the current one. *)
Ltac membership Hin Hfurther :=
  first
    [ by apply Hfurther
    | apply elem_of_cons in Hin as [[= -> ->]|Hin]; [congruence|done]
    | apply elem_of_cons in Hin as [[= -> ->]|Hin]; done ].

(** The loop removes exactly the visited entries of an evicted type, and
    touches no handle context. *)
Lemma evictLoop_spec entries t :
  registryKeyed t ->
  exists t',
    evictLoop entries t = Ok t'
    /\ heap t' = heap t
    /\ (forall k l,
          resources t' !! k = Some l <->
          resources t !! k = Some l
          /\ ~ ((k, l) ∈ entries /\ evictedByStartup t l = true))
    /\ (forall l,
          l ∈ invalidated t' <->
          l ∈ invalidated t
          \/ exists k, (k, l) ∈ entries /\ resources t !! k = Some l
                       /\ evictedByStartup t l = true).
Proof.
  revert t. induction entries as [|[k l] rest IH]; intros t Hkeyed.
  { exists t. split_and!; [done..| |].
    - intros k l. split; [|by intros []].
      intros Hl. split; [done|]. by intros [?%elem_of_nil _].
    - intros l. split; [by left|].
      by intros [?|(k & ?%elem_of_nil & _)]. }
  assert (Hfurther : forall e, e ∈ rest -> e ∈ (k, l) :: rest)
    by (intros e He; apply elem_of_cons; by right).
  assert (Hhere : (k, l) ∈ (k, l) :: rest) by (apply elem_of_cons; by left).
  cbn [evictLoop]. case_bool_decide as Hkl.
  - destruct (Hkeyed _ _ Hkl) as (rc & Hrc & Hkey). rewrite Hrc.
    assert (Hev : evictedByStartup t l
                  = negb (survivesStartup (Handle_Type (HandleContext_Handle rc))))
      by (unfold evictedByStartup; by rewrite Hrc).
    destruct (survivesStartup _) eqn:Hs; cbn [negb] in Hev.
    + destruct (IH t Hkeyed) as (t' & -> & Hheap & Hres & Hinv).
      exists t'. split_and!; [done..| |].
      * intros k0 l0. rewrite Hres. split; intros [Hl0 Hno]; (split; [done|]);
          intros [Hin Hev0]; apply Hno; (split; [|done]).
        -- membership Hin Hfurther.
        -- membership Hin Hfurther.
      * intros l0. rewrite Hinv. split; intros [?|(k0 & Hin & Hl0 & Hev0)];
          [by left|right|by left|right]; exists k0; (split_and!; [|done..]).
        -- membership Hin Hfurther.
        -- membership Hin Hfurther.
    + destruct (IH _ (registryKeyed_evict t l rc Hkeyed))
        as (t' & -> & Hheap & Hres & Hinv).
      exists t'. split_and!; [done..| |].
      * intros k0 l0. rewrite Hres. unfold evictHandleContext.
        cbn [resources set_invalidated set_resources].
        rewrite Hkey, lookup_delete_Some.
        change (evictedByStartup (set_invalidated _ _) l0)
          with (evictedByStartup t l0).
        split.
        -- intros [[Hne Hl0] Hno]. split; [done|]. intros [Hin Hev0].
           apply Hno. split; [|done].
           apply elem_of_cons in Hin as [[= -> ->]|Hin]; done.
        -- intros [Hl0 Hno].
           assert (k <> k0).
           { intros <-. apply Hno. rewrite Hkl in Hl0. injection Hl0 as <-.
             done. }
           split_and!; [done..|]. intros [Hin Hev0]. apply Hno.
           split; [by apply Hfurther|done].
      * intros l0. rewrite Hinv. unfold evictHandleContext.
        cbn [resources invalidated set_invalidated set_resources].
        rewrite Hkey.
        change (evictedByStartup (set_invalidated _ _) l0)
          with (evictedByStartup t l0).
        split.
        -- intros [[->%elem_of_singleton|?]%elem_of_union
                  |(k0 & Hin & [Hne Hl0]%lookup_delete_Some & Hev0)].
           ++ right. exists k. done.
           ++ by left.
           ++ right. exists k0. split_and!; [by apply Hfurther|done..].
        -- intros [?|(k0 & Hin & Hl0 & Hev0)].
           { left. apply elem_of_union. by right. }
           destruct (decide (k0 = k)) as [->|Hne].
           ++ rewrite Hkl in Hl0. injection Hl0 as <-. left.
              apply elem_of_union. left. by apply elem_of_singleton.
           ++ right. exists k0. rewrite lookup_delete_Some.
              apply elem_of_cons in Hin as [[= -> ->]|Hin]; done.
  - destruct (IH t Hkeyed) as (t' & -> & Hheap & Hres & Hinv).
    exists t'. split_and!; [done..| |].
    + intros k0 l0. rewrite Hres. split; intros [Hl0 Hno]; (split; [done|]);
        intros [Hin Hev0]; apply Hno; (split; [|done]).
      * membership Hin Hfurther.
      * membership Hin Hfurther.
    + intros l0. rewrite Hinv. split; intros [?|(k0 & Hin & Hl0 & Hev0)];
        [by left|right|by left|right]; exists k0; (split_and!; [|done..]).
      * membership Hin Hfurther.
      * membership Hin Hfurther.
Qed.

(** When the TPM command fails, [Startup] returns at once with the error
    of the command: the loop over the resource map is not reached. *)
Lemma Startup_command_error t startupType dev' code :
  execStartup (device t) startupType = (dev', Some code) ->
  exists t',
    Startup t startupType = (t', Err (DeviceError code))
    /\ resources t' = resources t /\ heap t' = heap t
    /\ invalidated t' = invalidated t.
Proof.
  intros Hexec. unfold Startup, RunCommandStartup. rewrite Hexec.
  eexists. split; [reflexivity|done].
Qed.

(** X14: when the TPM command succeeds, [Startup] returns without error
    and has evicted every entry of the resource map whose handle type is
    none of PCR, NV index, permanent and persistent (the entry is gone and
    its context invalidated), while every entry of one of those four types
    is still in the map with its handle context unchanged; no entry is
    added and no handle context is changed. *)
Theorem Startup_evicts `{!DeviceLaws} t startupType dev' :
  registryKeyed t ->
  execStartup (device t) startupType = (dev', None) ->
  exists t',
    Startup t startupType = (t', Ok tt)
    /\ heap t' = heap t
    /\ (forall k l rc,
          resources t !! k = Some l ->
          heap t !! l = Some rc ->
          let ty := Handle_Type (HandleContext_Handle rc) in
          (ty = HandleTypePCR \/ ty = HandleTypeNVIndex
           \/ ty = HandleTypePermanent \/ ty = HandleTypePersistent ->
           resources t' !! k = Some l /\ heap t' !! l = Some rc)
          /\ (ty <> HandleTypePCR -> ty <> HandleTypeNVIndex ->
              ty <> HandleTypePermanent -> ty <> HandleTypePersistent ->
              resources t' !! k = None /\ l ∈ invalidated t'))
    /\ (forall k l, resources t' !! k = Some l -> resources t !! k = Some l).
Proof.
  intros Hkeyed Hexec. unfold Startup, RunCommandStartup. rewrite Hexec.
  cbn [fmap option_fmap option_map].
  set (t1 := set_device t dev' (CmdStartup startupType)).
  destruct (evictLoop_spec (mapRange (resources t1)) t1 Hkeyed)
    as (t' & -> & Hheap & Hres & Hinv).
  assert (Hin : forall k l, (k, l) ∈ mapRange (resources t1)
                            <-> resources t !! k = Some l).
  { intros k l. rewrite mapRange_perm. apply elem_of_map_to_list. }
  exists t'. split_and!; [done..| |].
  - intros k l rc Hl Hrc. cbv zeta.
    set (ty := Handle_Type (HandleContext_Handle rc)).
    assert (Hev : evictedByStartup t1 l = negb (survivesStartup ty))
      by (unfold evictedByStartup; cbn; by rewrite Hrc).
    split.
    + intros Hkept%survivesStartup_types. rewrite Hkept in Hev.
      cbn [negb] in Hev.
      split; [|by rewrite Hheap]. apply Hres. split; [done|].
      intros [_ ?]. congruence.
    + intros Hpcr Hnv Hperm Hpers.
      assert (Hgo : survivesStartup ty = false).
      { destruct (survivesStartup ty) eqn:Hs; [|done].
        apply survivesStartup_types in Hs. tauto. }
      rewrite Hgo in Hev. cbn [negb] in Hev. split.
      * destruct (resources t' !! k) as [l0|] eqn:Hl0; [|done].
        apply Hres in Hl0 as [Hl0 Hno]. cbn in Hl0. rewrite Hl in Hl0.
        injection Hl0 as <-. destruct Hno. split; [by apply Hin|done].
      * apply Hinv. right. exists k. split_and!; [by apply Hin|done..].
  - intros k l Hl. by apply Hres in Hl as [Hl _].
Qed.

End StartupFacts.

(** ** Create *)

Module ImplFacts.
Import Impl.

Section CreateFacts.
Context `{Collaborators}.

(** C10: [Create] with a nil [parentHandle] or a nil [inPublic] returns an
    invalid-parameter error and runs no command: [tpmImpl] is returned as
    it was.  With a nil [inSensitive] it goes on as with an empty
    [SensitiveCreate]: once the parent handle has passed its check, the
    command is run with the empty value as its sensitive parameter, the
    state of [tpmImpl] is the one the TPM leaves and the result is the
    TPM's answer. *)
Theorem Create_nil_arguments (t : tpmImpl) (parentHandle : option ResourceContext)
    (inSensitive : option SensitiveCreate) (inPublic : option Public)
    (outsideInfo : bytes) (creationPCR : PCRSelectionList) (session : Session) :
  Create t None inSensitive inPublic outsideInfo creationPCR session
  = (t, inl (InvalidParamError "nil parentHandle"))
  /\ (forall p,
        Create t (Some p) inSensitive None outsideInfo creationPCR session
        = (t, inl (InvalidParamError "nil inPublic")))
  /\ Create t parentHandle None inPublic outsideInfo creationPCR session
     = Create t parentHandle (Some emptySensitiveCreate) inPublic outsideInfo
         creationPCR session
  /\ (forall p pub,
        Create t (Some p) None (Some pub) outsideInfo creationPCR session
        = match checkResourceContextParam (state t) p with
          | Some err => (t, inl err)
          | None =>
              ({| state :=
                    fst (execCreate (state t) (ResourceContext_Handle p)
                           emptySensitiveCreate pub outsideInfo creationPCR
                           session);
                  issued :=
                    {| cc_parent := ResourceContext_Handle p;
                       cc_inSensitive := emptySensitiveCreate;
                       cc_inPublic := pub;
                       cc_outsideInfo := outsideInfo;
                       cc_creationPCR := creationPCR;
                       cc_session := session |} :: issued t |},
               snd (execCreate (state t) (ResourceContext_Handle p)
                      emptySensitiveCreate pub outsideInfo creationPCR
                      session))
          end).
Proof.
  split_and!.
  - reflexivity.
  - intros p. reflexivity.
  - reflexivity.
  - intros p pub. unfold Create.
    destruct (checkResourceContextParam (state t) p); [done|].
    unfold RunCommandCreate. cbn [cc_parent cc_inSensitive cc_inPublic
      cc_outsideInfo cc_creationPCR cc_session].
    by destruct (execCreate _ _ _ _ _ _ _).
Qed.

End CreateFacts.
End ImplFacts.

(** ** The expiration sign convention *)

Module PolicyTestsFacts.
Import PolicyTests.

(** C8: for the result of a successful policy assertion, a non-negative
    expiration gives an empty timeout and the null hierarchy, a negative
    expiration gives a non-empty timeout and the owner hierarchy, which is
    not null; the checks of [TestPolicySigned] and [TestPolicySecret]
    report no failure on it. *)
Theorem expiration_sign_convention (tag now expiration : Z) (digest : bytes) :
  (0 <= expiration ->
   fst (policyAssertionResult tag now expiration digest) = []
   /\ Hierarchy (snd (policyAssertionResult tag now expiration digest))
      = HandleNull)
  /\ (expiration < 0 ->
      fst (policyAssertionResult tag now expiration digest) <> []
      /\ Hierarchy (snd (policyAssertionResult tag now expiration digest))
         = HandleOwner
      /\ Hierarchy (snd (policyAssertionResult tag now expiration digest))
         <> HandleNull)
  /\ checkResult tag expiration
       (fst (policyAssertionResult tag now expiration digest))
       (Some (snd (policyAssertionResult tag now expiration digest))) = [].
Proof.
  unfold policyAssertionResult, checkResult.
  destruct (Z.leb_spec 0 expiration) as [Hpos|Hneg]; cbn [fst snd Hierarchy Tag].
  - rewrite !Z.eqb_refl. split_and!; [done|lia|done].
  - rewrite !Z.eqb_refl.
    assert (Hlen : length (Wire.putUint 8 (now + Z.abs expiration)) = 8%nat)
      by apply WireFacts.length_putUint.
    rewrite Hlen. split_and!; [lia| |done].
    intros _. split_and!; [|done..].
    intros Hnil. by rewrite Hnil in Hlen.
Qed.

End PolicyTestsFacts.

(** ** The theorems on the sample device *)

Module Scenarios.
Import Sample.

(** A result is determined by its second component once the first is read
    off it. *)
Lemma result_of_snd {A B} (p : A * B) (b : B) : snd p = b -> p = (fst p, b).
Proof. intros <-. by destruct p. Qed.

Lemma saved1_wrapped :
  wrapContextBlob opaqueBlob (SessionContext session1) = Ok (Blob saved1).
Proof. vm_compute. reflexivity. Qed.

Lemma session1_crossValidates :
  crossValidates (SavedHandle saved1)
    (innerDataOf opaqueBlob (SessionContext session1)).
Proof.
  apply checkContextData_Ok; [|vm_compute; reflexivity].
  exists sessionContextDataT. split; reflexivity.
Qed.

Lemma saved1_unwrapped :
  unwrapContextBlob saved1
  = Ok (innerDataOf opaqueBlob (SessionContext session1)).
Proof. vm_compute. reflexivity. Qed.

Lemma tpm1_keyed : registryKeyed tpm1.
Proof.
  intros k l Hl. apply elem_of_map_to_list in Hl.
  set (entries := map_to_list _) in Hl. vm_compute in entries. subst entries.
  repeat (apply elem_of_cons in Hl as [[= -> ->]|Hl]);
    [eexists; split; reflexivity..|by apply elem_of_nil in Hl].
Qed.

(** The transient object of [tpm1], saved and loaded again, is a new
    handle context with the same public area and name. *)
Example object_save_load :
  match ContextSave tpm1 2%positive with
  | (t1, Ok ctx) =>
      snd (ContextLoad t1 (Some ctx)) = Ok 4%positive
      /\ heap (fst (ContextLoad t1 (Some ctx))) !! 4%positive
         = Some (ObjectContext {| o_handle := 0x80000000;
                                  o_public := public1;
                                  o_name := o_name object1 |})
  | _ => False
  end.
Proof. vm_compute. split; reflexivity. Qed.

(** A session key of the wrong size is refused. *)
Example bad_session_key_refused :
  ContextLoad tpm0 (Some savedBad)
  = (tpm0, Err (ErrorString
                  "cannot load context for session: unexpected session key size")).
Proof.
  apply ContextLoad_unwrap_Err. vm_compute. reflexivity.
Qed.

(** Any byte of the stored checksum of [saved1], replaced by another. *)
Example saved1_flipped_byte t i b b' :
  (i < 32)%nat ->
  Blob saved1 !! (4 + i)%nat = Some b ->
  b' <> b ->
  ContextLoad t (Some (set_Blob saved1 (<[(4 + i)%nat := b']> (Blob saved1))))
  = (t, Err (ErrorString "cannot load context: invalid checksum")).
Proof.
  intros Hi. apply (ContextLoad_flipped_byte t saved1 opaqueBlob
                      (SessionContext session1) inner1).
  - exact saved1_wrapped.
  - vm_compute. reflexivity.
  - exact Hi.
Qed.

(** The amended C1 on [saved1], loaded back into the context it was saved
    from. *)
Lemma ContextLoad_wrapContextBlob_witness :
  unwrapContextBlob saved1
  = Ok (innerDataOf opaqueBlob (SessionContext session1))
  /\ exists t' l,
       ContextLoad tpm1saved (Some saved1) = (t', Ok l)
       /\ heap t' !! l
          = Some (reloaded tpm1saved l 0x02000000 (SessionContext session1))
       /\ resources t' !! normalizeHandleForMap 0x02000000 = Some l
       /\ issued t'
          = CmdContextLoad (set_Blob saved1 opaqueBlob) :: issued tpm1saved
       /\ exclusiveSession t' = exclusiveSession tpm1saved.
Proof.
  apply (ContextLoad_wrapContextBlob tpm1saved saved1 opaqueBlob
           (SessionContext session1) [] 0x02000000).
  - exact saved1_wrapped.
  - exact session1_crossValidates.
  - reflexivity.
  - split; [reflexivity|]. intros l0 Hl0. vm_compute in Hl0.
    injection Hl0 as <-. eexists. vm_compute. reflexivity.
Defined.

(** C1 as stated fails: [session1] is exclusive, and the session restored
    from its wrapped blob in another TPM context is not. *)
Lemma ContextLoad_exclusive_flag_not_restored :
  wrapContextBlob opaqueBlob (SessionContext session1) = Ok (Blob saved1)
  /\ s_isExclusive session1 = true
  /\ exists t' l sc,
       ContextLoad tpm0 (Some saved1) = (t', Ok l)
       /\ heap t' !! l = Some (SessionContext sc)
       /\ s_isExclusive sc = false.
Proof.
  split; [exact saved1_wrapped|]. split; [reflexivity|].
  exists (fst (ContextLoad tpm0 (Some saved1))), 1%positive,
    (set_usable
       {| s_handle := 0x02000000; s_usable := true; s_isAudit := true;
          s_isExclusive := false; s_hashAlg := HashAlgorithmSHA256;
          s_sessionType := SessionTypeHMAC; s_policyHMACType := 0;
          s_isBound := false; s_boundEntity := []; s_sessionKey := [];
          s_nonceCaller := zeros 32; s_nonceTPM := replicate 32 x01;
          s_symmetric := symNull |} true).
  split_and!.
  - apply result_of_snd. vm_compute. reflexivity.
  - vm_compute. reflexivity.
  - reflexivity.
Qed.

(** C2 on [flipped1]. *)
Lemma ContextLoad_checksum_witness :
  exists e,
    ContextLoad tpm1saved (Some flipped1) = (tpm1saved, Err e)
    /\ (Supported HashAlgorithmSHA256 = true ->
        e = ErrorString "cannot load context: invalid checksum").
Proof.
  destruct (ContextLoad_checksum tpm1saved) as [Hmismatch _].
  eapply (Hmismatch flipped1 HashAlgorithmSHA256 _ inner1).
  - vm_compute. reflexivity.
  - vm_compute. discriminate.
Defined.

(** C3 on [session1]. *)
Lemma wrapContextBlob_layout_witness :
  exists innerData,
    UnmarshalChecksummed (Blob saved1)
    = Some (HashAlgorithmSHA256, sha256 innerData, innerData)
    /\ UnmarshalData innerData
       = Some (innerDataOf opaqueBlob (SessionContext session1))
    /\ ((exists c, SessionContext session1 = ObjectContext c
                   /\ ContextType (innerDataOf opaqueBlob (SessionContext session1))
                      = contextTypeObject)
        \/ (exists c, SessionContext session1 = SessionContext c
                      /\ ContextType
                           (innerDataOf opaqueBlob (SessionContext session1))
                         = contextTypeSession)).
Proof.
  exact (proj2 (wrapContextBlob_layout opaqueBlob (SessionContext session1)
                  (Blob saved1)) saved1_wrapped).
Defined.

(** C4 on [saved1]: the rules hold and the command is run. *)
Lemma ContextLoad_cross_validation_witness :
  ((exists e, snd (ContextLoad tpm1saved (Some saved1)) = Err e
              /\ isIntegrityError e = true)
   <-> ~ crossValidates (SavedHandle saved1)
           (innerDataOf opaqueBlob (SessionContext session1)))
  /\ (~ crossValidates (SavedHandle saved1)
          (innerDataOf opaqueBlob (SessionContext session1)) ->
      fst (ContextLoad tpm1saved (Some saved1)) = tpm1saved)
  /\ (crossValidates (SavedHandle saved1)
        (innerDataOf opaqueBlob (SessionContext session1)) ->
      issued (fst (ContextLoad tpm1saved (Some saved1)))
      = CmdContextLoad
          (tpmContextFor saved1
             (innerDataOf opaqueBlob (SessionContext session1)))
          :: issued tpm1saved).
Proof.
  apply (ContextLoad_cross_validation tpm1saved saved1 HashAlgorithmSHA256
           inner1).
  - vm_compute. reflexivity.
  - reflexivity.
  - vm_compute. reflexivity.
Defined.

(** C5 on [session1]: saved from [tpm1], refused when saved again, and
    usable after the saved context is loaded. *)
Lemma session_usable_flag_witness :
  ContextSave tpm1saved 1%positive
  = (tpm1saved,
     Err (InvalidParamError "saveContext" "unusable session HandleContext"))
  /\ exists t1 t2 l2 sc2,
       ContextSave tpm1 1%positive = (t1, Ok saved1)
       /\ heap t1 !! 1%positive
          = Some (SessionContext (set_usable session1 false))
       /\ s_usable (set_usable session1 false) = false
       /\ ContextSave t1 1%positive
          = (t1, Err (InvalidParamError "saveContext"
                        "unusable session HandleContext"))
       /\ ContextLoad t1 (Some saved1) = (t2, Ok l2)
       /\ heap t2 !! l2 = Some (SessionContext sc2)
       /\ s_usable sc2 = true
       /\ (resources tpm1 !! normalizeHandleForMap (SavedHandle saved1) = Some l2
           \/ (resources tpm1 !! normalizeHandleForMap (SavedHandle saved1) = None
               /\ heap tpm1 !! l2 = None)).
Proof.
  apply (session_usable_flag tpm1 1%positive session1 []
           (set_Blob saved1 opaqueBlob) (Blob saved1) []
           tpm1saved 1%positive (set_usable session1 false)).
  - reflexivity.
  - reflexivity.
  - reflexivity.
  - exact saved1_wrapped.
  - exact session1_crossValidates.
  - reflexivity.
  - intros l0 Hl0. vm_compute in Hl0. injection Hl0 as <-.
    eexists. vm_compute. reflexivity.
  - vm_compute. reflexivity.
  - reflexivity.
Defined.

(** C6 on [saved1], loaded into the context that tracks it as exclusive. *)
Lemma ContextLoad_exclusive_witness :
  exists dd sc,
    Data (innerDataOf opaqueBlob (SessionContext session1)) = DataSession dd
    /\ heap (fst (ContextLoad tpm1saved (Some saved1))) !! 1%positive
       = Some (SessionContext sc)
    /\ s_isExclusive sc
       = IsExclusive dd
         && bool_decide
              (exclusiveSession (fst (ContextLoad tpm1saved (Some saved1)))
               = Some 1%positive)
    /\ (s_isExclusive sc = true ->
        exclusiveSession (fst (ContextLoad tpm1saved (Some saved1)))
        = Some 1%positive)
    /\ (forall l', l' <> 1%positive ->
          heap (fst (ContextLoad tpm1saved (Some saved1))) !! l'
          = heap tpm1saved !! l').
Proof.
  apply (ContextLoad_exclusive tpm1saved saved1).
  - apply result_of_snd. vm_compute. reflexivity.
  - exact saved1_unwrapped.
  - reflexivity.
Defined.

(** X14 on [tpm1]: the session and the transient object go, the owner
    hierarchy stays. *)
Lemma Startup_evicts_witness :
  exists t',
    Startup tpm1 0 = (t', Ok tt)
    /\ (resources t' !! 0x02000000 = None /\ 1%positive ∈ invalidated t')
    /\ (resources t' !! 0x80000001 = None /\ 2%positive ∈ invalidated t')
    /\ (resources t' !! HandleOwner = Some 3%positive
        /\ heap t' !! 3%positive = Some (OtherContext HandleOwner)).
Proof.
  destruct (Startup_evicts tpm1 0 [] tpm1_keyed eq_refl)
    as (t' & Hstartup & _ & Hentries & _).
  exists t'. split; [exact Hstartup|]. split; [|split].
  - apply (proj2 (Hentries 0x02000000 1%positive (SessionContext session1)
                    eq_refl eq_refl)); vm_compute; discriminate.
  - apply (proj2 (Hentries 0x80000001 2%positive (ObjectContext object1)
                    eq_refl eq_refl)); vm_compute; discriminate.
  - apply (proj1 (Hentries HandleOwner 3%positive (OtherContext HandleOwner)
                    eq_refl eq_refl)).
    right; right; left. reflexivity.
Defined.

(** C9 on [saved1], with a device that returns another session handle. *)
Lemma ContextLoad_invalid_response_witness :
  (ContextType (innerDataOf opaqueBlob (SessionContext session1))
   = contextTypeSession ->
   0x02000005 <> SavedHandle saved1 ->
   exists t',
     ContextLoad tpm1other (Some saved1)
     = (t', Err (InvalidResponseError CommandContextLoad
                   "handle 0x%08x returned from TPM is incorrect"
                   (ArgValue 0x02000005)))
     /\ resources t' = resources tpm1other /\ heap t' = heap tpm1other)
  /\ (ContextType (innerDataOf opaqueBlob (SessionContext session1))
      = contextTypeObject ->
      Handle_Type 0x02000005 <> HandleTypeTransient ->
      exists t',
        ContextLoad tpm1other (Some saved1)
        = (t', Err (InvalidResponseError CommandContextLoad
                      "handle 0x%08x returned from TPM is the wrong type"
                      (ArgValue 0x02000005)))
        /\ resources t' = resources tpm1other /\ heap t' = heap tpm1other).
Proof.
  apply (ContextLoad_invalid_response tpm1other saved1
           (innerDataOf opaqueBlob (SessionContext session1)) []).
  - exact saved1_unwrapped.
  - reflexivity.
Defined.

End Scenarios.

(** * Further operations on handle contexts *)

(** ** FlushContext, EvictControl and Shutdown *)

(** The collaborators of the remaining commands of the context section:
    the check of a handle context against the TPM context (its error text,
    if any), the sessions passed through to [RunCommand], and the device's
    answers.  [issued] lists the context and startup commands only; for the
    commands below the device state is what records a run. *)
Class ResourceCommands `{Device} := {
  AuthSession : Type;
  checkHandleContextParam : TPMContext -> loc -> option string;
  execShutdown : Dev -> Z -> list AuthSession -> Dev * option Z;
  execFlushContext : Dev -> Handle -> Dev * option Z;
  execEvictControl :
    Dev -> Handle -> option AuthSession -> Handle -> Handle ->
    list AuthSession -> Dev * option Z
}.

(** Modelled from the spec: [RunCommand], which is not among the files
    modelled here, also brings the handle contexts of the sessions it was
    given up to date once the command has been run ("nonce rolling", "tracks
    audit/exclusive/bound-session invariants over a session's lifetime"),
    and the context of a session that was not continued is evicted.
    [processSessions t sessions code] is the TPM context after that step,
    [code] being the error code of the command, if any. *)
Class SessionProcessing `{Device, !ResourceCommands} := {
  processSessions : TPMContext -> list AuthSession -> option Z -> TPMContext
}.

(** Modelled from the spec: what the step may touch.  The device is not
    run again; a handle context keeps its handle and only a session context
    is rewritten; no handle context is created; entries of the resource map
    are only removed ("evict"). *)
Class SessionProcessingLaws `{SessionProcessing} : Prop := {
  processSessions_device t sessions code :
    device (processSessions t sessions code) = device t;
  processSessions_context t sessions code l rc :
    heap t !! l = Some rc ->
    exists rc',
      heap (processSessions t sessions code) !! l = Some rc'
      /\ HandleContext_Handle rc' = HandleContext_Handle rc
      /\ ((forall sc, rc <> SessionContext sc) -> rc' = rc);
  processSessions_no_context t sessions code l :
    heap t !! l = None -> heap (processSessions t sessions code) !! l = None;
  processSessions_resources t sessions code k l :
    resources (processSessions t sessions code) !! k = Some l ->
    resources t !! k = Some l
}.

Section Resources.
Context `{Device, !ResourceCommands, !SessionProcessing}.

Definition with_device (t : TPMContext) (d : Dev) : TPMContext :=
  {| device := d; issued := issued t; heap := heap t;
     invalidated := invalidated t; resources := resources t;
     exclusiveSession := exclusiveSession t |}.

(** The sessions of a command: the one that authorizes a handle, when it
    is not nil, before the others. *)
Definition sessionsUsed (authSession : option AuthSession)
  (sessions : list AuthSession) : list AuthSession :=
  match authSession with
  | Some s => s :: sessions
  | None => sessions
  end.

(** [Shutdown]: the command with its sessions, and nothing else. *)
Definition Shutdown (t : TPMContext) (shutdownType : Z)
  (sessions : list AuthSession) : TPMContext * outcome unit :=
  let '(d, r) := execShutdown (device t) shutdownType sessions in
  (processSessions (with_device t d) sessions r,
   match r with
   | Some code => Err (DeviceError code)
   | None => Ok tt
   end).

(** [FlushContext]; the command is run without sessions. *)
Definition FlushContext (t : TPMContext) (flushContext : loc)
  : TPMContext * outcome unit :=
  match checkHandleContextParam t flushContext with
  | Some err => (t, Err (InvalidParamError "flushContext" err))
  | None =>
      match heap t !! flushContext with
      | None => (t, Panic "nil HandleContext")
      | Some rc =>
          let '(d, r) := execFlushContext (device t) (HandleContext_Handle rc) in
          let t1 := with_device t d in
          match r with
          | Some code => (t1, Err (DeviceError code))
          | None => (evictHandleContext t1 flushContext rc, Ok tt)
          end
      end
  end.

(** [EvictControl].  The command is run with the session that authorizes
    [auth] and the other sessions; [object] is read again once
    [RunCommand] has returned.  The result is the address of the context of
    the persistent object, or [None] for the nil [ResourceContext] returned
    when a persistent object is evicted.  [object.Name()] and
    [public.copyTo] read the name and copy the public area of the object
    context. *)
Definition EvictControl (t : TPMContext) (auth object : loc)
  (persistentHandle : Handle) (authAuthSession : option AuthSession)
  (sessions : list AuthSession) : TPMContext * outcome (option loc) :=
  match heap t !! auth, heap t !! object with
  | Some authRc, Some objectRc =>
      let '(d, r) :=
        execEvictControl (device t) (HandleContext_Handle authRc)
          authAuthSession (HandleContext_Handle objectRc) persistentHandle
          sessions in
      let t1 :=
        processSessions (with_device t d)
          (sessionsUsed authAuthSession sessions) r in
      match r with
      | Some code => (t1, Err (DeviceError code))
      | None =>
          match heap t1 !! object with
          | None => (t1, Panic "nil ResourceContext")
          | Some objectRc =>
              if HandleContext_Handle objectRc =? persistentHandle then
                (evictHandleContext t1 object objectRc, Ok None)
              else
                match objectRc with
                | ObjectContext c =>
                    let l := newLoc t1 in
                    let rc := ObjectContext {| o_handle := persistentHandle;
                                               o_public := o_public c;
                                               o_name := o_name c |} in
                    (addHandleContext (set_heap t1 (<[l := rc]> (heap t1))) l rc,
                     Ok (Some l))
                | _ => (t1, Panic "interface conversion: not *objectContext")
                end
          end
      end
  | _, _ => (t, Panic "nil ResourceContext")
  end.

End Resources.

(** ** Load, LoadExternal and ReadPublic (tpmImpl) *)

Module ImplObjects.
Import Impl.

(** What these functions need beyond the collaborators of [Create]:
    [Public.Copy] ([None] is a nil copy), the sensitive area passed
    through, and the device's answers. *)
Class Collaborators `{Impl.Collaborators} := {
  Sensitive : Type;
  Copy : Public -> option Public;
  execLoad :
    State -> Handle -> bytes -> Public -> Session ->
    State * (error + (Handle * bytes));
  execLoadExternal :
    State -> option Sensitive -> Public -> Handle ->
    State * (error + (Handle * bytes));
  execReadPublic :
    State -> Handle -> State * (error + (Public * bytes * bytes))
}.

Section Objects.
Context `{Collaborators}.

(** [tpmImpl] with the resource contexts it has registered, by handle.
    Modelled from the spec: [addResourceContext] "inserts, keyed by
    handle". *)
Record tpmObjects := {
  impl : State;
  registered : gmap Handle objectContext
}.

Definition addResourceContext (t : tpmObjects) (rc : objectContext)
  : tpmObjects :=
  {| impl := impl t; registered := <[o_handle rc := rc]> (registered t) |}.

Definition with_impl (t : tpmObjects) (s : State) : tpmObjects :=
  {| impl := s; registered := registered t |}.

Definition Load (t : tpmObjects) (parentHandle : option ResourceContext)
  (inPrivate : bytes) (inPublic : option Public) (session : Session)
  : tpmObjects * (error + (objectContext * bytes)) :=
  match parentHandle with
  | None => (t, inl (InvalidParamError "nil parentHandle"))
  | Some parentHandle =>
      match inPublic with
      | None => (t, inl (InvalidParamError "nil inPublic"))
      | Some inPublic =>
          match checkResourceContextParam (impl t) parentHandle with
          | Some err => (t, inl err)
          | None =>
              match Copy inPublic with
              | None =>
                  (t, inl (InvalidParamError "inPublic couldn't be copied"))
              | Some pubCopy =>
                  let '(s, r) :=
                    execLoad (impl t) (ResourceContext_Handle parentHandle)
                      inPrivate inPublic session in
                  match r with
                  | inl err => (with_impl t s, inl err)
                  | inr (objectHandle, name) =>
                      let objectHandleRc :=
                        {| o_handle := objectHandle; o_public := pubCopy;
                           o_name := name |} in
                      (addResourceContext (with_impl t s) objectHandleRc,
                       inr (objectHandleRc, name))
                  end
              end
          end
      end
  end.

Definition LoadExternal (t : tpmObjects) (inPrivate : option Sensitive)
  (inPublic : option Public) (hierarchy : Handle)
  : tpmObjects * (error + (objectContext * bytes)) :=
  match inPublic with
  | None => (t, inl (InvalidParamError "nil inPublic"))
  | Some inPublic =>
      match Copy inPublic with
      | None => (t, inl (InvalidParamError "inPublic couldn't be copied"))
      | Some pubCopy =>
          let '(s, r) := execLoadExternal (impl t) inPrivate inPublic hierarchy in
          match r with
          | inl err => (with_impl t s, inl err)
          | inr (objectHandle, name) =>
              let objectHandleRc :=
                {| o_handle := objectHandle; o_public := pubCopy;
                   o_name := name |} in
              (addResourceContext (with_impl t s) objectHandleRc,
               inr (objectHandleRc, name))
          end
      end
  end.

Definition readPublic (t : tpmObjects) (objectHandle : Handle)
  : tpmObjects * (error + (Public * bytes * bytes)) :=
  let '(s, r) := execReadPublic (impl t) objectHandle in
  (with_impl t s, r).

Definition ReadPublic (t : tpmObjects) (objectHandle : option ResourceContext)
  : tpmObjects * (error + (Public * bytes * bytes)) :=
  match objectHandle with
  | None => (t, inl (InvalidParamError "nil objectHandle"))
  | Some objectHandle =>
      match checkResourceContextParam (impl t) objectHandle with
      | Some err => (t, inl err)
      | None => readPublic t (ResourceContext_Handle objectHandle)
      end
  end.

End Objects.
End ImplObjects.

(** * Further properties *)

(** ** What ContextSave and ContextLoad change *)

(** The errors [ContextLoad] raises for a violated cross-validation
    rule. *)
Definition validationMessages : list string :=
  [ "cannot load context: inconsistent handle type";
    "cannot load context for object: public area and name don't match";
    "cannot load context for session: inconsistent audit attributes";
    "cannot load context for session: invalid hash algorithm %v";
    "cannot load context for session: invalid type %v";
    "cannot load context for session: invalid value";
    "cannot load context for session: inconsistent properties";
    "cannot load context for session: unexpected session key size";
    "cannot load context for session: unexpected nonce size";
    "cannot load context for session: invalid symmetric algorithm %v";
    "cannot load context for session: invalid symmetric mode %v";
    "cannot load context: inconsistent attributes" ].

Definition isValidationError (e : error) : bool :=
  match e with
  | ErrorString m | Errorf m _ => bool_decide (m ∈ validationMessages)
  | _ => false
  end.

(** The errors that come back from the TPM command or from the check of
    its answer. *)
Definition isCommandError (e : error) : bool :=
  match e with
  | DeviceError _ | InvalidResponseError _ _ _ => true
  | _ => false
  end.

Section ContextFrame.
Context `{Marshalling, Digests, Device}.

Lemma checkContextData_Err_validation savedHandle d e :
  checkContextData savedHandle d = Err e -> isValidationError e = true.
Proof.
  unfold checkContextData.
  destruct (ContextType d =? contextTypeObject).
  { unfold checkObjectContextData. intros Hc.
    apply failIf_bind_Err in Hc as [[_ ->]|[_ Hc]]; [done|].
    destruct (Data d); try done.
    by apply failIf_Err in Hc as [_ ->]. }
  destruct (ContextType d =? contextTypeSession); [|by intros [= <-]].
  unfold checkSessionContextData. intros Hc.
  apply failIf_bind_Err in Hc as [[_ ->]|[_ Hc]]; [done|].
  destruct (Data d); try done.
  repeat (apply failIf_bind_Err in Hc as [[_ ->]|[_ Hc]]; [done|]).
  by apply failIf_Err in Hc as [_ ->].
Qed.

(** No error of the unwrap steps is a command error. *)
Lemma unwrapContextBlob_Err_not_command context e :
  unwrapContextBlob context = Err e -> isCommandError e = false.
Proof.
  unfold unwrapContextBlob.
  destruct (UnmarshalChecksummed (Blob context)) as [[[alg integrity] data]|];
    [|by intros [= <-]].
  intros [[_ ->]|[_ Hw]]%failIf_bind_Err; [done|].
  apply failIf_bind_Err in Hw as [[_ ->]|[_ Hw]]; [done|].
  destruct (UnmarshalData data) as [d|]; [|by injection Hw as <-].
  destruct (checkContextData (SavedHandle context) d) as [[]|e'|m] eqn:Hc;
    try done.
  injection Hw as <-. apply checkContextData_Err_validation in Hc.
  by destruct e'.
Qed.

(** The ways [ContextLoad] ends, by what the unwrap steps, the device and
    the restore step returned. *)
Lemma ContextLoad_cases t context t' r :
  ContextLoad t (Some context) = (t', r) ->
  (t' = t /\ exists e, r = Err e /\ unwrapContextBlob context = Err e)
  \/ (t' = t /\ exists m, r = Panic m)
  \/ exists d dev' t1,
       unwrapContextBlob context = Ok d
       /\ t1 = set_device t dev' (CmdContextLoad (tpmContextFor context d))
       /\ ((t' = t1 /\ exists code, r = Err (DeviceError code))
           \/ exists loadedHandle,
                execContextLoad (device t) (tpmContextFor context d)
                = (dev', inr loadedHandle)
                /\ ((t' = t1
                     /\ exists e, r = Err e
                          /\ restoreContext t1 context d loadedHandle = Err e)
                    \/ (t' = t1 /\ exists m, r = Panic m)
                    \/ exists l rc,
                         r = Ok l
                         /\ restoreContext t1 context d loadedHandle
                            = Ok (set_heap t1 (<[l := rc]> (heap t1)), l, rc)
                         /\ t' = addHandleContext
                                   (set_heap t1 (<[l := rc]> (heap t1))) l rc)).
Proof.
  intros Hload.
  destruct (unwrapContextBlob context) as [d|e|m] eqn:Hw.
  - rewrite (ContextLoad_unwrapped _ _ _ Hw) in Hload.
    unfold RunCommandContextLoad in Hload.
    destruct (execContextLoad _ _) as [dev' [code|loadedHandle]] eqn:Hexec;
      cbv beta iota zeta delta [deviceResult] in Hload.
    + injection Hload as <- <-. right; right.
      eexists d, dev', _. split_and!; [done..|]. left. eauto.
    + right; right. eexists d, dev', _. split_and!; [done..|]. right.
      exists loadedHandle. split; [done|].
      destruct (restoreContext _ _ _ _) as [[[t2 l] rc]|e|m] eqn:Hr.
      * injection Hload as <- <-. right; right.
        pose proof (restoreContext_Ok _ _ _ _ _ _ _ Hr) as [-> _].
        exists l, rc. done.
      * injection Hload as <- <-. left. eauto.
      * injection Hload as <- <-. right; left. eauto.
  - rewrite (ContextLoad_unwrap_Err _ _ _ Hw) in Hload.
    injection Hload as <- <-. left. eauto.
  - unfold ContextLoad in Hload. rewrite Hw in Hload.
    injection Hload as <- <-. right; left. eauto.
Qed.

(** X1: whenever [ContextLoad] does not return a handle context, the
    resource map, every handle context, the set of invalidated contexts and
    the exclusive session are as before. *)
Theorem ContextLoad_failure_keeps_contexts t context t' r :
  ContextLoad t context = (t', r) ->
  (forall l, r <> Ok l) ->
  resources t' = resources t /\ heap t' = heap t
  /\ invalidated t' = invalidated t
  /\ exclusiveSession t' = exclusiveSession t.
Proof.
  intros Hload Hfail. destruct context as [context|];
    [|by injection Hload as <- <-].
  apply ContextLoad_cases in Hload
    as [[-> _]|[[-> _]|(d & dev' & t1 & _ & -> & Hrun)]]; [done..|].
  destruct Hrun as [[-> _]|(loadedHandle & _ & Hrest)]; [done|].
  destruct Hrest as [[-> _]|[[-> _]|(l & rc & -> & _)]]; [done..|].
  by destruct (Hfail l).
Qed.

(** X2: an error of [ContextLoad] that is not the device's and not about
    its answer is returned with the TPM context untouched, so before any
    command; a device error or an invalid response is returned after
    exactly the one command. *)
Theorem ContextLoad_error_before_or_after_command t context t' e :
  ContextLoad t context = (t', Err e) ->
  if isCommandError e
  then exists c, context = Some c /\ exists d,
         issued t' = CmdContextLoad (tpmContextFor c d) :: issued t
  else t' = t.
Proof.
  intros Hload. destruct context as [context|];
    [|by injection Hload as <- <-].
  apply ContextLoad_cases in Hload
    as [[-> (e' & [= <-] & Hw)]|[[_ (m & ?)]|(d & dev' & t1 & _ & -> & Hrun)]];
    [|done|].
  { by rewrite (unwrapContextBlob_Err_not_command _ _ Hw). }
  destruct Hrun as [[-> (code & [= ->])]|(loadedHandle & _ & Hrest)].
  { simpl. eauto. }
  destruct Hrest as [[-> (e' & [= <-] & Hr)]|[[_ (m & ?)]|(l & rc & ? & _)]];
    [|done..].
  apply restoreContext_Err in Hr as [format ->]. simpl. eauto.
Qed.

(** X3: a successful [ContextLoad] changes the handle context it returns
    and the entry of the resource map for the loaded handle, and nothing
    else; the context it returns is the session the map held for that
    handle, or one that did not exist before. *)
Theorem ContextLoad_success_frame t context t' l :
  ContextLoad t (Some context) = (t', Ok l) ->
  exists rc,
    heap t' !! l = Some rc
    /\ resources t' !! normalizeHandleForMap (HandleContext_Handle rc) = Some l
    /\ (forall l', l' <> l -> heap t' !! l' = heap t !! l')
    /\ (forall k, k <> normalizeHandleForMap (HandleContext_Handle rc) ->
          resources t' !! k = resources t !! k)
    /\ invalidated t' = invalidated t
    /\ exclusiveSession t' = exclusiveSession t
    /\ ((exists sc,
           resources t !! normalizeHandleForMap (HandleContext_Handle rc)
           = Some l
           /\ heap t !! l = Some (SessionContext sc))
        \/ (heap t !! l = None
            /\ (forall k, resources t !! k <> Some l)
            /\ exclusiveSession t <> Some l)).
Proof.
  intros Hload.
  apply ContextLoad_cases in Hload
    as [[_ (? & ? & _)]|[[_ (? & ?)]|(d & dev' & t1 & _ & -> & Hrun)]];
    [done..|].
  destruct Hrun as [[_ (? & ?)]|(loadedHandle & _ & Hrest)]; [done|].
  destruct Hrest as [[_ (? & ? & _)]|[[_ (? & ?)]|(l0 & rc & [= <-] & Hr & ->)]];
    [done..|].
  exists rc. unfold addHandleContext.
  cbn [heap resources invalidated exclusiveSession set_resources set_heap
       set_device].
  split_and!; [apply lookup_insert_eq|apply lookup_insert_eq| | |done..|].
  - intros l' Hl'. by apply lookup_insert_ne.
  - intros k Hk. by apply lookup_insert_ne.
  - apply restoreContext_Ok in Hr
      as [_ [(_ & _ & -> & dd & _ & ->)|(_ & -> & Hl & dd & _ & ->)]].
    + right.
      destruct (newLoc_fresh (set_device t dev'
                  (CmdContextLoad (tpmContextFor context d)))) as (? & ? & ?).
      done.
    + destruct Hl as [(sc & Hres & Hheap)|[_ ->]].
      * left. exists sc. done.
      * right.
        destruct (newLoc_fresh (set_device t dev'
                    (CmdContextLoad (tpmContextFor context d)))) as (? & ? & ?).
        done.
Qed.

(** X4: an object blob is always restored in a handle context that did not
    exist before and that no entry of the resource map pointed to, holding
    the handle the TPM returned for the command, a transient one, and the
    blob's public area and name; the resource map then holds it under that
    handle. *)
Theorem ContextLoad_object_is_new t context t' l d dev' loadedHandle :
  ContextLoad t (Some context) = (t', Ok l) ->
  unwrapContextBlob context = Ok d ->
  ContextType d = contextTypeObject ->
  execContextLoad (device t) (tpmContextFor context d)
  = (dev', inr loadedHandle) ->
  heap t !! l = None
  /\ (forall k, resources t !! k <> Some l)
  /\ Handle_Type loadedHandle = HandleTypeTransient
  /\ resources t' !! normalizeHandleForMap loadedHandle = Some l
  /\ exists dd,
       Data d = DataObject dd
       /\ heap t' !! l
          = Some (ObjectContext {| o_handle := loadedHandle;
                                   o_public := ocd_Public dd;
                                   o_name := ocd_Name dd |}).
Proof.
  intros Hload Hw Hty Hexec.
  destruct (ContextLoad_Ok _ _ _ _ Hload)
    as (d' & dev2 & loadedHandle' & rc & Hw' & Hexec' & Hr & Hheap & Hres & _).
  rewrite Hw in Hw'. injection Hw' as <-.
  rewrite Hexec in Hexec'. injection Hexec' as <- <-.
  apply restoreContext_Ok in Hr
    as [_ [(_ & Hh & -> & dd & Hdd & ->)|(Hty' & _)]];
    [|by rewrite Hty in Hty'].
  destruct (newLoc_fresh (set_device t dev'
              (CmdContextLoad (tpmContextFor context d)))) as (Hf1 & _ & Hf3).
  split_and!; [done..| |].
  - rewrite Hres. apply lookup_insert_eq.
  - exists dd. split; [done|]. rewrite Hheap. apply lookup_insert_eq.
Qed.

(** X5: [ContextSave] never changes the resource map, the invalidated
    contexts or the exclusive session, nor any handle context but the one
    it saves; of that one it changes at most the usable flag of a session,
    and only when it succeeds. *)
Theorem ContextSave_frame t l t' r :
  ContextSave t l = (t', r) ->
  resources t' = resources t
  /\ invalidated t' = invalidated t
  /\ exclusiveSession t' = exclusiveSession t
  /\ (forall l', l' <> l -> heap t' !! l' = heap t !! l')
  /\ (heap t' = heap t
      \/ exists sc ctx,
           r = Ok ctx
           /\ heap t !! l = Some (SessionContext sc)
           /\ heap t' = <[l := SessionContext (set_usable sc false)]> (heap t)).
Proof.
  unfold ContextSave, RunCommandContextSave.
  destruct (heap t !! l) as [rc|] eqn:Hheap; [|intros [= <- <-]; eauto 10].
  destruct (isUnusableSession rc); [intros [= <- <-]; eauto 10|].
  destruct (execContextSave _ _) as [dev' [code|c0]];
    cbv beta iota zeta delta [deviceResult]; [intros [= <- <-]; eauto 10|].
  destruct (wrapContextBlob (Blob c0) rc) as [blob|e|m];
    [|intros [= <- <-]; eauto 10..].
  intros [= <- <-]. destruct rc as [c|sc|h]; [eauto 10| |eauto 10].
  cbn [heap resources invalidated exclusiveSession set_heap set_device].
  split_and!; [done..| |right; eauto].
  intros l' Hl'. by apply lookup_insert_ne.
Qed.

End ContextFrame.

(** ** Saving and loading, composed *)

Section SaveLoad.
Context `{Marshalling, Digests, Device}.

Lemma ContextSave_invalidated t l t1 r :
  ContextSave t l = (t1, r) -> invalidated t1 = invalidated t.
Proof.
  unfold ContextSave, RunCommandContextSave.
  destruct (heap t !! l) as [rc|]; [|by intros [= <- <-]].
  destruct (isUnusableSession rc); [by intros [= <- <-]|].
  destruct (execContextSave _ _) as [dev' [code|c0]];
    cbv beta iota zeta delta [deviceResult]; [by intros [= <- <-]|].
  destruct (wrapContextBlob (Blob c0) rc) as [blob|e|m];
    [|by intros [= <- <-]..].
  intros [= <- <-]. by destruct rc.
Qed.

(** X6: a context returned by [ContextSave] is never refused as malformed
    or for its checksum: whatever TPM context loads it, [ContextLoad] can
    only fail on it by a cross-validation rule, by a device error or by an
    invalid response. *)
Theorem saved_context_passes_checksum `{!MarshallingLaws, !DigestLaws}
    t l t1 ctx t2 t2' e :
  ContextSave t l = (t1, Ok ctx) ->
  ContextLoad t2 (Some ctx) = (t2', Err e) ->
  isValidationError e = true \/ isCommandError e = true.
Proof.
  intros Hsave Hload.
  destruct (ContextSave_Ok _ _ _ _ Hsave)
    as (rc & dev' & c0 & _ & _ & _ & Hwrap & _).
  destruct (unwrap_wrap _ _ _ Hwrap) as [_ Hw].
  apply ContextLoad_cases in Hload
    as [[_ (e' & [= <-] & Hw')]|[[_ (m & ?)]|(d & dev2 & t3 & _ & -> & Hrun)]];
    [|done|].
  - rewrite Hw' in Hw. left.
    destruct (checkContextData _ _) as [[]|e'|m] eqn:Hc; try done.
    injection Hw as <-. by eapply checkContextData_Err_validation.
  - right. destruct Hrun as [[_ (code & [= ->])]|(loadedHandle & _ & Hrest)];
      [done|].
    destruct Hrest as [[_ (e' & [= <-] & Hr)]|[[_ (m & ?)]|(l0 & rc0 & ? & _)]];
      [|done..].
    by apply restoreContext_Err in Hr as [format ->].
Qed.

(** X7: saving a session and loading the saved context back into the same
    TPM context, when the device answers with the session's handle, leaves
    every handle context and the resource map exactly as they were before
    the save. *)
Theorem session_save_load_restores `{!MarshallingLaws, !DigestLaws}
    t l sc t1 ctx :
  heap t !! l = Some (SessionContext sc) ->
  resources t !! normalizeHandleForMap (s_handle sc) = Some l ->
  (s_isExclusive sc = true -> exclusiveSession t = Some l) ->
  crossValidates (s_handle sc) (innerDataOf [] (SessionContext sc)) ->
  ContextSave t l = (t1, Ok ctx) ->
  SavedHandle ctx = s_handle sc ->
  (forall c, SavedHandle c = s_handle sc ->
             snd (execContextLoad (device t1) c) = inr (s_handle sc)) ->
  exists t2,
    ContextLoad t1 (Some ctx) = (t2, Ok l)
    /\ heap t2 = heap t /\ resources t2 = resources t
    /\ invalidated t2 = invalidated t
    /\ exclusiveSession t2 = exclusiveSession t.
Proof.
  intros Hheap Hres Hexcl Hrules Hsave Hsaved Hdev.
  destruct (ContextSave_Ok _ _ _ _ Hsave)
    as (rc & dev' & c0 & Hrc & Hus & _ & Hwrap & _ & Hheap1 & Hres1 & Hex1 & _).
  rewrite Hheap in Hrc. injection Hrc as <-.
  assert (Husable : s_usable sc = true)
    by (unfold isUnusableSession in Hus; by destruct (s_usable sc)).
  destruct (unwrap_wrap _ _ _ Hwrap) as [Hsel Hw].
  rewrite Hsaved in Hw.
  rewrite (proj2 (checkContextData_Ok _ _ Hsel)) in Hw by exact Hrules.
  change (unwrapContextBlob ctx
          = Ok (innerDataOf (Blob c0) (SessionContext sc))) in Hw.
  rewrite (ContextLoad_unwrapped _ _ _ Hw). unfold RunCommandContextLoad.
  specialize (Hdev (tpmContextFor ctx (innerDataOf (Blob c0) (SessionContext sc)))
                Hsaved).
  destruct (execContextLoad _ _) as [dev2 r2]. cbn [snd] in Hdev. subst r2.
  cbv beta iota zeta delta [deviceResult].
  set (t1' := set_device t1 dev2 _).
  rewrite <- Hsaved.
  rewrite (restoreContext_session t1' ctx
             (innerDataOf (Blob c0) (SessionContext sc)) _ l eq_refl eq_refl).
  2:{ left. exists (set_usable sc false). subst t1'.
      cbn [resources heap set_device]. rewrite Hres1, Hheap1, Hsaved.
      split; [done|apply lookup_insert_eq]. }
  assert (Hsame : restoredSession t1' l (SavedHandle ctx)
            {| IsAudit := s_isAudit sc; IsExclusive := s_isExclusive sc;
               HashAlg := s_hashAlg sc; SessionType_ := s_sessionType sc;
               PolicyHMACType := s_policyHMACType sc; IsBound := s_isBound sc;
               BoundEntity := s_boundEntity sc; SessionKey := s_sessionKey sc;
               NonceCaller := s_nonceCaller sc; NonceTPM := s_nonceTPM sc;
               Symmetric := s_symmetric sc |} = sc).
  { unfold restoredSession. subst t1'.
    cbn [IsAudit IsExclusive HashAlg SessionType_ PolicyHMACType IsBound
         BoundEntity SessionKey NonceCaller NonceTPM Symmetric
         exclusiveSession set_device].
    rewrite Hsaved, Hex1. destruct sc as [h u a x ? ? ? ? ? ? ? ? ?].
    cbn in *. subst u. f_equal.
    destruct x; [|done]. by rewrite bool_decide_true by auto. }
  eexists. split; [reflexivity|].
  unfold addHandleContext.
  cbn [heap resources invalidated exclusiveSession set_resources set_heap
       HandleContext_Handle metadataOf].
  change (metadataOf (SessionContext sc)) with (DataSession
            {| IsAudit := s_isAudit sc; IsExclusive := s_isExclusive sc;
               HashAlg := s_hashAlg sc; SessionType_ := s_sessionType sc;
               PolicyHMACType := s_policyHMACType sc; IsBound := s_isBound sc;
               BoundEntity := s_boundEntity sc; SessionKey := s_sessionKey sc;
               NonceCaller := s_nonceCaller sc; NonceTPM := s_nonceTPM sc;
               Symmetric := s_symmetric sc |}).
  rewrite !Hsame. subst t1'. cbn [heap resources invalidated exclusiveSession
                                  set_device].
  split_and!.
  - rewrite Hheap1, insert_insert_eq. by apply insert_id.
  - rewrite Hres1. by apply insert_id.
  - by apply ContextSave_invalidated in Hsave.
  - done.
Qed.

End SaveLoad.

(** ** Startup, again *)

Section StartupMore.
Context `{Marshalling, Digests, Device}.

(** A successful [Startup], entry by entry. *)
Lemma Startup_Ok_spec `{!DeviceLaws} t startupType t' :
  registryKeyed t ->
  Startup t startupType = (t', Ok tt) ->
  heap t' = heap t
  /\ registryKeyed t'
  /\ (forall k l,
        resources t' !! k = Some l <->
        resources t !! k = Some l /\ evictedByStartup t l = false)
  /\ (forall l,
        l ∈ invalidated t' <->
        l ∈ invalidated t
        \/ exists k, resources t !! k = Some l /\ evictedByStartup t l = true).
Proof.
  intros Hkeyed. unfold Startup, RunCommandStartup.
  destruct (execStartup _ _) as [dev' [code|]]; [done|].
  cbn [fmap option_fmap option_map].
  set (t1 := set_device t dev' (CmdStartup startupType)).
  destruct (evictLoop_spec (mapRange (resources t1)) t1 Hkeyed)
    as (t2 & -> & Hheap & Hres & Hinv).
  intros [= <-].
  assert (Hin : forall k l, (k, l) ∈ mapRange (resources t1)
                            <-> resources t !! k = Some l).
  { intros k l. rewrite mapRange_perm. apply elem_of_map_to_list. }
  split_and!; [done| | |].
  - intros k l Hl. apply Hres in Hl as [Hl _].
    destruct (Hkeyed _ _ Hl) as (rc & Hrc & Hkey). exists rc.
    by rewrite Hheap.
  - intros k l. rewrite Hres.
    change (evictedByStartup t1 l) with (evictedByStartup t l).
    change (resources t1) with (resources t).
    split; intros [Hl Hno]; (split; [done|]).
    + destruct (evictedByStartup t l); [|done].
      destruct Hno. split; [by apply Hin|done].
    + intros [_ ?]. congruence.
  - intros l. rewrite Hinv.
    change (evictedByStartup t1 l) with (evictedByStartup t l).
    change (resources t1) with (resources t).
    change (invalidated t1) with (invalidated t).
    split; (intros [?|(k & Hrest)]; [by left|right; exists k]).
    + by destruct Hrest as (_ & ? & ?).
    + destruct Hrest as [? ?]. split_and!; [by apply Hin|done..].
Qed.

(** X8: a second [Startup] evicts nothing more: after a successful
    [Startup], a successful [Startup] leaves the resource map, the handle
    contexts and the invalidated contexts as they are. *)
Theorem Startup_twice `{!DeviceLaws} t startupType t1 startupType' dev2 :
  registryKeyed t ->
  Startup t startupType = (t1, Ok tt) ->
  execStartup (device t1) startupType' = (dev2, None) ->
  exists t2,
    Startup t1 startupType' = (t2, Ok tt)
    /\ resources t2 = resources t1
    /\ heap t2 = heap t1
    /\ invalidated t2 = invalidated t1.
Proof.
  intros Hkeyed Hfirst Hexec.
  destruct (Startup_Ok_spec _ _ _ Hkeyed Hfirst)
    as (Hheap1 & Hkeyed1 & Hres1 & _).
  assert (Hstay : forall k l, resources t1 !! k = Some l ->
                              evictedByStartup t1 l = false).
  { intros k l [_ Hev]%Hres1. unfold evictedByStartup in *.
    by rewrite Hheap1. }
  destruct (Startup t1 startupType') as [t2 r] eqn:Hsecond.
  assert (r = Ok tt) as ->.
  { revert Hsecond. unfold Startup, RunCommandStartup. rewrite Hexec.
    cbn [fmap option_fmap option_map].
    destruct (evictLoop_spec
                (mapRange (resources (set_device t1 dev2 (CmdStartup startupType'))))
                (set_device t1 dev2 (CmdStartup startupType')) Hkeyed1)
      as (t3 & -> & _).
    by intros [= _ <-]. }
  destruct (Startup_Ok_spec _ _ _ Hkeyed1 Hsecond)
    as (Hheap2 & _ & Hres2 & Hinv2).
  exists t2. split_and!; [done| |done|].
  - apply map_eq. intros k. apply option_eq. intros l. rewrite Hres2.
    split; [by intros [? _]|]. intros Hl. split; [done|by eapply Hstay].
  - apply set_eq. intros l. rewrite Hinv2. split; [|by left].
    intros [?|(k & Hl & Hev)]; [done|].
    rewrite (Hstay _ _ Hl) in Hev. done.
Qed.

End StartupMore.

(** ** FlushContext and EvictControl *)

Section ResourcesFacts.
Context `{Marshalling, Digests, Device, !ResourceCommands, !SessionProcessing}.

(** What a successful [FlushContext] did. *)
Lemma FlushContext_Ok t l t' :
  FlushContext t l = (t', Ok tt) ->
  exists rc dev',
    checkHandleContextParam t l = None
    /\ heap t !! l = Some rc
    /\ execFlushContext (device t) (HandleContext_Handle rc) = (dev', None)
    /\ t' = evictHandleContext (with_device t dev') l rc.
Proof.
  unfold FlushContext.
  destruct (checkHandleContextParam t l); [done|].
  destruct (heap t !! l) as [rc|]; [|done].
  destruct (execFlushContext _ _) as [dev' [code|]] eqn:Hexec; [done|].
  intros [= <-]. eauto 10.
Qed.

(** X9: [FlushContext] removes the handle context from the resource map
    and invalidates it exactly when the TPM command succeeds, leaving every
    handle context as it is; when the TPM command fails its error is
    returned and the map, the contexts and the invalidated set are
    unchanged; and a context that fails the check is refused with an
    invalid-parameter error before the device is reached. *)
Theorem FlushContext_effect t l rc check dev' r :
  heap t !! l = Some rc ->
  checkHandleContextParam t l = check ->
  execFlushContext (device t) (HandleContext_Handle rc) = (dev', r) ->
  match check, r with
  | Some err, _ =>
      FlushContext t l = (t, Err (InvalidParamError "flushContext" err))
  | None, Some code =>
      exists t',
        FlushContext t l = (t', Err (DeviceError code))
        /\ device t' = dev'
        /\ resources t' = resources t
        /\ invalidated t' = invalidated t
        /\ heap t' = heap t
  | None, None =>
      exists t',
        FlushContext t l = (t', Ok tt)
        /\ device t' = dev'
        /\ resources t'
           = delete (normalizeHandleForMap (HandleContext_Handle rc))
               (resources t)
        /\ invalidated t' = {[l]} ∪ invalidated t
        /\ heap t' = heap t
  end.
Proof.
  intros Hrc <- Hexec. unfold FlushContext.
  destruct (checkHandleContextParam t l) as [err|]; [done|].
  rewrite Hrc, Hexec. destruct r as [code|]; eexists; (split; [reflexivity|]);
    done.
Qed.

(** X10: a handle context that [FlushContext] has flushed is never
    returned or touched by a later [ContextLoad]: the session is restored
    in another handle context, and the flushed one stays invalidated. *)
Theorem flushed_context_not_revived t l t1 context t2 l2 :
  registryKeyed t ->
  FlushContext t l = (t1, Ok tt) ->
  ContextLoad t1 (Some context) = (t2, Ok l2) ->
  l2 <> l /\ l ∈ invalidated t2 /\ heap t2 !! l = heap t !! l.
Proof.
  intros Hkeyed Hflush Hload.
  apply FlushContext_Ok in Hflush as (rc & dev' & _ & Hrc & _ & ->).
  set (t1 := evictHandleContext (with_device t dev') l rc) in *.
  assert (Hgone : forall k, resources t1 !! k <> Some l).
  { intros k Hk. subst t1. unfold evictHandleContext in Hk.
    cbn [resources set_invalidated set_resources with_device] in Hk.
    apply lookup_delete_Some in Hk as [Hne Hk].
    destruct (Hkeyed _ _ Hk) as (rc' & Hrc' & Hkey).
    rewrite Hrc in Hrc'. injection Hrc' as <-. done. }
  apply ContextLoad_cases in Hload
    as [[_ (? & ? & _)]|[[_ (? & ?)]|(d & dev2 & t3 & _ & -> & Hrun)]];
    [done..|].
  destruct Hrun as [[_ (? & ?)]|(loadedHandle & _ & Hrest)]; [done|].
  destruct Hrest as [[_ (? & ? & _)]|[[_ (? & ?)]|(l0 & rc0 & [= <-] & Hr & ->)]];
    [done..|].
  assert (Hne : l2 <> l).
  { intros ->. apply restoreContext_Ok in Hr
      as [_ [(_ & _ & Hl & _)|(_ & _ & [(sc & Hres & _)|[_ Hl]] & _)]].
    - destruct (newLoc_fresh (set_device t1 dev2
                 (CmdContextLoad (tpmContextFor context d)))) as (Hf & _).
      rewrite <- Hl in Hf. cbn in Hf. by rewrite Hrc in Hf.
    - by apply Hgone in Hres.
    - destruct (newLoc_fresh (set_device t1 dev2
                 (CmdContextLoad (tpmContextFor context d)))) as (Hf & _).
      rewrite <- Hl in Hf. cbn in Hf. by rewrite Hrc in Hf. }
  split_and!; [done| |].
  - unfold addHandleContext, t1, evictHandleContext.
    cbn [invalidated set_resources set_heap set_device set_invalidated].
    apply elem_of_union. left. by apply elem_of_singleton.
  - unfold addHandleContext.
    cbn [heap set_resources set_heap set_device].
    by rewrite lookup_insert_ne.
Qed.

(** The sessions of a command, as a list. *)
Lemma sessionsUsed_list (authSession : option AuthSession) sessions :
  sessionsUsed authSession sessions = option_list authSession ++ sessions.
Proof. by destruct authSession. Qed.

(** What [processSessions] keeps: an object or hierarchy context. *)
Lemma processSessions_object `{!SessionProcessingLaws} t sessions code l rc :
  heap t !! l = Some rc ->
  (forall sc, rc <> SessionContext sc) ->
  heap (processSessions t sessions code) !! l = Some rc.
Proof.
  intros Hrc Hno.
  destruct (processSessions_context t sessions code l rc Hrc)
    as (rc' & Hrc' & _ & Hsame).
  by rewrite Hrc', (Hsame Hno).
Qed.

Lemma registryKeyed_processSessions `{!SessionProcessingLaws} t sessions code :
  registryKeyed t -> registryKeyed (processSessions t sessions code).
Proof.
  intros Hkeyed k l Hl. apply processSessions_resources in Hl.
  destruct (Hkeyed _ _ Hl) as (rc & Hrc & Hkey).
  destruct (processSessions_context t sessions code l rc Hrc)
    as (rc' & Hrc' & Hhandle & _).
  exists rc'. by rewrite Hhandle.
Qed.

(** X11: persisting a transient object with [EvictControl], when the TPM
    command succeeds, adds a handle context that did not exist before, with
    the persistent handle and the public area and name of the object, under
    the key of the persistent handle; the context of the transient object
    stays as it is, and nothing else is changed in the TPM context as the
    command and its sessions left it. *)
Theorem EvictControl_persist `{!SessionProcessingLaws} t auth object
    persistentHandle authAuthSession sessions authRc c dev' :
  heap t !! auth = Some authRc ->
  heap t !! object = Some (ObjectContext c) ->
  o_handle c <> persistentHandle ->
  execEvictControl (device t) (HandleContext_Handle authRc) authAuthSession
    (o_handle c) persistentHandle sessions = (dev', None) ->
  exists t1 t' l,
    t1 = processSessions
           {| device := dev'; issued := issued t; heap := heap t;
              invalidated := invalidated t; resources := resources t;
              exclusiveSession := exclusiveSession t |}
           (option_list authAuthSession ++ sessions) None
    /\ EvictControl t auth object persistentHandle authAuthSession sessions
       = (t', Ok (Some l))
    /\ heap t !! l = None
    /\ heap t1 !! l = None
    /\ heap t'
       = <[l := ObjectContext {| o_handle := persistentHandle;
                                 o_public := o_public c;
                                 o_name := o_name c |}]> (heap t1)
    /\ heap t' !! object = Some (ObjectContext c)
    /\ resources t'
       = <[normalizeHandleForMap persistentHandle := l]> (resources t1)
    /\ invalidated t' = invalidated t1
    /\ exclusiveSession t' = exclusiveSession t1
    /\ device t' = dev'.
Proof.
  intros Hauth Hobject Hne Hexec.
  change {| device := dev'; issued := issued t; heap := heap t;
            invalidated := invalidated t; resources := resources t;
            exclusiveSession := exclusiveSession t |}
    with (with_device t dev').
  rewrite <- sessionsUsed_list.
  set (t1 := processSessions (with_device t dev')
               (sessionsUsed authAuthSession sessions) None).
  assert (Hobject1 : heap t1 !! object = Some (ObjectContext c))
    by by apply processSessions_object.
  destruct (newLoc_fresh t1) as (Hfresh & _).
  assert (Hfresh0 : heap t !! newLoc t1 = None).
  { destruct (heap t !! newLoc t1) as [rc|] eqn:Hrc; [|done].
    destruct (processSessions_context (with_device t dev')
                (sessionsUsed authAuthSession sessions) None _ _ Hrc)
      as (rc' & Hrc' & _).
    fold t1 in Hrc'. by rewrite Hfresh in Hrc'. }
  exists t1, (addHandleContext
                (set_heap t1
                   (<[newLoc t1 := ObjectContext {| o_handle := persistentHandle;
                                                    o_public := o_public c;
                                                    o_name := o_name c |}]>
                      (heap t1)))
                (newLoc t1)
                (ObjectContext {| o_handle := persistentHandle;
                                  o_public := o_public c;
                                  o_name := o_name c |})),
         (newLoc t1).
  split_and!; try done.
  - unfold EvictControl. rewrite Hauth, Hobject.
    cbn [HandleContext_Handle]. rewrite Hexec. fold t1. rewrite Hobject1.
    cbn [HandleContext_Handle].
    destruct (Z.eqb_spec (o_handle c) persistentHandle); done.
  - unfold addHandleContext. cbn [heap set_resources set_heap].
    rewrite lookup_insert_ne; [done|]. intros Heq.
    rewrite <- Heq in Hobject1. by rewrite Hfresh in Hobject1.
  - unfold addHandleContext. cbn [device set_resources set_heap].
    unfold t1. by rewrite processSessions_device.
Qed.

(** X12: [EvictControl] on an object given under its own handle, when the
    TPM command succeeds, evicts its handle context: the entry of that
    handle is removed from the resource map and the context invalidated,
    no context is returned, and nothing else is changed in the TPM context
    as the command and its sessions left it.  When the TPM command fails,
    its error is returned and the object is neither evicted nor
    invalidated by [EvictControl]: the TPM context is the one the command
    and its sessions left. *)
Theorem EvictControl_evict_or_fail `{!SessionProcessingLaws} t auth object
    persistentHandle authAuthSession sessions authRc rc dev' r :
  heap t !! auth = Some authRc ->
  heap t !! object = Some rc ->
  (forall sc, rc <> SessionContext sc) ->
  HandleContext_Handle rc = persistentHandle ->
  execEvictControl (device t) (HandleContext_Handle authRc) authAuthSession
    persistentHandle persistentHandle sessions = (dev', r) ->
  exists t1,
    t1 = processSessions
           {| device := dev'; issued := issued t; heap := heap t;
              invalidated := invalidated t; resources := resources t;
              exclusiveSession := exclusiveSession t |}
           (option_list authAuthSession ++ sessions) r
    /\ heap t1 !! object = Some rc
    /\ match r with
       | None =>
           exists t',
             EvictControl t auth object persistentHandle authAuthSession
               sessions = (t', Ok None)
             /\ resources t'
                = delete (normalizeHandleForMap persistentHandle) (resources t1)
             /\ invalidated t' = {[object]} ∪ invalidated t1
             /\ heap t' = heap t1
             /\ exclusiveSession t' = exclusiveSession t1
       | Some code =>
           EvictControl t auth object persistentHandle authAuthSession sessions
           = (t1, Err (DeviceError code))
       end.
Proof.
  intros Hauth Hobject Hno Hhandle Hexec.
  change {| device := dev'; issued := issued t; heap := heap t;
            invalidated := invalidated t; resources := resources t;
            exclusiveSession := exclusiveSession t |}
    with (with_device t dev').
  rewrite <- sessionsUsed_list.
  set (t1 := processSessions (with_device t dev')
               (sessionsUsed authAuthSession sessions) r).
  assert (Hobject1 : heap t1 !! object = Some rc)
    by by apply processSessions_object.
  exists t1. split_and!; [done..|].
  unfold EvictControl. rewrite Hauth, Hobject, Hhandle, Hexec. fold t1.
  destruct r as [code|]; [done|].
  rewrite Hobject1, Hhandle, Z.eqb_refl.
  eexists. split; [reflexivity|]. unfold evictHandleContext.
  cbn [resources invalidated heap exclusiveSession set_invalidated
       set_resources].
  by rewrite Hhandle.
Qed.

(** X13: the resource map stays keyed by the handles of its contexts
    under every operation on handle contexts: [ContextSave], [ContextLoad],
    [Startup], [FlushContext] and [EvictControl], whatever their
    outcome. *)
Theorem registryKeyed_preserved `{!DeviceLaws, !SessionProcessingLaws} t :
  registryKeyed t ->
  (forall l t' r, ContextSave t l = (t', r) -> registryKeyed t')
  /\ (forall context t' r, ContextLoad t context = (t', r) -> registryKeyed t')
  /\ (forall startupType t' r,
        Startup t startupType = (t', r) -> registryKeyed t')
  /\ (forall l t' r, FlushContext t l = (t', r) -> registryKeyed t')
  /\ (forall auth object persistentHandle authAuthSession sessions t' r,
        EvictControl t auth object persistentHandle authAuthSession sessions
        = (t', r) -> registryKeyed t').
Proof.
  intros Hkeyed. split_and!.
  - intros l t' r. unfold ContextSave, RunCommandContextSave.
    destruct (heap t !! l) as [rc|] eqn:Hheap; [|by intros [= <- <-]].
    destruct (isUnusableSession rc); [by intros [= <- <-]|].
    destruct (execContextSave _ _) as [dev' [code|c0]];
      cbv beta iota zeta delta [deviceResult]; [by intros [= <- <-]|].
    destruct (wrapContextBlob (Blob c0) rc) as [blob|e|m];
      [|by intros [= <- <-]..].
    intros [= <- <-]. destruct rc as [c|sc|h]; [done| |done].
    intros k l0 Hl0. cbn [resources heap set_heap set_device] in *.
    destruct (Hkeyed _ _ Hl0) as (rc0 & Hrc0 & Hkey).
    destruct (decide (l0 = l)) as [->|Hne].
    + rewrite Hheap in Hrc0. injection Hrc0 as <-.
      eexists. split; [apply lookup_insert_eq|done].
    + exists rc0. by rewrite lookup_insert_ne.
  - intros context t' r Hload. destruct context as [context|];
      [|by injection Hload as <- <-].
    apply ContextLoad_cases in Hload
      as [[-> _]|[[-> _]|(d & dev' & t1 & _ & -> & Hrun)]]; [done..|].
    destruct Hrun as [[-> _]|(loadedHandle & _ & Hrest)]; [done|].
    destruct Hrest as [[-> _]|[[-> _]|(l & rc & _ & Hr & ->)]]; [done..|].
    intros k l0 Hl0. unfold addHandleContext in *.
    cbn [resources heap set_resources set_heap set_device] in *.
    apply lookup_insert_Some in Hl0 as [[<- <-]|[Hne Hl0]].
    { exists rc. split; [apply lookup_insert_eq|done]. }
    destruct (Hkeyed _ _ Hl0) as (rc0 & Hrc0 & Hkey).
    exists rc0. split; [|done]. rewrite lookup_insert_ne; [done|].
    intros Heq. subst l0. apply restoreContext_Ok in Hr
      as [_ [(_ & _ & Hl & _)|(_ & _ & Hl & dd & _ & Hrceq)]].
    + destruct (newLoc_fresh (set_device t dev'
                  (CmdContextLoad (tpmContextFor context d)))) as (_ & _ & Hf).
      rewrite <- Hl in Hf. by apply (Hf k).
    + destruct Hl as [(sc & Hres & Hheap)|[_ Hl]].
      * cbn [resources heap set_device] in Hres, Hheap.
        destruct (Hkeyed _ _ Hres) as (rc1 & Hrc1 & Hkey1).
        rewrite Hrc0 in Hrc1. injection Hrc1 as <-.
        rewrite Hkey in Hkey1. rewrite Hrceq in Hne.
        cbn [HandleContext_Handle restoredSession s_handle] in Hne. done.
      * destruct (newLoc_fresh (set_device t dev'
                    (CmdContextLoad (tpmContextFor context d))))
          as (_ & _ & Hf).
        rewrite <- Hl in Hf. by apply (Hf k).
  - intros startupType t' r. unfold Startup, RunCommandStartup.
    destruct (execStartup _ _) as [dev' [code|]];
      cbn [fmap option_fmap option_map]; [by intros [= <- <-]|].
    destruct (evictLoop_spec
                (mapRange (resources (set_device t dev' (CmdStartup startupType))))
                (set_device t dev' (CmdStartup startupType)) Hkeyed)
      as (t2 & -> & Hheap & Hres & _).
    intros [= <- <-]. intros k l Hl. apply Hres in Hl as [Hl _].
    destruct (Hkeyed _ _ Hl) as (rc & Hrc & Hkey). exists rc.
    by rewrite Hheap.
  - intros l t' r. unfold FlushContext.
    destruct (checkHandleContextParam t l); [by intros [= <- <-]|].
    destruct (heap t !! l) as [rc|]; [|by intros [= <- <-]].
    destruct (execFlushContext _ _) as [dev' [code|]];
      [by intros [= <- <-]|].
    intros [= <- <-]. by apply (registryKeyed_evict (with_device t dev')).
  - intros auth object persistentHandle authAuthSession sessions t' r.
    unfold EvictControl.
    destruct (heap t !! auth) as [authRc|]; [|by intros [= <- <-]].
    destruct (heap t !! object) as [objectRc0|]; [|by intros [= <- <-]].
    destruct (execEvictControl _ _ _ _ _ _) as [dev' code].
    set (t1 := processSessions (with_device t dev')
                 (sessionsUsed authAuthSession sessions) code).
    assert (Hkeyed1 : registryKeyed t1)
      by by apply registryKeyed_processSessions.
    destruct code as [code|]; [by intros [= <- <-]|].
    destruct (heap t1 !! object) as [objectRc|]; [|by intros [= <- <-]].
    destruct (HandleContext_Handle objectRc =? persistentHandle).
    { intros [= <- <-]. by apply registryKeyed_evict. }
    destruct objectRc as [c|sc|h]; [|by intros [= <- <-]..].
    intros [= <- <-]. intros k l0 Hl0. unfold addHandleContext in *.
    cbn [resources heap set_resources set_heap HandleContext_Handle] in *.
    apply lookup_insert_Some in Hl0 as [[<- <-]|[Hne Hl0]].
    { eexists. split; [apply lookup_insert_eq|done]. }
    destruct (Hkeyed1 _ _ Hl0) as (rc0 & Hrc0 & Hkey).
    exists rc0. split; [|done]. rewrite lookup_insert_ne; [done|].
    intros Heq. subst l0.
    destruct (newLoc_fresh t1) as (_ & _ & Hf).
    by apply (Hf k).
Qed.

End ResourcesFacts.

(** ** Load, LoadExternal and ReadPublic *)

Module ImplObjectsFacts.
Import Impl ImplObjects.

Section ObjectsFacts.
Context `{ImplObjects.Collaborators}.

(** X15: once its arguments have passed the checks, [Load] returns what
    the TPM command returned.  When the command succeeds, the resource
    context returned holds the handle and the name the TPM returned and the
    copy of [inPublic], and it is registered under that handle, every other
    registered context staying as it is; when the command fails, its error
    is returned and the registered contexts are unchanged.  [LoadExternal]
    does the same without a parent, and [ReadPublic] registers nothing. *)
Theorem Load_registers_on_success (t : tpmObjects) p inPrivate pub session
    pubCopy s r inSensitive hierarchy s' r' :
  checkResourceContextParam (impl t) p = None ->
  Copy pub = Some pubCopy ->
  execLoad (impl t) (ResourceContext_Handle p) inPrivate pub session = (s, r) ->
  execLoadExternal (impl t) inSensitive pub hierarchy = (s', r') ->
  match r with
  | inr (objectHandle, name) =>
      let rc := {| o_handle := objectHandle; o_public := pubCopy;
                   o_name := name |} in
      exists t',
        Load t (Some p) inPrivate (Some pub) session = (t', inr (rc, name))
        /\ impl t' = s
        /\ registered t' !! objectHandle = Some rc
        /\ (forall h, h <> objectHandle ->
              registered t' !! h = registered t !! h)
  | inl err =>
      Load t (Some p) inPrivate (Some pub) session
      = ({| impl := s; registered := registered t |}, inl err)
  end
  /\ match r' with
     | inr (objectHandle, name) =>
         let rc := {| o_handle := objectHandle; o_public := pubCopy;
                      o_name := name |} in
         exists t',
           LoadExternal t inSensitive (Some pub) hierarchy
           = (t', inr (rc, name))
           /\ impl t' = s'
           /\ registered t' !! objectHandle = Some rc
           /\ (forall h, h <> objectHandle ->
                 registered t' !! h = registered t !! h)
     | inl err =>
         LoadExternal t inSensitive (Some pub) hierarchy
         = ({| impl := s'; registered := registered t |}, inl err)
     end
  /\ registered (fst (ReadPublic t (Some p))) = registered t.
Proof.
  intros Hcheck Hcopy Hexec Hexec'. split_and!.
  - unfold Load. rewrite Hcheck, Hcopy, Hexec.
    destruct r as [err|[objectHandle name]]; [done|].
    eexists. split; [reflexivity|].
    unfold addResourceContext. cbn [impl registered with_impl o_handle].
    split_and!; [done|apply lookup_insert_eq|].
    intros h Hh. by apply lookup_insert_ne.
  - unfold LoadExternal. rewrite Hcopy, Hexec'.
    destruct r' as [err|[objectHandle name]]; [done|].
    eexists. split; [reflexivity|].
    unfold addResourceContext. cbn [impl registered with_impl o_handle].
    split_and!; [done|apply lookup_insert_eq|].
    intros h Hh. by apply lookup_insert_ne.
  - unfold ReadPublic, readPublic. rewrite Hcheck.
    by destruct (execReadPublic _ _).
Qed.

End ObjectsFacts.
End ImplObjectsFacts.

(** ** The message signed for PolicySigned *)

Module SignedMessage.

(** [binary.Write(h, binary.BigEndian, expiration)] for an [int32]: the
    four bytes of its two's complement. *)
Definition int32Bytes (v : Z) : bytes := Wire.putUint 4 (v mod 2 ^ 32).

(** The bytes [TestPolicySigned] and [TestPolicyTicketFromSigned] hash and
    have signed: the TPM nonce if it is included, the expiration, the
    cpHash and the policy reference. *)
Definition aHashInput (includeNonceTPM : bool) (nonceTPM : bytes)
  (expiration : Z) (cpHashA policyRef : bytes) : bytes :=
  (if includeNonceTPM then nonceTPM else [])
  ++ int32Bytes expiration ++ cpHashA ++ policyRef.

Lemma int32Bytes_inj e1 e2 :
  - 2 ^ 31 <= e1 < 2 ^ 31 ->
  - 2 ^ 31 <= e2 < 2 ^ 31 ->
  int32Bytes e1 = int32Bytes e2 -> e1 = e2.
Proof.
  intros H1 H2 Heq. unfold int32Bytes in Heq.
  assert (Hm : e1 mod 2 ^ 32 = e2 mod 2 ^ 32).
  { pose proof (WireFacts.getUintFrom_putUint 4 (e1 mod 2 ^ 32) 0 []) as G1.
    pose proof (WireFacts.getUintFrom_putUint 4 (e2 mod 2 ^ 32) 0 []) as G2.
    rewrite Heq in G1. rewrite G1 in G2 by (apply Z.mod_pos_bound; lia).
    specialize (G2 ltac:(apply Z.mod_pos_bound; lia)).
    injection G2. lia. }
  pose proof (Z.div_mod e1 (2 ^ 32) ltac:(lia)).
  pose proof (Z.div_mod e2 (2 ^ 32) ltac:(lia)).
  pose proof (Z.mod_pos_bound e1 (2 ^ 32) ltac:(lia)).
  pose proof (Z.mod_pos_bound e2 (2 ^ 32) ltac:(lia)).
  lia.
Qed.

(** X16: the message signed for [PolicySigned] fixes the expiration: for
    32-bit expirations and the same nonce choice, two equal messages have
    the same expiration, and the same cpHash followed by policy reference;
    it is four bytes longer than its other parts together. *)
Theorem aHashInput_binds_expiration includeNonceTPM nonceTPM e1 e2
    cpHashA1 policyRef1 cpHashA2 policyRef2 :
  - 2 ^ 31 <= e1 < 2 ^ 31 ->
  - 2 ^ 31 <= e2 < 2 ^ 31 ->
  aHashInput includeNonceTPM nonceTPM e1 cpHashA1 policyRef1
  = aHashInput includeNonceTPM nonceTPM e2 cpHashA2 policyRef2 ->
  e1 = e2
  /\ cpHashA1 ++ policyRef1 = cpHashA2 ++ policyRef2
  /\ length (aHashInput includeNonceTPM nonceTPM e1 cpHashA1 policyRef1)
     = ((if includeNonceTPM then length nonceTPM else 0)
        + 4 + length cpHashA1 + length policyRef1)%nat.
Proof.
  intros H1 H2 Heq. unfold aHashInput in *.
  apply app_inv_head in Heq.
  apply app_inj_1 in Heq as [Hexp Hrest];
    [|unfold int32Bytes; by rewrite !WireFacts.length_putUint].
  split_and!; [by apply int32Bytes_inj|done|].
  rewrite !length_app. unfold int32Bytes.
  rewrite WireFacts.length_putUint. destruct includeNonceTPM; simpl; lia.
Qed.

End SignedMessage.

(** ** The further properties on the sample device *)

Module Sample2.
Import Sample.

(** The remaining commands on the sample device: a handle context passes
    the check when it exists and has not been invalidated, and the device
    accepts every command.  A session is given by the address of its
    context and by whether it is continued. *)
#[global] Instance sample_commands : ResourceCommands := {|
  AuthSession := loc * bool;
  checkHandleContextParam := fun t l =>
    match heap t !! l with
    | None => Some "nil value"
    | Some _ =>
        if bool_decide (l ∈ invalidated t)
        then Some "invalid resource context"
        else None
    end;
  execShutdown := fun d _ _ => (d, None);
  execFlushContext := fun d _ => (d, None);
  execEvictControl := fun d _ _ _ _ _ => (d, None)
|}.

(** A session after a command it was used in: the TPM has sent a new
    nonce. *)
Definition rolled (sc : sessionContext) : sessionContext :=
  {| s_handle := s_handle sc; s_usable := s_usable sc;
     s_isAudit := s_isAudit sc; s_isExclusive := s_isExclusive sc;
     s_hashAlg := s_hashAlg sc; s_sessionType := s_sessionType sc;
     s_policyHMACType := s_policyHMACType sc; s_isBound := s_isBound sc;
     s_boundEntity := s_boundEntity sc; s_sessionKey := s_sessionKey sc;
     s_nonceCaller := s_nonceCaller sc;
     s_nonceTPM := digest (s_hashAlg sc) (s_nonceTPM sc);
     s_symmetric := s_symmetric sc |}.

(** One session of a command that succeeded: a continued session gets the
    new nonce, the context of any other session is evicted. *)
Definition processSession (t : TPMContext) (s : loc * bool) : TPMContext :=
  match heap t !! s.1 with
  | Some (SessionContext sc) =>
      if s.2 then set_heap t (<[s.1 := SessionContext (rolled sc)]> (heap t))
      else evictHandleContext t s.1 (SessionContext sc)
  | _ => t
  end.

#[global] Instance sample_sessions : SessionProcessing := {|
  processSessions := fun t sessions code =>
    match code with
    | Some _ => t
    | None => foldl processSession t sessions
    end
|}.

(** A device that refuses [Startup]. *)
Definition refusing : Device := {|
  Dev := unit;
  execStartup := fun d _ => (d, Some 0x100);
  execContextSave := fun d _ => (d, inl 0x100);
  execContextLoad := fun d _ => (d, inl 0x100);
  normalizeHandleForMap := normalize;
  mapRange := map_to_list
|}.

(** The handle contexts and the resource map of [tpm1], on the device that
    refuses [Startup]. *)
Definition tpm1Refusing : @TPMContext refusing :=
  @Build_TPMContext refusing tt [] (heap tpm1) ∅ (resources tpm1)
    (Some 1%positive).

(** The transient object of [tpm1], saved. *)
Definition savedObject : Context :=
  Eval vm_compute in
    match snd (ContextSave tpm1 2%positive) with
    | Ok c => c
    | _ => {| Sequence := 0; SavedHandle := 0; Hierarchy := 0; Blob := [] |}
    end.

Definition persistentHandle1 : Handle := 0x81000001.

(** [session1] as the session of a command, not continued and continued. *)
Definition session1Ended : @AuthSession sample_device sample_commands :=
  (1%positive, false).

Definition session1Continued : @AuthSession sample_device sample_commands :=
  (1%positive, true).

(** [tpm1] after its transient object has been made persistent: the
    context of the persistent object is at address 4. *)
Definition tpm1persisted : TPMContext :=
  Eval vm_compute in
    fst (EvictControl tpm1 3%positive 2%positive persistentHandle1 None []).

End Sample2.

(** The sample [processSessions] touches what the step may touch. *)
Module Sample2Facts.
Import Sample Sample2.

(** [t'] differs from [t] as the step may make it differ. *)
Definition sessionStep (t t' : TPMContext) : Prop :=
  device t' = device t
  /\ (forall l rc,
        heap t !! l = Some rc ->
        exists rc',
          heap t' !! l = Some rc'
          /\ HandleContext_Handle rc' = HandleContext_Handle rc
          /\ ((forall sc, rc <> SessionContext sc) -> rc' = rc))
  /\ (forall l, heap t !! l = None -> heap t' !! l = None)
  /\ (forall k l, resources t' !! k = Some l -> resources t !! k = Some l).

Lemma sessionStep_refl t : sessionStep t t.
Proof. split_and!; eauto. Qed.

Lemma sessionStep_trans t1 t2 t3 :
  sessionStep t1 t2 -> sessionStep t2 t3 -> sessionStep t1 t3.
Proof.
  intros (Hd1 & Hc1 & Hn1 & Hr1) (Hd2 & Hc2 & Hn2 & Hr2).
  split_and!.
  - by rewrite Hd2.
  - intros l rc Hrc.
    destruct (Hc1 _ _ Hrc) as (rc' & Hrc' & Hh' & Hs').
    destruct (Hc2 _ _ Hrc') as (rc'' & Hrc'' & Hh'' & Hs'').
    exists rc''. split_and!; [done|by rewrite Hh''|].
    intros Hno. rewrite <- (Hs' Hno). apply Hs''. by rewrite (Hs' Hno).
  - eauto.
  - eauto.
Qed.

Lemma processSession_step t s : sessionStep t (processSession t s).
Proof.
  unfold processSession.
  destruct (heap t !! s.1) as [[c|sc|h]|] eqn:Hs; try apply sessionStep_refl.
  destruct s.2.
  - split_and!; cbn [device heap resources set_heap]; [done| | |done].
    + intros l rc Hrc. destruct (decide (l = s.1)) as [->|Hne].
      * rewrite Hs in Hrc. injection Hrc as <-.
        exists (SessionContext (rolled sc)).
        split_and!; [apply lookup_insert_eq|done|].
        intros Hno. by destruct (Hno sc).
      * exists rc. by rewrite lookup_insert_ne.
    + intros l Hl. rewrite lookup_insert_ne; [done|]. intros <-.
      by rewrite Hs in Hl.
  - unfold evictHandleContext.
    split_and!; cbn [device heap resources set_invalidated set_resources];
      [done|eauto|done|].
    by intros k l [_ ?]%lookup_delete_Some.
Qed.

Lemma foldl_processSession_step sessions t :
  sessionStep t (foldl processSession t sessions).
Proof.
  revert t. induction sessions as [|s sessions IH]; intros t.
  - apply sessionStep_refl.
  - cbn [foldl]. eapply sessionStep_trans; [apply processSession_step|apply IH].
Qed.

Lemma processSessions_step t sessions code :
  sessionStep t (processSessions t sessions code).
Proof.
  destruct code; [apply sessionStep_refl|apply foldl_processSession_step].
Qed.

#[global] Instance sample_session_laws : SessionProcessingLaws.
Proof.
  split; intros t sessions code; apply processSessions_step.
Qed.

End Sample2Facts.

Module Scenarios2.
Import Sample Sample2 Sample2Facts.

Lemma pairing {A B} (p : A * B) : p = (fst p, snd p).
Proof. by destruct p. Qed.

(** X1 on [flipped1]. *)
Lemma ContextLoad_failure_keeps_contexts_witness :
  resources (fst (ContextLoad tpm1saved (Some flipped1))) = resources tpm1saved
  /\ heap (fst (ContextLoad tpm1saved (Some flipped1))) = heap tpm1saved
  /\ invalidated (fst (ContextLoad tpm1saved (Some flipped1)))
     = invalidated tpm1saved
  /\ exclusiveSession (fst (ContextLoad tpm1saved (Some flipped1)))
     = exclusiveSession tpm1saved.
Proof.
  apply (ContextLoad_failure_keeps_contexts tpm1saved (Some flipped1) _
           (snd (ContextLoad tpm1saved (Some flipped1)))).
  - apply pairing.
  - intros l. vm_compute. discriminate.
Defined.

(** X2 on [saved1] and a device that answers with another handle. *)
Lemma ContextLoad_error_before_or_after_command_witness :
  exists c, Some saved1 = Some c /\ exists d,
    issued (fst (ContextLoad tpm1other (Some saved1)))
    = CmdContextLoad (tpmContextFor c d) :: issued tpm1other.
Proof.
  apply (ContextLoad_error_before_or_after_command tpm1other (Some saved1) _
           (InvalidResponseError CommandContextLoad
              "handle 0x%08x returned from TPM is incorrect"
              (ArgValue 0x02000005))).
  apply Scenarios.result_of_snd. vm_compute. reflexivity.
Defined.

(** X3 on [saved1]. *)
Lemma ContextLoad_success_frame_witness :
  exists rc,
    heap (fst (ContextLoad tpm1saved (Some saved1))) !! 1%positive = Some rc
    /\ resources (fst (ContextLoad tpm1saved (Some saved1)))
       !! normalizeHandleForMap (HandleContext_Handle rc) = Some 1%positive
    /\ (forall l', l' <> 1%positive ->
          heap (fst (ContextLoad tpm1saved (Some saved1))) !! l'
          = heap tpm1saved !! l')
    /\ (forall k, k <> normalizeHandleForMap (HandleContext_Handle rc) ->
          resources (fst (ContextLoad tpm1saved (Some saved1))) !! k
          = resources tpm1saved !! k)
    /\ invalidated (fst (ContextLoad tpm1saved (Some saved1)))
       = invalidated tpm1saved
    /\ exclusiveSession (fst (ContextLoad tpm1saved (Some saved1)))
       = exclusiveSession tpm1saved
    /\ ((exists sc,
           resources tpm1saved
           !! normalizeHandleForMap (HandleContext_Handle rc) = Some 1%positive
           /\ heap tpm1saved !! 1%positive = Some (SessionContext sc))
        \/ (heap tpm1saved !! 1%positive = None
            /\ (forall k, resources tpm1saved !! k <> Some 1%positive)
            /\ exclusiveSession tpm1saved <> Some 1%positive)).
Proof.
  apply (ContextLoad_success_frame tpm1saved saved1).
  apply Scenarios.result_of_snd. vm_compute. reflexivity.
Defined.

(** X4 on the saved object of [tpm1]: the device answers with the handle
    0x80000000. *)
Lemma ContextLoad_object_is_new_witness :
  heap tpm1 !! 4%positive = None
  /\ (forall k, resources tpm1 !! k <> Some 4%positive)
  /\ Handle_Type 0x80000000 = HandleTypeTransient
  /\ resources (fst (ContextLoad tpm1 (Some savedObject)))
     !! normalizeHandleForMap 0x80000000 = Some 4%positive
  /\ exists dd,
       Data (innerDataOf opaqueBlob (ObjectContext object1)) = DataObject dd
       /\ heap (fst (ContextLoad tpm1 (Some savedObject))) !! 4%positive
          = Some (ObjectContext {| o_handle := 0x80000000;
                                   o_public := ocd_Public dd;
                                   o_name := ocd_Name dd |}).
Proof.
  apply (ContextLoad_object_is_new tpm1 savedObject _ _ _ []).
  - apply Scenarios.result_of_snd. vm_compute. reflexivity.
  - vm_compute. reflexivity.
  - reflexivity.
  - reflexivity.
Defined.

(** X5 on [session1]. *)
Lemma ContextSave_frame_witness :
  resources (fst (ContextSave tpm1 1%positive)) = resources tpm1
  /\ invalidated (fst (ContextSave tpm1 1%positive)) = invalidated tpm1
  /\ exclusiveSession (fst (ContextSave tpm1 1%positive))
     = exclusiveSession tpm1
  /\ (forall l', l' <> 1%positive ->
        heap (fst (ContextSave tpm1 1%positive)) !! l' = heap tpm1 !! l')
  /\ (heap (fst (ContextSave tpm1 1%positive)) = heap tpm1
      \/ exists sc ctx,
           snd (ContextSave tpm1 1%positive) = Ok ctx
           /\ heap tpm1 !! 1%positive = Some (SessionContext sc)
           /\ heap (fst (ContextSave tpm1 1%positive))
              = <[1%positive := SessionContext (set_usable sc false)]>
                  (heap tpm1)).
Proof.
  apply (ContextSave_frame tpm1 1%positive). apply pairing.
Defined.

(** X6 on [saved1], refused for the handle the device returns. *)
Lemma saved_context_passes_checksum_witness :
  isValidationError
    (InvalidResponseError CommandContextLoad
       "handle 0x%08x returned from TPM is incorrect" (ArgValue 0x02000005))
  = true
  \/ isCommandError
       (InvalidResponseError CommandContextLoad
          "handle 0x%08x returned from TPM is incorrect" (ArgValue 0x02000005))
     = true.
Proof.
  apply (saved_context_passes_checksum tpm1 1%positive
           (fst (ContextSave tpm1 1%positive)) saved1 tpm1other
           (fst (ContextLoad tpm1other (Some saved1)))).
  - apply Scenarios.result_of_snd. vm_compute. reflexivity.
  - apply Scenarios.result_of_snd. vm_compute. reflexivity.
Defined.

(** X7 on [session1]. *)
Lemma session_save_load_restores_witness :
  exists t2,
    ContextLoad (fst (ContextSave tpm1 1%positive)) (Some saved1)
    = (t2, Ok 1%positive)
    /\ heap t2 = heap tpm1 /\ resources t2 = resources tpm1
    /\ invalidated t2 = invalidated tpm1
    /\ exclusiveSession t2 = exclusiveSession tpm1.
Proof.
  apply (session_save_load_restores tpm1 1%positive session1).
  - reflexivity.
  - reflexivity.
  - reflexivity.
  - exact Scenarios.session1_crossValidates.
  - apply Scenarios.result_of_snd. vm_compute. reflexivity.
  - reflexivity.
  - intros c Hc. cbn. exact (f_equal inr Hc).
Defined.

(** X8 on [tpm1]. *)
Lemma Startup_twice_witness :
  exists t2,
    Startup (fst (Startup tpm1 0)) 1 = (t2, Ok tt)
    /\ resources t2 = resources (fst (Startup tpm1 0))
    /\ heap t2 = heap (fst (Startup tpm1 0))
    /\ invalidated t2 = invalidated (fst (Startup tpm1 0)).
Proof.
  apply (Startup_twice tpm1 0 (fst (Startup tpm1 0)) 1 []).
  - exact Scenarios.tpm1_keyed.
  - apply Scenarios.result_of_snd. vm_compute. reflexivity.
  - reflexivity.
Defined.

Lemma tpm1saved_keyed : registryKeyed tpm1saved.
Proof.
  intros k l Hl. apply elem_of_map_to_list in Hl.
  set (entries := map_to_list _) in Hl. vm_compute in entries. subst entries.
  repeat (apply elem_of_cons in Hl as [[= -> ->]|Hl]);
    [eexists; split; reflexivity..|by apply elem_of_nil in Hl].
Qed.

(** X9 on the saved session of [tpm1saved]. *)
Lemma FlushContext_effect_witness :
  exists t',
    FlushContext tpm1saved 1%positive = (t', Ok tt)
    /\ device t' = []
    /\ resources t'
       = delete (normalizeHandleForMap (s_handle session1)) (resources tpm1saved)
    /\ invalidated t' = {[1%positive]} ∪ invalidated tpm1saved
    /\ heap t' = heap tpm1saved.
Proof.
  apply (FlushContext_effect tpm1saved 1%positive
           (SessionContext (set_usable session1 false)) None [] None).
  - vm_compute. reflexivity.
  - vm_compute. reflexivity.
  - reflexivity.
Defined.

(** X10: the flushed session of [tpm1saved], and [saved1] loaded after. *)
Lemma flushed_context_not_revived_witness :
  4%positive <> 1%positive
  /\ 1%positive
     ∈ invalidated
         (fst (ContextLoad (fst (FlushContext tpm1saved 1%positive))
                 (Some saved1)))
  /\ heap (fst (ContextLoad (fst (FlushContext tpm1saved 1%positive))
                  (Some saved1))) !! 1%positive
     = heap tpm1saved !! 1%positive.
Proof.
  apply (flushed_context_not_revived tpm1saved 1%positive
           (fst (FlushContext tpm1saved 1%positive)) saved1).
  - exact tpm1saved_keyed.
  - apply Scenarios.result_of_snd. vm_compute. reflexivity.
  - apply Scenarios.result_of_snd. vm_compute. reflexivity.
Defined.

(** X11: the transient object of [tpm1], made persistent by the owner,
    authorized with [session1], which is not continued. *)
Lemma EvictControl_persist_witness :
  exists t1 t' l,
    t1 = processSessions
           {| device := []; issued := issued tpm1; heap := heap tpm1;
              invalidated := invalidated tpm1; resources := resources tpm1;
              exclusiveSession := exclusiveSession tpm1 |}
           [session1Ended] None
    /\ EvictControl tpm1 3%positive 2%positive persistentHandle1
         (Some session1Ended) [] = (t', Ok (Some l))
    /\ heap tpm1 !! l = None
    /\ heap t1 !! l = None
    /\ heap t'
       = <[l := ObjectContext {| o_handle := persistentHandle1;
                                 o_public := o_public object1;
                                 o_name := o_name object1 |}]> (heap t1)
    /\ heap t' !! 2%positive = Some (ObjectContext object1)
    /\ resources t'
       = <[normalizeHandleForMap persistentHandle1 := l]> (resources t1)
    /\ invalidated t' = invalidated t1
    /\ exclusiveSession t' = exclusiveSession t1
    /\ device t' = [].
Proof.
  apply (EvictControl_persist tpm1 3%positive 2%positive persistentHandle1
           (Some session1Ended) [] (OtherContext HandleOwner) object1 []).
  - reflexivity.
  - reflexivity.
  - vm_compute. discriminate.
  - reflexivity.
Defined.

(** X12: the persistent object of [tpm1persisted], evicted by the owner,
    authorized with [session1], which is continued. *)
Lemma EvictControl_evict_or_fail_witness :
  exists t1,
    t1 = processSessions
           {| device := []; issued := issued tpm1persisted;
              heap := heap tpm1persisted;
              invalidated := invalidated tpm1persisted;
              resources := resources tpm1persisted;
              exclusiveSession := exclusiveSession tpm1persisted |}
           [session1Continued] None
    /\ heap t1 !! 4%positive
       = Some (ObjectContext {| o_handle := persistentHandle1;
                                o_public := o_public object1;
                                o_name := o_name object1 |})
    /\ exists t',
         EvictControl tpm1persisted 3%positive 4%positive persistentHandle1
           (Some session1Continued) [] = (t', Ok None)
         /\ resources t'
            = delete (normalizeHandleForMap persistentHandle1) (resources t1)
         /\ invalidated t' = {[4%positive]} ∪ invalidated t1
         /\ heap t' = heap t1
         /\ exclusiveSession t' = exclusiveSession t1.
Proof.
  apply (EvictControl_evict_or_fail tpm1persisted 3%positive 4%positive
           persistentHandle1 (Some session1Continued) []
           (OtherContext HandleOwner)
           (ObjectContext {| o_handle := persistentHandle1;
                             o_public := o_public object1;
                             o_name := o_name object1 |}) [] None).
  - vm_compute. reflexivity.
  - vm_compute. reflexivity.
  - intros sc. discriminate.
  - reflexivity.
  - reflexivity.
Defined.

(** X13 on [tpm1]. *)
Lemma registryKeyed_preserved_witness :
  (forall l t' r, ContextSave tpm1 l = (t', r) -> registryKeyed t')
  /\ (forall context t' r,
        ContextLoad tpm1 context = (t', r) -> registryKeyed t')
  /\ (forall startupType t' r,
        Startup tpm1 startupType = (t', r) -> registryKeyed t')
  /\ (forall l t' r, FlushContext tpm1 l = (t', r) -> registryKeyed t')
  /\ (forall auth object persistentHandle authAuthSession sessions t' r,
        EvictControl tpm1 auth object persistentHandle authAuthSession sessions
        = (t', r) -> registryKeyed t').
Proof.
  apply (registryKeyed_preserved tpm1). exact Scenarios.tpm1_keyed.
Defined.

(** C7 fails when the TPM command fails: [Startup] on [tpm1Refusing]
    returns the error of the command, and the session and the transient
    object, whose handle types are none of PCR, NV index, permanent and
    persistent, are still in the resource map and not invalidated. *)
Theorem Startup_failed_command_evicts_nothing :
  snd (Startup tpm1Refusing 0) = Err (DeviceError 0x100)
  /\ resources (fst (Startup tpm1Refusing 0)) !! 0x02000000 = Some 1%positive
  /\ heap (fst (Startup tpm1Refusing 0)) !! 1%positive
     = Some (SessionContext session1)
  /\ Handle_Type (s_handle session1) = HandleTypeHMACSession
  /\ resources (fst (Startup tpm1Refusing 0)) !! 0x80000001 = Some 2%positive
  /\ heap (fst (Startup tpm1Refusing 0)) !! 2%positive
     = Some (ObjectContext object1)
  /\ Handle_Type (o_handle object1) = HandleTypeTransient
  /\ invalidated (fst (Startup tpm1Refusing 0)) = ∅
  /\ (forall ty,
        ty = HandleTypeHMACSession \/ ty = HandleTypeTransient ->
        ty <> HandleTypePCR /\ ty <> HandleTypeNVIndex
        /\ ty <> HandleTypePermanent /\ ty <> HandleTypePersistent).
Proof.
  destruct (Startup_command_error (H1 := refusing) tpm1Refusing 0 tt 0x100
              eq_refl) as (t' & -> & Hres & Hheap & Hinv).
  cbn [fst snd]. rewrite Hres, Hheap, Hinv.
  split_and!; try reflexivity.
  intros ty [->| ->]; vm_compute; split_and!; discriminate.
Qed.

(** X16 on the expiration of [TestPolicyTicketFromSigned]. *)
Lemma aHashInput_binds_expiration_witness :
  -60 = -60
  /\ [x01] ++ [x02] = [x01] ++ [x02]
  /\ length (SignedMessage.aHashInput true (zeros 32) (-60) [x01] [x02])
     = ((if true then length (zeros 32) else 0) + 4 + length [x01]
        + length [x02])%nat.
Proof.
  apply (SignedMessage.aHashInput_binds_expiration true (zeros 32) (-60) (-60)
           [x01] [x02] [x01] [x02]); [lia|lia|reflexivity].
Defined.

End Scenarios2.

(** ** Create and Load on a sample device *)

Module SampleImpl.
Import Impl ImplObjects.

(** A [tpmImpl] whose state counts the commands run.  The owner hierarchy
    is the only resource context it knows; the private part returned by
    [Create] is made of the sensitive parameter it was sent, and the object
    loaded by the n-th command gets the n-th transient handle. *)
#[global] Instance sample_impl : Impl.Collaborators := {|
  ResourceContext := Handle;
  ResourceContext_Handle := fun h => h;
  PCRSelectionList := unit;
  CreationData := unit;
  TkCreation := unit;
  Session := unit;
  State := nat;
  checkResourceContextParam := fun _ h =>
    if h =? HandleOwner then None
    else Some (InvalidParamError "unknown resource context");
  execCreate := fun n _ inSensitive inPublic _ _ _ =>
    (S n, inr (UserAuth inSensitive ++ Data inSensitive, inPublic, tt, [], tt))
|}.

#[global] Instance sample_objects : ImplObjects.Collaborators := {|
  Sensitive := bytes;
  Copy := fun p => Some p;
  execLoad := fun n _ _ inPublic _ =>
    (S n, inr (0x80000000 + Z.of_nat n, default [] (Sample.nameOf inPublic)));
  execLoadExternal := fun n _ inPublic _ =>
    (S n, inr (0x80000000 + Z.of_nat n, default [] (Sample.nameOf inPublic)));
  execReadPublic := fun n _ => (S n, inl (OtherError 0x18b))
|}.

Definition impl0 : tpmImpl := {| state := 0%nat; issued := [] |}.

Definition objects0 : tpmObjects := {| impl := 0%nat; registered := ∅ |}.

End SampleImpl.

Module ScenariosImpl.
Import Impl ImplObjects SampleImpl.

(** C10 on [impl0]: the two refusals, and [Create] with a nil
    [inSensitive] under the owner hierarchy, where the device is sent the
    empty value and its answer is returned. *)
Lemma Create_nil_arguments_witness :
  Create impl0 None None (Some Sample.public1) [] tt tt
  = (impl0, inl (InvalidParamError "nil parentHandle"))
  /\ Create impl0 (Some HandleOwner) None None [] tt tt
     = (impl0, inl (InvalidParamError "nil inPublic"))
  /\ Create impl0 (Some HandleOwner) None (Some Sample.public1) [] tt tt
     = ({| state := 1%nat;
           issued := [ {| cc_parent := HandleOwner;
                          cc_inSensitive := emptySensitiveCreate;
                          cc_inPublic := Sample.public1;
                          cc_outsideInfo := [];
                          cc_creationPCR := tt;
                          cc_session := tt |} ] |},
        inr ([], Sample.public1, tt, [], tt)).
Proof.
  destruct (ImplFacts.Create_nil_arguments impl0 None None (Some Sample.public1) [] tt tt)
    as (Hparent & Hpublic & _ & Hsensitive).
  split; [exact Hparent|]. split; [exact (Hpublic HandleOwner)|].
  exact (Hsensitive HandleOwner Sample.public1).
Defined.

(** X15 on [objects0]: an object loaded under the owner hierarchy and one
    loaded without a parent. *)
Lemma Load_registers_on_success_witness :
  (exists t',
     Load objects0 (Some HandleOwner) [] (Some Sample.public1) tt
     = (t', inr ({| o_handle := 0x80000000; o_public := Sample.public1;
                    o_name := o_name Sample.object1 |},
                 o_name Sample.object1))
     /\ impl t' = 1%nat
     /\ registered t' !! 0x80000000
        = Some {| o_handle := 0x80000000; o_public := Sample.public1;
                  o_name := o_name Sample.object1 |}
     /\ (forall h, h <> 0x80000000 ->
           registered t' !! h = registered objects0 !! h))
  /\ (exists t',
        LoadExternal objects0 None (Some Sample.public1) HandleOwner
        = (t', inr ({| o_handle := 0x80000000; o_public := Sample.public1;
                       o_name := o_name Sample.object1 |},
                    o_name Sample.object1))
        /\ impl t' = 1%nat
        /\ registered t' !! 0x80000000
           = Some {| o_handle := 0x80000000; o_public := Sample.public1;
                     o_name := o_name Sample.object1 |}
        /\ (forall h, h <> 0x80000000 ->
              registered t' !! h = registered objects0 !! h))
  /\ registered (fst (ReadPublic objects0 (Some HandleOwner)))
     = registered objects0.
Proof.
  apply (ImplObjectsFacts.Load_registers_on_success objects0 HandleOwner [] Sample.public1 tt
           Sample.public1 1%nat
           (inr (0x80000000, o_name Sample.object1)) None HandleOwner 1%nat
           (inr (0x80000000, o_name Sample.object1))); reflexivity.
Defined.

End ScenariosImpl.
